(** * kaishaku: the session lifecycle manager of [src/kaishaku.c]

    A shallow embedding of the command handlers of kaishaku and of the
    small C runtime they rest on (record files, the static string
    buffers, the git gateway), followed by the properties of the
    specification that concern them.

    Modelling conventions.
    - The record store is a finite map from path strings to nodes.  Paths
      are compared literally (no [.], [..] or doubled-slash normalisation),
      and the only I/O failures are the structural ones: a missing parent
      directory, a node of the wrong kind, a non-empty directory.  The
      root directory needs no entry: it always exists, and permissions are
      not modelled, so a file can be created in it.
    - A [char*] is a [ptr]: either an immutable string (a literal, an
      [argv] entry, a local array that is filled once) or the address of
      one of the [static] buffers ([path_buffer] of [safe_path_join],
      [buffer] of [read_from_file], [time_str] of [get_session_time]) or
      of the global [error_message].  Reading through such a pointer
      yields whatever the buffer holds at that moment, so two pointers
      returned by two calls of [safe_path_join] are the same pointer.
    - The [SESSION_FILE]-style macros call [safe_path_join] with its own
      static buffer as first argument.  C leaves an [snprintf] whose
      source overlaps its destination undefined; the model follows what
      glibc and musl do: [vsnprintf] stores the terminator in the first
      byte of the destination before it formats, so a [dir] argument that
      is the buffer itself is read as the empty string and the nested call
      yields ["/session"], ["/head"], ["/time"] or ["/desc"], whatever the
      session.
    - [atol] and [atoi] are those of glibc: [strtol] in base ten, which
      saturates at the bounds of [long], and for [atoi] the conversion of
      that value to [int].
    - git is an opaque executor: a transition function on an abstract
      repository state, given the command line.  Every command line handed
      to [popen] is appended to [git_log].
    - [system] runs its command through the same executor, the output of
      the child going to standard output; [rename(2)] is an arbitrary
      function on the record store.
    - [exit(n)] is the [Exit n] outcome of the command monad.
    - All twelve handlers, [load_config] and [main] are modelled.  The
      configuration is a field of the process state: [invoke] runs one
      handler on the configuration it is given, [run_main] is the whole
      process, which starts from the defaults and runs [load_config]. *)

From Stdlib Require Import ZArith String Ascii List Bool Lia DecimalString
  DecimalPos DecimalN.
From stdpp Require Import base gmap strings.

Set Default Proof Using "Type".

(** ** Strings of the C runtime *)

Definition nl_char : ascii := ascii_of_nat 10.
Definition nl : string := String nl_char "".
Definition dquote : string := String (ascii_of_nat 34) "".
Definition ESC : string := String (ascii_of_nat 27) "".

Definition COLOR_RESET : string := ESC +:+ "[0m".
Definition COLOR_GREEN : string := ESC +:+ "[32m".
Definition COLOR_YELLOW : string := ESC +:+ "[33m".
Definition COLOR_CYAN : string := ESC +:+ "[36m".
Definition COLOR_WHITE : string := ESC +:+ "[37m".
Definition COLOR_RED : string := ESC +:+ "[31m".

Definition KAISHAKU_DIR : string := ".git/kaishaku".
Definition ACTIVE_FILE : string := KAISHAKU_DIR +:+ "/.active".
Definition DEFAULT_BUFFER_SIZE : nat := 512.
Definition MAX_PATH_LENGTH : nat := 1024.
Definition EXIT_FAILURE : Z := 1.

(** What [snprintf(buf, size, ...)] leaves in [buf] when the formatted
    text is [s]: at most [size - 1] characters. *)
Definition snprintf (size : nat) (s : string) : string :=
  String.substring 0 (size - 1) s.

(** The characters [fgets] stores when [room] characters still fit: it
    stops after a newline. *)
Fixpoint fgets_line (room : nat) (s : string) : string :=
  match room, s with
  | S room', String c r =>
      if Ascii.eqb c nl_char then nl else String c (fgets_line room' r)
  | _, _ => ""
  end.

(** [fgets(buf, size, stream)] on a stream whose unread content is [s];
    [None] is the NULL it returns at end of file, leaving [buf] alone. *)
Definition fgets (size : nat) (s : string) : option string :=
  match s with
  | "" => None
  | _ => Some (fgets_line (size - 1) s)
  end.

(** The "remove trailing newline" step that follows both [fgets] calls. *)
Fixpoint chomp (s : string) : string :=
  match s with
  | "" => ""
  | String c r =>
      match r with
      | "" => if Ascii.eqb c nl_char then "" else s
      | _ => String c (chomp r)
      end
  end.

(** First line of a stream as the two readers of the program see it. *)
Definition first_line (content : string) : option string :=
  chomp <$> fgets DEFAULT_BUFFER_SIZE content.

Definition string_of_Z (z : Z) : string := NilZero.string_of_int (Z.to_int z).

(** [strtol] in base ten: optional blanks, optional sign, then the
    decimal digits; a value outside [long] is replaced by the nearest
    bound. *)
Definition LONG_MAX : Z := 2 ^ 63 - 1.
Definition LONG_MIN : Z := - 2 ^ 63.

Fixpoint atol_digits (acc : Z) (s : string) : Z :=
  match s with
  | String c r =>
      match Ascii.is_nat c with
      | Some d => atol_digits (10 * acc + Z.of_nat d) r
      | None => acc
      end
  | "" => acc
  end.

Fixpoint decimal_value (s : string) : Z :=
  match s with
  | String c r =>
      if Ascii.is_space c then decimal_value r
      else if Ascii.eqb c "-" then - atol_digits 0 r
      else if Ascii.eqb c "+" then atol_digits 0 r
      else atol_digits 0 s
  | "" => 0
  end%Z.

Definition atol (s : string) : Z :=
  Z.max LONG_MIN (Z.min LONG_MAX (decimal_value s)).

(** The conversion of a [long] to [int]: the low 32 bits, as a signed
    number. *)
Definition int_of_long (z : Z) : Z := (z + 2 ^ 31) mod 2 ^ 32 - 2 ^ 31.

(** [atoi] is [(int) strtol (s, NULL, 10)]. *)
Definition atoi (s : string) : Z := int_of_long (atol s).

(** ** The record store *)

Inductive node : Type :=
  | File (content : string)
  | Dir.

Inductive errno : Type := ENOENT | ENOTDIR | EISDIR | EEXIST | ENOTEMPTY.

Definition strerror (e : errno) : string :=
  match e with
  | ENOENT => "No such file or directory"
  | ENOTDIR => "Not a directory"
  | EISDIR => "Is a directory"
  | EEXIST => "File exists"
  | ENOTEMPTY => "Directory not empty"
  end.

(** Parent directory of a path: everything before its last slash; [None]
    for a path without slash, whose parent is the working directory. *)
Fixpoint dirname (p : string) : option string :=
  match p with
  | "" => None
  | String c r =>
      match dirname r with
      | Some d => Some (String c d)
      | None => if Ascii.eqb c "/" then Some "" else None
      end
  end.

(** Can a new entry be created at [p]?  Its parent must be a directory. *)
Definition parent_check (fs : gmap string node) (p : string) : option errno :=
  match dirname p with
  | None | Some "" => None
  | Some d =>
      match fs !! d with
      | Some Dir => None
      | Some (File _) => Some ENOTDIR
      | None => Some ENOENT
      end
  end.

Definition has_child (fs : gmap string node) (p : string) : bool :=
  existsb (fun kv => String.prefix (p +:+ "/") kv.1) (map_to_list fs).

Fixpoint no_slash (s : string) : bool :=
  match s with
  | "" => true
  | String c r => negb (Ascii.eqb c "/") && no_slash r
  end.

Fixpoint drop_string (n : nat) (s : string) : string :=
  match n, s with
  | S n', String _ r => drop_string n' r
  | _, _ => s
  end.

(** The names [readdir] yields for directory [d], in enumeration order of
    the store, after the two entries every directory has. *)
Definition readdir (fs : gmap string node) (d : string) : list string :=
  let pre := d +:+ "/" in
  "." :: ".." ::
  omap (fun kv : string * node =>
          let name := drop_string (String.length pre) kv.1 in
          if String.prefix pre kv.1 && no_slash name
             && negb (String.eqb name "")
          then Some name else None)
       (map_to_list fs).

Definition fs_unlink (fs : gmap string node) (p : string)
  : errno + gmap string node :=
  match fs !! p with
  | Some (File _) => inr (delete p fs)
  | Some Dir => inl EISDIR
  | None => inl ENOENT
  end.

Definition fs_rmdir (fs : gmap string node) (p : string)
  : errno + gmap string node :=
  match fs !! p with
  | Some Dir => if has_child fs p then inl ENOTEMPTY else inr (delete p fs)
  | Some (File _) => inl ENOTDIR
  | None => inl ENOENT
  end.

Definition fs_mkdir (fs : gmap string node) (p : string)
  : errno + gmap string node :=
  match fs !! p with
  | Some _ => inl EEXIST
  | None =>
      match parent_check fs p with
      | Some e => inl e
      | None => inr (<[p := Dir]> fs)
      end
  end.

(** [fopen(p, "w")] followed by one [fprintf] of [text]. *)
Definition fs_write (fs : gmap string node) (p text : string)
  : errno + gmap string node :=
  match fs !! p with
  | Some Dir => inl EISDIR
  | Some (File _) => inr (<[p := File text]> fs)
  | None =>
      match parent_check fs p with
      | Some e => inl e
      | None => inr (<[p := File text]> fs)
      end
  end.

(** The line a reader gets from the record at [p], if any. *)
Definition record_at (fs : gmap string node) (p : string) : option string :=
  match fs !! p with
  | Some (File c) => first_line c
  | _ => None
  end.

(** ** The process state *)

Inductive stream : Type := Stdout | Stderr.

(** [struct config] with its three [int] fields. *)
Record config_t : Type := Config {
  confirm_exit : Z;
  auto_stash : Z;
  auto_save : Z;
}.

Definition default_config : config_t :=
  {| confirm_exit := 1; auto_stash := 0; auto_save := 0 |}.

(** C truth value of an [int]. *)
Definition truthy (z : Z) : bool := negb (z =? 0)%Z.

(** What one [popen]/[pclose] round trip can give. *)
Inductive git_result : Type :=
  | SpawnFailed
  | Finished (out : string) (status : Z).

Inductive ptr : Type :=
  | Str (s : string)   (* literal, argv entry or filled local array *)
  | PathBuf            (* [path_buffer] of safe_path_join *)
  | ReadBuf            (* [buffer] of read_from_file *)
  | TimeBuf            (* [time_str] of get_session_time *)
  | ErrMsg.            (* the global [error_message] *)

Inductive outcome (A : Type) : Type :=
  | Ret (a : A)
  | Exit (code : Z).
Arguments Ret {A} a.
Arguments Exit {A} code.

Section State.

(** The repository git works on is an abstract type. *)
Context {Repo : Type}.

Record world : Type := World {
  fs : gmap string node;
  path_buffer : string;
  buffer : string;
  time_str : string;
  error_message : string;
  config : config_t;
  repo : Repo;
  git_log : list string;
  stdin : string;
  output : list (stream * string);
  now : Z;
}.

Definition set_fs (w : world) (x : gmap string node) : world :=
  World x (path_buffer w) (buffer w) (time_str w) (error_message w)
        (config w) (repo w) (git_log w) (stdin w) (output w) (now w).
Definition set_path_buffer (w : world) (x : string) : world :=
  World (fs w) x (buffer w) (time_str w) (error_message w)
        (config w) (repo w) (git_log w) (stdin w) (output w) (now w).
Definition set_buffer (w : world) (x : string) : world :=
  World (fs w) (path_buffer w) x (time_str w) (error_message w)
        (config w) (repo w) (git_log w) (stdin w) (output w) (now w).
Definition set_time_str (w : world) (x : string) : world :=
  World (fs w) (path_buffer w) (buffer w) x (error_message w)
        (config w) (repo w) (git_log w) (stdin w) (output w) (now w).
Definition set_error_message (w : world) (x : string) : world :=
  World (fs w) (path_buffer w) (buffer w) (time_str w) x
        (config w) (repo w) (git_log w) (stdin w) (output w) (now w).
Definition set_git (w : world) (r : Repo) (cmd : string) : world :=
  World (fs w) (path_buffer w) (buffer w) (time_str w) (error_message w)
        (config w) r (git_log w ++ [cmd]) (stdin w) (output w) (now w).
Definition set_stdin (w : world) (x : string) : world :=
  World (fs w) (path_buffer w) (buffer w) (time_str w) (error_message w)
        (config w) (repo w) (git_log w) x (output w) (now w).
Definition add_output (w : world) (st : stream) (x : string) : world :=
  World (fs w) (path_buffer w) (buffer w) (time_str w) (error_message w)
        (config w) (repo w) (git_log w) (stdin w) (output w ++ [(st, x)])
        (now w).

Definition deref (w : world) (p : ptr) : string :=
  match p with
  | Str s => s
  | PathBuf => path_buffer w
  | ReadBuf => buffer w
  | TimeBuf => time_str w
  | ErrMsg => error_message w
  end.

(** ** The command monad: state passing with early [exit] *)

Definition M (A : Type) : Type := world -> outcome A * world.

Definition ret {A} (a : A) : M A := fun w => (Ret a, w).
Definition bind {A B} (m : M A) (k : A -> M B) : M B := fun w =>
  match m w with
  | (Ret a, w') => k a w'
  | (Exit c, w') => (Exit c, w')
  end.
Definition exit {A} (code : Z) : M A := fun w => (Exit code, w).

End State.

Arguments world : clear implicits.
Arguments M : clear implicits.

Notation "'let*' x := m 'in' k" := (bind m (fun x => k))
  (at level 10, x name, m at level 100, k at level 200).
Notation "m >> k" := (bind m (fun _ => k))
  (at level 100, k at level 200, right associativity).

Section Kaishaku.

(** The external collaborators: git itself, as a transition on the
    repository, and the local-time formatting of [get_session_time]
    ([None] when [localtime] gives NULL). *)
Context {Repo : Type}.
Variable git : string -> Repo -> git_result * Repo.
Variable strftime_local : Z -> option string.

Local Abbreviation world := (world Repo).
Local Abbreviation M := (M Repo).

Definition when (b : bool) (m : M unit) : M unit := if b then m else ret tt.

(** The text of a [%s]-only format: the arguments are read, in order,
    through their pointers at the time of the call. *)
Definition format (w : world) (parts : list ptr) : string :=
  foldr (fun p acc => deref w p +:+ acc) "" parts.

Definition fprintf (st : stream) (parts : list ptr) : M unit := fun w =>
  (Ret tt, add_output w st (format w parts)).

(** [snprintf] into a local array of [size] bytes; the result is the
    array's content. *)
Definition snprintf_local (size : nat) (parts : list ptr) : M string :=
  fun w => (Ret (snprintf size (format w parts)), w).

(** glibc prints a NULL [%s] argument as [(null)]. *)
Definition or_text (alt : string) (p : option ptr) : ptr :=
  match p with Some q => q | None => Str alt end.

Definition strcmp_eq (a b : ptr) : M bool := fun w =>
  (Ret (String.eqb (deref w a) (deref w b)), w).

Definition getchar : M (option ascii) := fun w =>
  match stdin w with
  | "" => (Ret None, w)
  | String c r => (Ret (Some c), set_stdin w r)
  end.

(** ** Runtime helpers of the program *)

(** [snprintf] starts by storing the terminator in [path_buffer[0]]: a
    [dir] that is [path_buffer] itself is the empty string by the time
    [%s] reads it.  (No caller passes the buffer as [file]; it is read
    here as the text it held before the call.) *)
Definition safe_path_join (dir file : ptr) : M ptr := fun w =>
  let d := match dir with PathBuf => "" | _ => deref w dir end in
  let s := d +:+ "/" +:+ deref w file in
  let w1 := set_path_buffer w (snprintf MAX_PATH_LENGTH s) in
  if (MAX_PATH_LENGTH <=? String.length s)%nat then
    (fprintf Stderr [Str "Error: Path too long: "; dir; Str "/"; file; Str nl]
     >> exit EXIT_FAILURE) w1
  else (Ret PathBuf, w1).

Definition SESSION_DIR (session : ptr) : M ptr :=
  safe_path_join (Str KAISHAKU_DIR) session.
Definition SESSION_FILE (session : ptr) : M ptr :=
  let* d := SESSION_DIR session in safe_path_join d (Str "session").
Definition HEAD_FILE (session : ptr) : M ptr :=
  let* d := SESSION_DIR session in safe_path_join d (Str "head").
Definition SESSION_TIME_FILE (session : ptr) : M ptr :=
  let* d := SESSION_DIR session in safe_path_join d (Str "time").
Definition SESSION_DESC_FILE (session : ptr) : M ptr :=
  let* d := SESSION_DIR session in safe_path_join d (Str "desc").

Definition file_exists (filename : ptr) : M bool := fun w =>
  (Ret (bool_decide (is_Some (fs w !! deref w filename))), w).

Definition unlink (path : ptr) : M (option errno) := fun w =>
  match fs_unlink (fs w) (deref w path) with
  | inl e => (Ret (Some e), w)
  | inr fs' => (Ret None, set_fs w fs')
  end.

Definition rmdir (path : ptr) : M (option errno) := fun w =>
  match fs_rmdir (fs w) (deref w path) with
  | inl e => (Ret (Some e), w)
  | inr fs' => (Ret None, set_fs w fs')
  end.

Definition ensure_directory_exists (dir : ptr) : M unit := fun w =>
  let d := deref w dir in
  match fs w !! d with
  | Some Dir => (Ret tt, w)
  | Some (File _) =>
      (fprintf Stderr [Str "Error: "; dir; Str " exists but is not a directory";
                       Str nl] >> exit EXIT_FAILURE) w
  | None =>
      match parent_check (fs w) d with
      | Some ENOTDIR =>
          (* stat fails with an errno other than ENOENT *)
          (fprintf Stderr [Str "Error: Cannot access directory "; dir; Str ": ";
                           Str (strerror ENOTDIR); Str nl]
           >> exit EXIT_FAILURE) w
      | _ =>
          (* Directory doesn't exist, create it *)
          match fs_mkdir (fs w) d with
          | inl e =>
              (fprintf Stderr [Str "Error: Failed to create directory "; dir;
                               Str ": "; Str (strerror e); Str nl]
               >> exit EXIT_FAILURE) w
          | inr fs' => (Ret tt, set_fs w fs')
          end
      end
  end.

(** [opendir] and the whole run of [readdir] calls that follows it. *)
Definition opendir (d : string) : M (errno + list string) := fun w =>
  match fs w !! d with
  | Some Dir => (Ret (inr (readdir (fs w) d)), w)
  | Some (File _) => (Ret (inl ENOTDIR), w)
  | None => (Ret (inl ENOENT), w)
  end.

(** A [while] loop over directory entries that threads the loop's local
    variable. *)
Fixpoint for_each {A S} (body : A -> S -> M S) (l : list A) (s : S) : M S :=
  match l with
  | [] => ret s
  | x :: l' => let* s' := body x s in for_each body l' s'
  end.

Definition write_to_file (path content : ptr) : M bool := fun w =>
  match fs_write (fs w) (deref w path) (deref w content +:+ nl) with
  | inl e =>
      (fprintf Stderr [Str "Error: Failed to write to "; path; Str ": ";
                       Str (strerror e); Str nl] >> ret false) w
  | inr fs' => (Ret true, set_fs w fs')
  end.

Definition read_from_file (path : ptr) : M (option ptr) := fun w =>
  match record_at (fs w) (deref w path) with
  | Some l => (Ret (Some ReadBuf), set_buffer w l)
  | None => (Ret None, w)
  end.

(** [execute_git_command(cmd, output, size)].  [output] is the content of
    the caller's array before the call, [None] for a NULL [output]; the
    result pairs the returned flag with the array's content afterwards. *)
Definition execute_git_command (cmd : string) (output : option string)
  : M (bool * option string) := fun w =>
  let (res, r') := git cmd (repo w) in
  let w1 := set_git w r' cmd in
  let failed (why : string) (o : option string) :=
    (Ret (false, o),
     set_error_message w1 (snprintf DEFAULT_BUFFER_SIZE (why +:+ cmd))) in
  match res with
  | SpawnFailed => failed "Failed to execute command: " output
  | Finished out status =>
      let check (o : option string) :=
        if (status =? 0)%Z then (Ret (true, o), w1)
        else failed ("Command failed with status " +:+ string_of_Z status
                     +:+ ": ") o in
      match output with
      | None => check None
      | Some _ =>
          match fgets DEFAULT_BUFFER_SIZE out with
          | None => failed "Command returned no output: " output
          | Some l => check (Some (chomp l))
          end
      end
  end.

Definition update_timestamp (session : ptr) : M unit :=
  let* timestamp :=
    (fun w => (Ret (snprintf DEFAULT_BUFFER_SIZE (string_of_Z (now w))), w)) in
  let* p := SESSION_TIME_FILE session in
  write_to_file p (Str timestamp) >> ret tt.

Definition get_session_time (session : ptr) : M ptr :=
  let* p := SESSION_TIME_FILE session in
  let* timestamp := read_from_file p in
  match timestamp with
  | None => ret (Str "unknown")
  | Some t => fun w =>
      match strftime_local (atol (deref w t)) with
      | None => (Ret (Str "invalid"), w)
      | Some s => (Ret TimeBuf, set_time_str w (snprintf DEFAULT_BUFFER_SIZE s))
      end
  end.

(** ** The command handlers *)

Definition usage_lines : list string :=
  [ COLOR_CYAN +:+ "kaishaku - a minimal tool for safe Git experimentation via detached HEAD sessions" +:+ COLOR_RESET +:+ nl +:+ nl;
    COLOR_CYAN +:+ "Usage:" +:+ COLOR_RESET +:+ nl;
    "  " +:+ COLOR_YELLOW +:+ "kaishaku checkout" +:+ COLOR_RESET +:+ " <session> [<commit>]  Start a new session from commit" +:+ nl;
    "  " +:+ COLOR_YELLOW +:+ "kaishaku switch" +:+ COLOR_RESET +:+ " <session>              Switch to an existing session" +:+ nl;
    "  " +:+ COLOR_YELLOW +:+ "kaishaku branch" +:+ COLOR_RESET +:+ " <name>                 Create a branch from current session" +:+ nl;
    "  " +:+ COLOR_YELLOW +:+ "kaishaku save" +:+ COLOR_RESET +:+ " <name>                   Save session changes to original branch" +:+ nl;
    "  " +:+ COLOR_YELLOW +:+ "kaishaku status" +:+ COLOR_RESET +:+ "                        Show current session status" +:+ nl;
    "  " +:+ COLOR_YELLOW +:+ "kaishaku list" +:+ COLOR_RESET +:+ "                          List all sessions" +:+ nl;
    "  " +:+ COLOR_YELLOW +:+ "kaishaku clean" +:+ COLOR_RESET +:+ " [<session>]             Remove session(s)" +:+ nl;
    "  " +:+ COLOR_YELLOW +:+ "kaishaku exit" +:+ COLOR_RESET +:+ " [--force | --keep | --save | --no-save]  Exit session and return to original branch" +:+ nl;
    "  " +:+ COLOR_YELLOW +:+ "kaishaku config" +:+ COLOR_RESET +:+ " [get|set] <key> [<value>]  Get or set configuration" +:+ nl;
    "  " +:+ COLOR_YELLOW +:+ "kaishaku recover" +:+ COLOR_RESET +:+ " <session>             Recover a corrupted session" +:+ nl;
    "  " +:+ COLOR_YELLOW +:+ "kaishaku rename" +:+ COLOR_RESET +:+ " <old> <new>            Rename a session" +:+ nl;
    "  " +:+ COLOR_YELLOW +:+ "kaishaku abort" +:+ COLOR_RESET +:+ " [<session>]             Abort and clean up a session" +:+ nl;
    "  " +:+ COLOR_YELLOW +:+ "kaishaku help" +:+ COLOR_RESET +:+ "                          Show this help message" +:+ nl;
    nl +:+ COLOR_CYAN +:+ "Configuration options:" +:+ COLOR_RESET +:+ nl;
    "  " +:+ COLOR_YELLOW +:+ "confirm.exit" +:+ COLOR_RESET +:+ "    Whether to confirm before exiting (0/1)" +:+ nl;
    "  " +:+ COLOR_YELLOW +:+ "auto.stash" +:+ COLOR_RESET +:+ "      Whether to auto-stash changes on exit (0/1)" +:+ nl;
    "  " +:+ COLOR_YELLOW +:+ "auto.save" +:+ COLOR_RESET +:+ "       Whether to auto-save changes on exit (0/1)" +:+ nl +:+ nl ].

Definition usage {A} : M A :=
  foldr (fun l k => fprintf Stdout [Str l] >> k) (exit 0) usage_lines.

Definition git_failed {A} : M A :=
  fprintf Stderr [Str "Error: "; ErrMsg; Str nl] >> exit EXIT_FAILURE.

Definition cmd_checkout (session commit : option string) : M unit :=
  match session with
  | None => usage
  | Some session =>
      let session := Str session in
      ensure_directory_exists (Str KAISHAKU_DIR) >>
      let* session_dir := SESSION_DIR session in
      ensure_directory_exists session_dir >>
      let* r := execute_git_command "git rev-parse --abbrev-ref HEAD" (Some "") in
      if negb r.1 then git_failed else
      let current_branch := default "" r.2 in
      let* p := SESSION_FILE session in
      let* ok := write_to_file p (Str current_branch) in
      if negb ok then exit EXIT_FAILURE else
      let* commit :=
        match commit with
        | Some c => ret c
        | None =>
            let* r := execute_git_command "git rev-parse HEAD" (Some "") in
            if negb r.1 then git_failed else ret (default "" r.2)
        end in
      let* p := HEAD_FILE session in
      let* ok := write_to_file p (Str commit) in
      if negb ok then exit EXIT_FAILURE else
      let* ok := write_to_file (Str ACTIVE_FILE) session in
      if negb ok then exit EXIT_FAILURE else
      update_timestamp session >>
      let* git_cmd := snprintf_local (DEFAULT_BUFFER_SIZE + 27)
                        [Str "git checkout "; Str commit; Str " --detach"] in
      let* r := execute_git_command git_cmd None in
      if negb r.1 then git_failed else
      fprintf Stdout [Str COLOR_GREEN; Str "Session '"; session;
                      Str "' started at "; Str commit; Str COLOR_RESET; Str nl]
  end.

Definition cmd_switch (session : option string) : M unit :=
  match session with
  | None => usage
  | Some session =>
      let session := Str session in
      ensure_directory_exists (Str KAISHAKU_DIR) >>
      let* p := HEAD_FILE session in
      let* target_head := read_from_file p in
      match target_head with
      | None =>
          fprintf Stderr [Str "Error: Session '"; session; Str "' not found.";
                          Str nl] >> exit EXIT_FAILURE
      | Some target_head =>
          let* ok := write_to_file (Str ACTIVE_FILE) session in
          if negb ok then exit EXIT_FAILURE else
          update_timestamp session >>
          let* git_cmd := snprintf_local DEFAULT_BUFFER_SIZE
                            [Str "git checkout "; target_head; Str " --detach"] in
          let* r := execute_git_command git_cmd None in
          if negb r.1 then git_failed else
          fprintf Stdout [Str COLOR_GREEN; Str "Switched to session '"; session;
                          Str "'"; Str COLOR_RESET; Str nl]
      end
  end.

Definition cmd_save (branch_name : option string) : M unit :=
  match branch_name with
  | None => usage
  | Some branch_name =>
      let branch_name := Str branch_name in
      let* ex := file_exists (Str ACTIVE_FILE) in
      if negb ex then
        fprintf Stderr [Str "Error: No active kaishaku session"; Str nl]
        >> exit EXIT_FAILURE
      else
      let* session := read_from_file (Str ACTIVE_FILE) in
      match session with
      | None =>
          fprintf Stderr [Str "Error: Failed to read active session"; Str nl]
          >> exit EXIT_FAILURE
      | Some session =>
          let* p := SESSION_FILE session in
          let* original_branch := read_from_file p in
          match original_branch with
          | None =>
              fprintf Stderr [Str "Error: Original branch not found for session '";
                              session; Str "'"; Str nl] >> exit EXIT_FAILURE
          | Some original_branch =>
              (* Create a temporary branch from current session *)
              let* cmd := snprintf_local DEFAULT_BUFFER_SIZE
                            [Str "git checkout -b "; branch_name] in
              let* r := execute_git_command cmd None in
              if negb r.1 then
                fprintf Stderr [Str "Error: Failed to create branch: "; ErrMsg;
                                Str nl] >> exit EXIT_FAILURE
              else
              (* Switch back to original branch *)
              let* cmd := snprintf_local DEFAULT_BUFFER_SIZE
                            [Str "git checkout "; original_branch] in
              let* r := execute_git_command cmd None in
              if negb r.1 then
                fprintf Stderr [Str "Error: Failed to return to original branch: ";
                                ErrMsg; Str nl] >> exit EXIT_FAILURE
              else
              (* Merge the temporary branch *)
              let* cmd := snprintf_local DEFAULT_BUFFER_SIZE
                            [Str "git merge "; branch_name] in
              let* r := execute_git_command cmd None in
              if negb r.1 then
                (* If merge fails, clean up and exit *)
                let* cmd := snprintf_local DEFAULT_BUFFER_SIZE
                              [Str "git checkout "; branch_name] in
                execute_git_command cmd None >>
                let* cmd := snprintf_local DEFAULT_BUFFER_SIZE
                              [Str "git branch -D "; branch_name] in
                execute_git_command cmd None >>
                fprintf Stderr [Str "Error: Failed to merge changes. Please resolve conflicts manually.";
                                Str nl] >> exit EXIT_FAILURE
              else
              (* Delete the temporary branch *)
              let* cmd := snprintf_local DEFAULT_BUFFER_SIZE
                            [Str "git branch -D "; branch_name] in
              let* r := execute_git_command cmd None in
              when (negb r.1)
                (fprintf Stderr [Str "Warning: Failed to delete temporary branch '";
                                 branch_name; Str "'"; Str nl]) >>
              let* p := HEAD_FILE session in
              write_to_file p (Str "HEAD") >>
              update_timestamp session >>
              fprintf Stdout [Str COLOR_GREEN;
                              Str "Successfully saved changes from session '";
                              session; Str "' to branch '"; original_branch;
                              Str "'"; Str COLOR_RESET; Str nl]
          end
      end
  end.

(** The four option tests and the two configuration overrides at the
    head of [cmd_exit]. *)
Record exit_mode : Type := ExitMode {
  force : bool;
  keep : bool;
  save : bool;
  no_save : bool;
}.

Definition option_is (option : option string) (flag : string) : bool :=
  match option with
  | Some o => String.eqb o flag
  | None => false
  end.

Definition requested_mode (option : option string) : exit_mode :=
  {| force := option_is option "--force";
     keep := option_is option "--keep";
     save := option_is option "--save";
     no_save := option_is option "--no-save" |}.

Definition resolve_mode (cfg : config_t) (m : exit_mode) : exit_mode :=
  (* Check if we should automatically save changes *)
  let save := if truthy (auto_save cfg) && negb (no_save m) then true
              else save m in
  (* Check if we should automatically stash changes (only if not saving) *)
  let keep := if truthy (auto_stash cfg) && negb save && negb (force m)
              then true else keep m in
  {| force := force m; keep := keep; save := save; no_save := no_save m |}.

Definition is_yes (c : option ascii) : bool :=
  match c with
  | Some c => Ascii.eqb c "y" || Ascii.eqb c "Y"
  | None => false
  end.

(** The three closing blocks of [cmd_exit], named after their comments
    in the source. *)

(** "Confirm before discarding changes if needed" *)
Definition confirm_discard (mode : exit_mode) (cfg : config_t)
    (has_changes : bool) : M unit :=
  when (negb (force mode) && negb (keep mode) && negb (save mode)
        && truthy (confirm_exit cfg) && has_changes)
    (fprintf Stdout [Str "Discard uncommitted changes and exit? (y/N): "] >>
     let* c := getchar in
     when (negb (is_yes c))
       (fprintf Stdout [Str "Aborted."; Str nl] >> exit 0)).

(** "Handle changes based on configuration and options" *)
Definition handle_changes (mode : exit_mode) (session : ptr)
    (has_changes : bool) : M unit :=
  if has_changes then
    if save mode then
      (* Save changes before exiting *)
      let* commit_msg := snprintf_local DEFAULT_BUFFER_SIZE
          [Str "[kaishaku] Save changes from session '"; session; Str "'"] in
      let* commit_cmd := snprintf_local (DEFAULT_BUFFER_SIZE + 19)
          [Str "git commit -m "; Str dquote; Str commit_msg; Str dquote] in
      let* r := execute_git_command commit_cmd None in
      if negb r.1 then
        fprintf Stderr [Str "Error: Failed to save changes: "; ErrMsg; Str nl]
        >> exit EXIT_FAILURE
      else
      fprintf Stdout [Str COLOR_GREEN; Str "Changes saved successfully.";
                      Str COLOR_RESET; Str nl]
    else if keep mode then
      (* Save the current stash before exiting *)
      let* stash_msg := snprintf_local DEFAULT_BUFFER_SIZE
          [Str "kaishaku: auto-stash from session '"; session; Str "'"] in
      let* stash_cmd := snprintf_local (DEFAULT_BUFFER_SIZE + 23)
          [Str "git stash push -m "; Str dquote; Str stash_msg; Str dquote] in
      let* r := execute_git_command stash_cmd None in
      if negb r.1 then
        fprintf Stderr [Str "Warning: "; ErrMsg; Str nl] >>
        fprintf Stderr [Str "Continuing without stashing changes."; Str nl]
      else
      fprintf Stdout [Str COLOR_GREEN;
                      Str "Changes stashed successfully. Use 'git stash list' to see your stashes.";
                      Str COLOR_RESET; Str nl]
    else
      let* r := execute_git_command "git reset --hard" None in
      if negb r.1 then git_failed else
      fprintf Stdout [Str COLOR_YELLOW; Str "Changes discarded.";
                      Str COLOR_RESET; Str nl]
  else
    when (keep mode || save mode)
      (fprintf Stdout [Str COLOR_YELLOW; Str "No changes to save or stash.";
                       Str COLOR_RESET; Str nl]).

(** "Return to original branch" *)
Definition return_to_branch (session original_branch : ptr) : M unit :=
  let* git_cmd := snprintf_local DEFAULT_BUFFER_SIZE
                    [Str "git checkout "; original_branch] in
  let* r := execute_git_command git_cmd None in
  if negb r.1 then git_failed else
  unlink (Str ACTIVE_FILE) >>
  fprintf Stdout [Str COLOR_GREEN; Str "Returned to branch '"; original_branch;
                  Str "' from session '"; session; Str "'"; Str COLOR_RESET;
                  Str nl].

Definition cmd_exit (option : option string) : M unit :=
  let* ex := file_exists (Str ACTIVE_FILE) in
  if negb ex then
    fprintf Stderr [Str "Error: No active kaishaku session."; Str nl]
    >> exit EXIT_FAILURE
  else
  let* session := read_from_file (Str ACTIVE_FILE) in
  match session with
  | None =>
      fprintf Stderr [Str "Error: Failed to read active session."; Str nl]
      >> exit EXIT_FAILURE
  | Some session =>
      let* p := SESSION_FILE session in
      let* original_branch := read_from_file p in
      match original_branch with
      | None =>
          fprintf Stderr [Str "Error: Original branch not found for session '";
                          session; Str "'"; Str nl] >> exit EXIT_FAILURE
      | Some original_branch =>
          let* cfg := (fun w => (Ret (config w), w)) in
          let mode := resolve_mode cfg (requested_mode option) in
          (* Check if there are actually any changes *)
          let* r := execute_git_command "git status --porcelain" (Some "") in
          let has_changes :=
            r.1 && negb (String.eqb (default "" r.2) "") in
          confirm_discard mode cfg has_changes >>
          handle_changes mode session has_changes >>
          return_to_branch session original_branch
      end
  end.

(** [entry->d_name[0] == '.' || strcmp(entry->d_name, ".active") == 0] *)
Definition skip_entry (d_name : string) : bool :=
  match d_name with
  | String c _ => Ascii.eqb c "."
  | "" => false
  end || String.eqb d_name ".active".

Definition no_sessions : M unit :=
  fprintf Stdout [Str COLOR_YELLOW; Str "No kaishaku sessions exist.";
                  Str COLOR_RESET; Str nl].

(** [git rev-parse --verify] on a ref that was read, 1 when it is NULL. *)
Definition verify_ref (ref : option ptr) : M bool :=
  match ref with
  | Some r =>
      let* check := snprintf_local DEFAULT_BUFFER_SIZE
                      [Str "git rev-parse --verify "; r] in
      let* res := execute_git_command check None in
      ret res.1
  | None => ret true
  end.

(** One turn of the loop of [cmd_list]; the threaded variable is [found]. *)
Definition list_entry (active_session : string) (d_name : string)
    (found : bool) : M bool :=
  (* Skip dotfiles and the active session marker *)
  if skip_entry d_name then ret found else
  let* session_file := SESSION_FILE (Str d_name) in
  let* head_file := HEAD_FILE (Str d_name) in
  let* has_session := file_exists session_file in
  let* corrupted :=
    if negb has_session then ret true
    else let* has_head := file_exists head_file in ret (negb has_head) in
  if corrupted then
    (* Skip corrupted sessions but warn about them *)
    fprintf Stderr [Str COLOR_YELLOW; Str "Warning: Session '"; Str d_name;
                    Str "' appears to be corrupted. Use 'recover' to fix.";
                    Str COLOR_RESET; Str nl] >> ret found
  else
  let* original_branch := read_from_file session_file in
  let* head := read_from_file head_file in
  (* Verify branch and commit still exist *)
  let* branch_exists := verify_ref original_branch in
  let* commit_exists := verify_ref head in
  (* Check if this is the active session *)
  let is_active := negb (String.eqb active_session "")
                   && String.eqb active_session d_name in
  fprintf Stdout [Str "  "; Str (if is_active then COLOR_GREEN else "");
                  Str (if is_active then "* " else "  "); Str COLOR_YELLOW;
                  Str d_name; Str nl] >>
  let* t := get_session_time (Str d_name) in
  fprintf Stdout [Str "    "; Str COLOR_CYAN; Str "Last modified:";
                  Str COLOR_RESET; Str " "; Str COLOR_WHITE; t; Str nl] >>
  fprintf Stdout [Str "    "; Str COLOR_CYAN; Str "Original branch:";
                  Str COLOR_RESET; Str " "; Str COLOR_WHITE;
                  or_text "(unknown)" original_branch;
                  Str (if branch_exists then "" else " (missing)"); Str nl] >>
  fprintf Stdout [Str "    "; Str COLOR_CYAN; Str "Session HEAD:";
                  Str COLOR_RESET; Str " "; Str COLOR_WHITE;
                  or_text "(unknown)" head;
                  Str (if commit_exists then "" else " (missing)"); Str nl] >>
  (* Add warning for corrupted sessions *)
  when (negb branch_exists || negb commit_exists)
    (fprintf Stdout [Str "    "; Str COLOR_YELLOW;
                     Str "Warning: Session may be corrupted. Use 'recover' to fix.";
                     Str COLOR_RESET; Str nl]) >>
  ret true.

Definition cmd_list : M unit :=
  let* ex := file_exists (Str KAISHAKU_DIR) in
  if negb ex then no_sessions else
  let* dir := opendir KAISHAKU_DIR in
  match dir with
  | inl e =>
      fprintf Stderr [Str COLOR_RED;
                      Str "Error: Failed to open sessions directory: ";
                      Str (strerror e); Str COLOR_RESET; Str nl]
      >> exit EXIT_FAILURE
  | inr entries =>
      (* Read active session first *)
      let* ex := file_exists (Str ACTIVE_FILE) in
      let* active_session :=
        if ex then
          let* session := read_from_file (Str ACTIVE_FILE) in
          match session with
          | Some s => snprintf_local DEFAULT_BUFFER_SIZE [s]
          | None => ret ""
          end
        else ret "" in
      fprintf Stdout [Str COLOR_CYAN; Str "kaishaku sessions:"; Str COLOR_RESET;
                      Str nl] >>
      let* found := for_each (list_entry active_session) entries false in
      when (negb found) no_sessions
  end.

(** Is [name] what the active-session file holds?  False when the file
    is absent or unreadable. *)
Definition is_active_session (name : ptr) : M bool :=
  let* ex := file_exists (Str ACTIVE_FILE) in
  if negb ex then ret false else
  let* active_session := read_from_file (Str ACTIVE_FILE) in
  match active_session with
  | Some a => strcmp_eq a name
  | None => ret false
  end.

(** One turn of the loop of [cmd_clean]; the threaded variable is
    [cleaned]. *)
Definition clean_entry (d_name : string) (cleaned : Z) : M Z :=
  (* Skip dotfiles and the active session marker *)
  if skip_entry d_name then ret cleaned else
  let* session_dir := SESSION_DIR (Str d_name) in
  let* ex := file_exists session_dir in
  if negb ex then ret cleaned else
  (* Check if it's the active session *)
  let* active := is_active_session (Str d_name) in
  if active then ret cleaned else
  let* session_file := SESSION_FILE (Str d_name) in
  let* head_file := HEAD_FILE (Str d_name) in
  unlink session_file >>
  unlink head_file >>
  rmdir session_dir >>
  ret (cleaned + 1)%Z.

Definition cmd_clean (session : option string) : M unit :=
  let* ex := file_exists (Str KAISHAKU_DIR) in
  if negb ex then no_sessions else
  (* If active session exists and trying to clean it, error out *)
  (let* ex := file_exists (Str ACTIVE_FILE) in
   when ex
     (let* active_session := read_from_file (Str ACTIVE_FILE) in
      match active_session with
      | Some a =>
          let* hit := match session with
                      | None => ret true
                      | Some s => strcmp_eq (Str s) a
                      end in
          when hit
            (fprintf Stderr [Str "Error: Cannot clean active session '"; a;
                             Str "'. Exit the session first."; Str nl]
             >> exit EXIT_FAILURE)
      | None => ret tt
      end)) >>
  match session with
  | Some session =>
      (* Clean specific session *)
      let session := Str session in
      let* session_dir := SESSION_DIR session in
      let* ex := file_exists session_dir in
      if negb ex then
        fprintf Stderr [Str "Error: Session '"; session; Str "' not found.";
                        Str nl] >> exit EXIT_FAILURE
      else
      let* session_file := SESSION_FILE session in
      let* head_file := HEAD_FILE session in
      let* u := unlink session_file in
      let* failed := match u with
                     | Some e => ret (Some e)
                     | None => unlink head_file
                     end in
      match failed with
      | Some e =>
          fprintf Stderr [Str "Error: Failed to remove session files: ";
                          Str (strerror e); Str nl] >> exit EXIT_FAILURE
      | None =>
          let* r := rmdir session_dir in
          match r with
          | Some e =>
              fprintf Stderr [Str "Error: Failed to remove session directory: ";
                              Str (strerror e); Str nl] >> exit EXIT_FAILURE
          | None =>
              fprintf Stdout [Str COLOR_GREEN; Str "Session '"; session;
                              Str "' cleaned."; Str COLOR_RESET; Str nl]
          end
      end
  | None =>
      (* Clean all sessions *)
      let* dir := opendir KAISHAKU_DIR in
      match dir with
      | inl e =>
          fprintf Stderr [Str "Error: Failed to open sessions directory: ";
                          Str (strerror e); Str nl] >> exit EXIT_FAILURE
      | inr entries =>
          let* cleaned := for_each clean_entry entries 0%Z in
          fprintf Stdout [Str COLOR_GREEN; Str (string_of_Z cleaned);
                          Str " session(s) cleaned."; Str COLOR_RESET; Str nl]
      end
  end.

Definition cmd_recover (session : option string) : M unit :=
  match session with
  | None => usage
  | Some session =>
      let session := Str session in
      let* ex := file_exists (Str KAISHAKU_DIR) in
      if negb ex then
        fprintf Stderr [Str COLOR_RED; Str "Error: No kaishaku sessions exist.";
                        Str COLOR_RESET; Str nl] >> exit EXIT_FAILURE
      else
      let* session_dir := SESSION_DIR session in
      let* ex := file_exists session_dir in
      if negb ex then
        fprintf Stderr [Str COLOR_RED; Str "Error: Session '"; session;
                        Str "' not found."; Str COLOR_RESET; Str nl]
        >> exit EXIT_FAILURE
      else
      (* Check if session is already active *)
      let* active := is_active_session session in
      if active then
        fprintf Stderr [Str COLOR_RED; Str "Error: Session '"; session;
                        Str "' is already active."; Str COLOR_RESET; Str nl]
        >> exit EXIT_FAILURE
      else
      (* Verify session files *)
      let* session_file := SESSION_FILE session in
      let* head_file := HEAD_FILE session in
      let* has_session := file_exists session_file in
      let* corrupted :=
        if negb has_session then ret true
        else let* has_head := file_exists head_file in ret (negb has_head) in
      if corrupted then
        fprintf Stderr [Str COLOR_RED; Str "Error: Session '"; session;
                        Str "' is corrupted. Missing required files.";
                        Str COLOR_RESET; Str nl] >> exit EXIT_FAILURE
      else
      let* original_branch := read_from_file session_file in
      let* head := read_from_file head_file in
      let original_branch := or_text "(null)" original_branch in
      let head := or_text "(null)" head in
      (* Verify original branch exists *)
      let* branch_check := snprintf_local DEFAULT_BUFFER_SIZE
                             [Str "git rev-parse --verify "; original_branch] in
      let* r := execute_git_command branch_check None in
      (if negb r.1 then
         fprintf Stderr [Str COLOR_YELLOW; Str "Warning: Original branch '";
                         original_branch;
                         Str "' not found. Creating new branch.";
                         Str COLOR_RESET; Str nl] >>
         (* Create new branch from current HEAD *)
         let* create_branch := snprintf_local DEFAULT_BUFFER_SIZE
                                 [Str "git checkout -b "; original_branch] in
         let* r := execute_git_command create_branch None in
         when (negb r.1)
           (fprintf Stderr [Str COLOR_RED; Str "Error: Failed to create branch '";
                            original_branch; Str "'."; Str COLOR_RESET; Str nl]
            >> exit EXIT_FAILURE)
       else ret tt) >>
      (* Switch to the session *)
      let* ok := write_to_file (Str ACTIVE_FILE) session in
      if negb ok then
        fprintf Stderr [Str COLOR_RED; Str "Error: Failed to activate session.";
                        Str COLOR_RESET; Str nl] >> exit EXIT_FAILURE
      else
      let* git_cmd := snprintf_local DEFAULT_BUFFER_SIZE
                        [Str "git checkout "; head; Str " --detach"] in
      let* r := execute_git_command git_cmd None in
      if negb r.1 then
        fprintf Stderr [Str COLOR_RED; Str "Error: Failed to checkout commit: ";
                        ErrMsg; Str COLOR_RESET; Str nl] >> exit EXIT_FAILURE
      else
      fprintf Stdout [Str COLOR_GREEN; Str "Recovered session '"; session;
                      Str "'"; Str COLOR_RESET; Str nl]
  end.

Definition cmd_abort (session : option string) : M unit :=
  let* ex := file_exists (Str KAISHAKU_DIR) in
  if negb ex then
    fprintf Stderr [Str COLOR_RED; Str "Error: No kaishaku sessions exist.";
                    Str COLOR_RESET; Str nl] >> exit EXIT_FAILURE
  else
  (* If no session specified, abort current session *)
  let* session :=
    match session with
    | Some s => ret (Str s)
    | None =>
        let* ex := file_exists (Str ACTIVE_FILE) in
        if negb ex then
          fprintf Stderr [Str COLOR_RED; Str "Error: No active session to abort.";
                          Str COLOR_RESET; Str nl] >> exit EXIT_FAILURE
        else
        let* s := read_from_file (Str ACTIVE_FILE) in
        match s with
        | Some s => ret s
        | None =>
            fprintf Stderr [Str COLOR_RED;
                            Str "Error: Failed to read active session.";
                            Str COLOR_RESET; Str nl] >> exit EXIT_FAILURE
        end
    end in
  let* session_dir := SESSION_DIR session in
  let* ex := file_exists session_dir in
  if negb ex then
    fprintf Stderr [Str COLOR_RED; Str "Error: Session '"; session;
                    Str "' not found."; Str COLOR_RESET; Str nl]
    >> exit EXIT_FAILURE
  else
  (* If this is the active session, return to original branch *)
  (let* active := is_active_session session in
   when active
     (let* p := SESSION_FILE session in
      let* original_branch := read_from_file p in
      match original_branch with
      | Some original_branch =>
          let* git_cmd := snprintf_local DEFAULT_BUFFER_SIZE
                            [Str "git checkout "; original_branch] in
          let* r := execute_git_command git_cmd None in
          if negb r.1 then
            fprintf Stderr [Str COLOR_RED;
                            Str "Error: Failed to return to original branch: ";
                            ErrMsg; Str COLOR_RESET; Str nl]
            >> exit EXIT_FAILURE
          else
          unlink (Str ACTIVE_FILE) >> ret tt
      | None => ret tt
      end)) >>
  (* Clean up session files *)
  let* session_file := SESSION_FILE session in
  let* head_file := HEAD_FILE session in
  let* time_file := SESSION_TIME_FILE session in
  let* desc_file := SESSION_DESC_FILE session in
  unlink session_file >>
  unlink head_file >>
  unlink time_file >>
  unlink desc_file >>
  rmdir session_dir >>
  fprintf Stdout [Str COLOR_GREEN; Str "Aborted session '"; session; Str "'";
                  Str COLOR_RESET; Str nl].

End Kaishaku.

(** ** Invocations

    One run of the executable: the static buffers start out zeroed, the
    handler of the command runs, and the process status is that of
    [exit], or 0 when the handler returns to [main]. *)

Inductive command : Type :=
  | Checkout (session commit : option string)
  | Switch (session : option string)
  | Save (branch_name : option string)
  | ExitSession (option : option string)
  | ListSessions
  | Clean (session : option string)
  | Recover (session : option string)
  | Abort (session : option string).

Section Invocation.

Context {Repo : Type}.
Variable git : string -> Repo -> git_result * Repo.
Variable strftime_local : Z -> option string.

Definition handler (c : command) : M Repo unit :=
  match c with
  | Checkout session commit => cmd_checkout git session commit
  | Switch session => cmd_switch git session
  | Save branch_name => cmd_save git branch_name
  | ExitSession option => cmd_exit git option
  | ListSessions => cmd_list git strftime_local
  | Clean session => cmd_clean session
  | Recover session => cmd_recover git session
  | Abort session => cmd_abort git session
  end.

Definition fresh_process (w : world Repo) : world Repo :=
  World (fs w) "" "" "" "" (config w) (repo w) (git_log w) (stdin w)
        (output w) (now w).

Definition invoke (c : command) (w : world Repo) : Z * world Repo :=
  match handler c (fresh_process w) with
  | (Ret _, w') => (0%Z, w')
  | (Exit code, w') => (code, w')
  end.

(** Successive invocations; the statuses come out in order. *)
Fixpoint invoke_all (cs : list command) (w : world Repo)
  : list Z * world Repo :=
  match cs with
  | [] => ([], w)
  | c :: cs' =>
      let (code, w1) := invoke c w in
      let (codes, w2) := invoke_all cs' w1 in
      (code :: codes, w2)
  end.

End Invocation.

(** ** Vocabulary of the specification *)

(** Path of record [f] of session [s] in the layout of the
    specification: a file of the session's directory. *)
Definition session_path (s f : string) : string :=
  KAISHAKU_DIR +:+ "/" +:+ s +:+ "/" +:+ f.

(** Path at which the program keeps record [f]: what [SESSION_FILE],
    [HEAD_FILE], [SESSION_TIME_FILE] and [SESSION_DESC_FILE] yield, for
    every session. *)
Definition record_path (f : string) : string := "/" +:+ f.

Definition session_dir_path (s : string) : string :=
  KAISHAKU_DIR +:+ "/" +:+ s.

(** The active pointer: the name the pointer file yields to a reader. *)
Definition active_pointer (fs : gmap string node) : option string :=
  record_at fs ACTIVE_FILE.


(** What was printed on one stream, in order. *)
Definition on_stream (st : stream) (out : list (stream * string))
  : list string :=
  omap (fun e : stream * string =>
          match st, e.1 with
          | Stdout, Stdout | Stderr, Stderr => Some e.2
          | _, _ => None
          end) out.

(** The gateway's verdict on one round trip. *)
Definition git_ok (res : git_result) : bool :=
  match res with
  | Finished _ 0 => true
  | _ => false
  end.

(** The text [execute_git_command] leaves in [error_message] on failure
    of a command run without output capture. *)
Definition git_error (cmd : string) (res : git_result) : string :=
  snprintf DEFAULT_BUFFER_SIZE
    (match res with
     | SpawnFailed => "Failed to execute command: "
     | Finished _ status =>
         "Command failed with status " +:+ string_of_Z status +:+ ": "
     end +:+ cmd).

(** The world once [execute_git_command] has run [cmd] without output
    capture. *)
Definition after_git {Repo} (git : string -> Repo -> git_result * Repo)
    (cmd : string) (w : world Repo) : world Repo :=
  let res := git cmd (repo w) in
  if git_ok res.1 then set_git w res.2 cmd
  else set_error_message (set_git w res.2 cmd) (git_error cmd res.1).

(** Command lines as the handlers format them. *)
Definition git_checkout (ref : string) : string :=
  snprintf DEFAULT_BUFFER_SIZE ("git checkout " +:+ ref).
Definition git_checkout_detach (size : nat) (ref : string) : string :=
  snprintf size ("git checkout " +:+ ref +:+ " --detach").
Definition git_checkout_b (name : string) : string :=
  snprintf DEFAULT_BUFFER_SIZE ("git checkout -b " +:+ name).
Definition git_merge (name : string) : string :=
  snprintf DEFAULT_BUFFER_SIZE ("git merge " +:+ name).
Definition git_branch_D (name : string) : string :=
  snprintf DEFAULT_BUFFER_SIZE ("git branch -D " +:+ name).

(** A run leaves the temp branch of save-back alone when it issues no
    forced deletion of it. *)
Definition temp_branch_kept (log : list string) (branch : string) : Prop :=
  git_branch_D branch ∉ log.

(** [cmd_exit] sees uncommitted changes when the status command succeeds
    and its first line is not empty. *)
Definition reports_changes (res : git_result) : bool :=
  match res with
  | Finished out status =>
      match first_line out with
      | Some l => (status =? 0)%Z && negb (String.eqb l "")
      | None => false
      end
  | SpawnFailed => false
  end.

(** The character the next [getchar] yields, [None] at end of input. *)
Definition first_input {Repo} (w : world Repo) : option ascii :=
  match stdin w with
  | "" => None
  | String c _ => Some c
  end.

(** The confirmation prompt of [cmd_exit] is reached. *)
Definition prompt_reached (cfg : config_t) (option : option string)
    (status : git_result) : bool :=
  let m := resolve_mode cfg (requested_mode option) in
  negb (force m) && negb (keep m) && negb (save m)
  && truthy (confirm_exit cfg) && reports_changes status.




(** ** Example worlds

    A scripted git for the examples: it answers each command line with a
    fixed first line of output and fails exactly on the listed ones. *)

Fixpoint answer (answers : list (string * string)) (cmd : string) : string :=
  match answers with
  | [] => ""
  | (c, out) :: rest => if String.eqb c cmd then out else answer rest cmd
  end.

Definition scripted (failing : list string) (answers : list (string * string))
    (cmd : string) (r : unit) : git_result * unit :=
  (Finished (answer answers cmd)
     (if existsb (String.eqb cmd) failing then 1 else 0)%Z,
   tt).

Definition answers_main : list (string * string) :=
  [("git rev-parse --abbrev-ref HEAD", "main" +:+ nl);
   ("git rev-parse HEAD", "abc123" +:+ nl);
   ("git status --porcelain", " M kaishaku.c" +:+ nl)].

Definition git_fine : string -> unit -> git_result * unit :=
  scripted [] answers_main.

Definition git_conflict : string -> unit -> git_result * unit :=
  scripted ["git merge tmp"] answers_main.


Definition strftime_fixed (t : Z) : option string :=
  Some "2023-11-14 22:13:20".

Definition world_of (fs : gmap string node) (input : string) : world unit :=
  World fs "" "" "" "" default_config tt [] input [] 1700000100.

(** A repository with no session yet. *)
Definition fs_empty : gmap string node := {[ ".git" := Dir ]}.

(** Session [exp1], opened from [main] at [abc123], not active. *)
Definition fs_exp1 : gmap string node :=
  list_to_map
    [(".git", Dir); (".git/kaishaku", Dir); (".git/kaishaku/exp1", Dir);
     (".git/kaishaku/exp1/session", File ("main" +:+ nl));
     (".git/kaishaku/exp1/head", File ("abc123" +:+ nl));
     (".git/kaishaku/exp1/time", File ("1700000000" +:+ nl))].

(** The same with [exp1] active. *)
Definition fs_exp1_active : gmap string node :=
  <[ACTIVE_FILE := File ("exp1" +:+ nl)]> fs_exp1.


(** [exp1] without its original-ref record. *)
Definition fs_exp1_no_session : gmap string node :=
  delete ".git/kaishaku/exp1/session" fs_exp1.

(** The program keeps the original-ref, head and time records at paths
    that do not name the session.  [kept orig head fs] is [fs] with those
    records in place, as an open from [orig] at [head] leaves them. *)
Definition kept (orig head : string) (fs : gmap string node)
  : gmap string node :=
  <[record_path "session" := File (orig +:+ nl)]>
  (<[record_path "head" := File (head +:+ nl)]>
  (<[record_path "time" := File ("1700000000" +:+ nl)]> fs)).

(** [exp1] with its records in both places: in the session directory,
    where the specification puts them, and where the program reads
    them. *)
Definition fs_exp1_kept : gmap string node := kept "main" "abc123" fs_exp1.

Definition fs_exp1_kept_active : gmap string node :=
  <[ACTIVE_FILE := File ("exp1" +:+ nl)]> fs_exp1_kept.


(** [exp1] with a head record in both places and an original-ref record
    in neither. *)
Definition fs_exp1_head_only : gmap string node :=
  <[record_path "head" := File ("abc123" +:+ nl)]>
  (<[record_path "time" := File ("1700000000" +:+ nl)]> fs_exp1_no_session).

(** [exp1] active next to an inactive session [old]. *)
Definition fs_two_sessions : gmap string node :=
  <[".git/kaishaku/old" := Dir]>
  (<[".git/kaishaku/old/session" := File ("main" +:+ nl)]>
  (<[".git/kaishaku/old/head" := File ("0ld999" +:+ nl)]> fs_exp1_active)).

(** ** The remaining handlers and [main]

    [cmd_branch], [cmd_status], [cmd_rename], [cmd_config], [load_config],
    [get_command_offset] and [main].  Two further libc services appear:
    [system], which runs a command whose output goes straight to the
    terminal, and [rename], kept abstract as a function on the record
    store. *)

Definition set_config {Repo} (w : world Repo) (x : config_t) : world Repo :=
  World (fs w) (path_buffer w) (buffer w) (time_str w) (error_message w)
        x (repo w) (git_log w) (stdin w) (output w) (now w).

(** [COMMAND_LIST(CMD_NAME) " "]: the command names, each after a blank,
    and a final blank. *)
Definition COMMAND_STRING : string :=
  " checkout switch branch save exit status list clean config recover rename abort ".

(** [strstr(COMMAND_STRING, needle) - COMMAND_STRING], -1 for NULL. *)
Definition command_offset_of (needle : string) : Z :=
  match String.index 0 needle COMMAND_STRING with
  | Some n => Z.of_nat n
  | None => -1
  end.

Definition get_command_offset (cmd : string) : Z :=
  command_offset_of (snprintf 32 (" " +:+ cmd +:+ " ")).

(** The macro [CMD(c)]. *)
Definition CMD (c : string) : Z := command_offset_of (" " +:+ c +:+ " ").

Section Remaining.

Context {Repo : Type}.
Variable git : string -> Repo -> git_result * Repo.
Variable strftime_local : Z -> option string.
Variable rename_syscall :
  gmap string node -> string -> string -> errno + gmap string node.

Local Abbreviation M := (M Repo).

(** [system(cmd) > -1]: the command runs with the terminal as its output;
    the test fails only when no process could be started. *)
Definition system_ran (cmd : string) : M bool := fun w =>
  let (res, r') := git cmd (repo w) in
  let w1 := set_git w r' cmd in
  match res with
  | SpawnFailed => (Ret false, w1)
  | Finished out _ => (Ret true, add_output w1 Stdout out)
  end.

Definition rename (old new : ptr) : M (option errno) := fun w =>
  match rename_syscall (fs w) (deref w old) (deref w new) with
  | inl e => (Ret (Some e), w)
  | inr fs' => (Ret None, set_fs w fs')
  end.

Definition cmd_branch (branch_name : option string) : M unit :=
  match branch_name with
  | None => usage
  | Some branch_name =>
      let branch_name := Str branch_name in
      let* ex := file_exists (Str ACTIVE_FILE) in
      if negb ex then
        fprintf Stderr [Str "Error: No active kaishaku session."; Str nl]
        >> exit EXIT_FAILURE
      else
      let* git_cmd := snprintf_local DEFAULT_BUFFER_SIZE
                        [Str "git checkout -b "; branch_name] in
      let* r := execute_git_command git git_cmd None in
      if negb r.1 then git_failed else
      let* session := read_from_file (Str ACTIVE_FILE) in
      match session with
      | None =>
          fprintf Stderr [Str "Error: Failed to read active session."; Str nl]
          >> exit EXIT_FAILURE
      | Some session =>
          let* p := HEAD_FILE session in
          let* ok := write_to_file p (Str "HEAD") in
          if negb ok then exit EXIT_FAILURE else
          fprintf Stdout [Str COLOR_GREEN; Str "Created branch '"; branch_name;
                          Str "' from session '"; session; Str "'";
                          Str COLOR_RESET; Str nl]
      end
  end.

Definition yes_no (z : Z) : string := if truthy z then "yes" else "no".

Definition cmd_status : M unit :=
  let* ex := file_exists (Str ACTIVE_FILE) in
  if negb ex then
    fprintf Stdout [Str COLOR_YELLOW; Str "No active kaishaku session.";
                    Str COLOR_RESET; Str nl]
  else
  let* session := read_from_file (Str ACTIVE_FILE) in
  match session with
  | None =>
      fprintf Stderr [Str "Error: Failed to read active session."; Str nl]
  | Some session =>
      let* p := SESSION_FILE session in
      let* original_branch := read_from_file p in
      let* p := HEAD_FILE session in
      let* head := read_from_file p in
      fprintf Stdout [Str COLOR_CYAN; Str "Active session:"; Str COLOR_RESET;
                      Str " "; Str COLOR_WHITE; session; Str nl] >>
      fprintf Stdout [Str "  "; Str COLOR_CYAN; Str "Original branch:";
                      Str COLOR_RESET; Str " "; Str COLOR_WHITE;
                      or_text "(unknown)" original_branch; Str nl] >>
      fprintf Stdout [Str "  "; Str COLOR_CYAN; Str "Session HEAD:";
                      Str COLOR_RESET; Str " "; Str COLOR_WHITE;
                      or_text "(unknown)" head; Str nl] >>
      fprintf Stdout [Str nl; Str COLOR_CYAN; Str "Current HEAD:";
                      Str COLOR_RESET; Str nl] >>
      let* ran := system_ran "git log --oneline -1" in
      when ran
        (fprintf Stdout [Str nl; Str COLOR_CYAN; Str "Uncommitted changes:";
                         Str COLOR_RESET; Str nl] >>
         let* ran := system_ran "git status --short" in
         when ran
           (let* cfg := (fun w => (Ret (config w), w)) in
            fprintf Stdout [Str nl; Str COLOR_CYAN; Str "Configuration:";
                            Str COLOR_RESET; Str nl] >>
            fprintf Stdout [Str "  "; Str COLOR_CYAN; Str "confirm_exit:";
                            Str COLOR_RESET; Str " "; Str COLOR_WHITE;
                            Str (yes_no (confirm_exit cfg)); Str nl] >>
            fprintf Stdout [Str "  "; Str COLOR_CYAN; Str "auto_stash:";
                            Str COLOR_RESET; Str " "; Str COLOR_WHITE;
                            Str (yes_no (auto_stash cfg)); Str nl] >>
            fprintf Stdout [Str "  "; Str COLOR_CYAN; Str "auto_save:";
                            Str COLOR_RESET; Str " "; Str COLOR_WHITE;
                            Str (yes_no (auto_save cfg)); Str nl]))
  end.

Definition cmd_rename (old_name new_name : option string) : M unit :=
  match old_name, new_name with
  | Some old_name, Some new_name =>
      let old_name := Str old_name in
      let new_name := Str new_name in
      let* ex := file_exists (Str KAISHAKU_DIR) in
      if negb ex then
        fprintf Stderr [Str COLOR_RED; Str "Error: No kaishaku sessions exist.";
                        Str COLOR_RESET; Str nl] >> exit EXIT_FAILURE
      else
      let* old_dir := SESSION_DIR old_name in
      let* new_dir := SESSION_DIR new_name in
      let* ex := file_exists old_dir in
      if negb ex then
        fprintf Stderr [Str COLOR_RED; Str "Error: Session '"; old_name;
                        Str "' not found."; Str COLOR_RESET; Str nl]
        >> exit EXIT_FAILURE
      else
      let* ex := file_exists new_dir in
      if ex then
        fprintf Stderr [Str COLOR_RED; Str "Error: Session '"; new_name;
                        Str "' already exists."; Str COLOR_RESET; Str nl]
        >> exit EXIT_FAILURE
      else
      (* Check if old session is active *)
      let* active := is_active_session old_name in
      if active then
        fprintf Stderr [Str COLOR_RED;
                        Str "Error: Cannot rename active session. Exit the session first.";
                        Str COLOR_RESET; Str nl] >> exit EXIT_FAILURE
      else
      (* Rename the directory *)
      let* r := rename old_dir new_dir in
      match r with
      | Some e =>
          fprintf Stderr [Str COLOR_RED; Str "Error: Failed to rename session: ";
                          Str (strerror e); Str COLOR_RESET; Str nl]
          >> exit EXIT_FAILURE
      | None =>
          fprintf Stdout [Str COLOR_GREEN; Str "Renamed session '"; old_name;
                          Str "' to '"; new_name; Str "'"; Str COLOR_RESET;
                          Str nl]
      end
  | _, _ => usage
  end.

(** The three configuration keys with their fields in [struct config]. *)
Definition config_get (key : string) (cfg : config_t) : option Z :=
  if String.eqb key "confirm.exit" then Some (confirm_exit cfg)
  else if String.eqb key "auto.stash" then Some (auto_stash cfg)
  else if String.eqb key "auto.save" then Some (auto_save cfg)
  else None.

Definition config_set (key : string) (v : Z) (cfg : config_t)
  : option config_t :=
  if String.eqb key "confirm.exit" then
    Some {| confirm_exit := v; auto_stash := auto_stash cfg;
            auto_save := auto_save cfg |}
  else if String.eqb key "auto.stash" then
    Some {| confirm_exit := confirm_exit cfg; auto_stash := v;
            auto_save := auto_save cfg |}
  else if String.eqb key "auto.save" then
    Some {| confirm_exit := confirm_exit cfg; auto_stash := auto_stash cfg;
            auto_save := v |}
  else None.

Definition unknown_key {A} (key : string) : M A :=
  fprintf Stderr [Str "Error: Unknown config key '"; Str key; Str "'.";
                  Str nl] >> exit EXIT_FAILURE.

(** [cmd_config(argc, argv)]: [args] is [argv[0..argc-1]]. *)
Definition cmd_config (args : list string) : M unit :=
  match args with
  | [] =>
      fprintf Stderr [Str "Error: Missing config command."; Str nl]
      >> exit EXIT_FAILURE
  | cmd :: rest =>
      if String.eqb cmd "get" then
        match rest with
        | [] =>
            fprintf Stderr [Str "Error: Missing config key."; Str nl]
            >> exit EXIT_FAILURE
        | key :: _ =>
            let* cfg := (fun w => (Ret (config w), w)) in
            match config_get key cfg with
            | Some v =>
                fprintf Stdout [Str COLOR_WHITE; Str (string_of_Z v);
                                Str COLOR_RESET; Str nl]
            | None => unknown_key key
            end
        end
      else if String.eqb cmd "set" then
        match rest with
        | key :: value :: _ =>
            let bool_value := atoi value in
            let* cfg := (fun w => (Ret (config w), w)) in
            match config_set key bool_value cfg with
            | Some cfg' =>
                (fun w => (Ret tt, set_config w cfg')) >>
                fprintf Stdout [Str COLOR_GREEN; Str "Set "; Str key;
                                Str " = "; Str (string_of_Z bool_value);
                                Str COLOR_RESET; Str nl] >>
                (* Save the config to Git config *)
                let* git_cmd := snprintf_local DEFAULT_BUFFER_SIZE
                    [Str "git config --local kaishaku."; Str key; Str " ";
                     Str (string_of_Z bool_value)] in
                let* r := execute_git_command git git_cmd None in
                when (negb r.1)
                  (fprintf Stderr [Str "Warning: Failed to save config: ";
                                   ErrMsg; Str nl])
            | None => unknown_key key
            end
        | _ =>
            fprintf Stderr [Str "Error: Missing config key or value."; Str nl]
            >> exit EXIT_FAILURE
        end
      else
        fprintf Stderr [Str "Error: Unknown config command '"; Str cmd;
                        Str "'."; Str nl] >> exit EXIT_FAILURE
  end.

(** One of the three blocks of [load_config]: read the key from git, or
    write the current value of the field back when git has none. *)
Definition load_key (key : string) : M unit :=
  let* git_cmd := snprintf_local DEFAULT_BUFFER_SIZE
                    [Str "git config --get kaishaku."; Str key] in
  let* r := execute_git_command git git_cmd (Some "") in
  let* cfg := (fun w => (Ret (config w), w)) in
  if r.1 then
    match config_set key (atoi (default "" r.2)) cfg with
    | Some cfg' => fun w => (Ret tt, set_config w cfg')
    | None => ret tt
    end
  else
    (* Set default value if not configured *)
    let* git_cmd := snprintf_local DEFAULT_BUFFER_SIZE
        [Str "git config --local kaishaku."; Str key; Str " ";
         Str (string_of_Z (default 0%Z (config_get key cfg)))] in
    execute_git_command git git_cmd None >> ret tt.

Definition load_config : M unit :=
  (let* ex := file_exists (Str KAISHAKU_DIR) in
   when (negb ex) (ensure_directory_exists (Str KAISHAKU_DIR))) >>
  load_key "confirm.exit" >>
  load_key "auto.stash" >>
  load_key "auto.save".

(** [main(argc, argv)]; the result is the value it returns. *)
Definition main (argv : list string) : M Z :=
  match argv with
  | _ :: command :: rest =>
      if String.eqb command "help" then usage else
      let offset := get_command_offset command in
      if (offset =? -1)%Z then
        fprintf Stderr [Str "Unknown command: "; Str command; Str nl]
        >> ret 1%Z
      else
      load_config >>
      let argv2 := rest !! 0 in
      let argv3 := rest !! 1 in
      (if (offset =? CMD "checkout")%Z then cmd_checkout git argv2 argv3
       else if (offset =? CMD "switch")%Z then cmd_switch git argv2
       else if (offset =? CMD "branch")%Z then cmd_branch argv2
       else if (offset =? CMD "save")%Z then cmd_save git argv2
       else if (offset =? CMD "exit")%Z then cmd_exit git argv2
       else if (offset =? CMD "status")%Z then cmd_status
       else if (offset =? CMD "list")%Z then cmd_list git strftime_local
       else if (offset =? CMD "clean")%Z then cmd_clean argv2
       else if (offset =? CMD "config")%Z then cmd_config rest
       else if (offset =? CMD "recover")%Z then cmd_recover git argv2
       else if (offset =? CMD "rename")%Z then cmd_rename argv2 argv3
       else if (offset =? CMD "abort")%Z then cmd_abort git argv2
       else ret tt) >>
      ret 0%Z
  | _ => usage
  end.

(** The status of the process [main] runs in, started with zeroed
    static buffers and the default [config]. *)
Definition run_main (argv : list string) (w : world Repo) : Z * world Repo :=
  match main argv (set_config (fresh_process w) default_config) with
  | (Ret code, w') => (code, w')
  | (Exit code, w') => (code, w')
  end.

End Remaining.

(** ** Further vocabulary *)

Fixpoint no_newline (s : string) : bool :=
  match s with
  | "" => true
  | String c r => negb (Ascii.eqb c nl_char) && no_newline r
  end.

Fixpoint no_blank (s : string) : bool :=
  match s with
  | "" => true
  | String c r => negb (Ascii.eqb c " ") && no_blank r
  end.

(** [s] ends with [suffix]. *)
Definition ends_with (suffix s : string) : bool :=
  String.eqb (drop_string (String.length s - String.length suffix) s) suffix.

(** Whatever the outcome of [m], the store differs afterwards at most at
    paths that satisfy [P]. *)
Definition touches_only {Repo A} (P : string -> Prop) (m : M Repo A) : Prop :=
  forall (w : world Repo) (p : string),
    ~ P p -> fs (m w).2 !! p = fs w !! p.

(** A run that changed neither the record store nor the repository, and
    issued no git command. *)
Definition no_effect {Repo} (w w' : world Repo) : Prop :=
  fs w' = fs w /\ git_log w' = git_log w /\ repo w' = repo w.

(** The word at the start of [t]: its characters up to the first blank. *)
Fixpoint first_word (t : string) : string :=
  match t with
  | "" => ""
  | String c r => if Ascii.eqb c " " then "" else String c (first_word r)
  end.

(** The word that a search for a blank, a blank-free word and a blank
    finds at offset [n] of [COMMAND_STRING], if there is one. *)
Definition word_at (n : nat) : option string :=
  match drop_string n COMMAND_STRING with
  | String c t =>
      if Ascii.eqb c " " && String.prefix (first_word t +:+ " ") t
      then Some (first_word t) else None
  | "" => None
  end.

(** The line [execute_git_command] hands back in [output] when it reports
    success: the first line of what the command printed, when it printed
    something and ended with status 0. *)
Definition captured (res : git_result) : option string :=
  match res with
  | Finished out status => if (status =? 0)%Z then first_line out else None
  | SpawnFailed => None
  end.

(** The keys of [struct config] and the command lines that read and
    write them. *)
Definition config_keys : list string :=
  ["confirm.exit"; "auto.stash"; "auto.save"].
Definition git_config_get (key : string) : string :=
  snprintf DEFAULT_BUFFER_SIZE ("git config --get kaishaku." +:+ key).
Definition git_config_set (key : string) (v : Z) : string :=
  snprintf DEFAULT_BUFFER_SIZE
    ("git config --local kaishaku." +:+ key +:+ " " +:+ string_of_Z v).

(** One block of [load_config], for the field [key] holding [v], in
    repository state [r]: the answer of git to the query, the value the
    field has afterwards (the number in the answer, or [v]), the git
    commands issued, and the repository state they leave. *)
Definition load_answer {Repo} (git : string -> Repo -> git_result * Repo)
    (key : string) (r : Repo) : option string :=
  captured (git (git_config_get key) r).1.

Definition loaded {Repo} (git : string -> Repo -> git_result * Repo)
    (key : string) (v : Z) (r : Repo) : Z :=
  match load_answer git key r with
  | Some l => atoi l
  | None => v
  end.

Definition load_commands {Repo} (git : string -> Repo -> git_result * Repo)
    (key : string) (v : Z) (r : Repo) : list string :=
  git_config_get key ::
  match load_answer git key r with
  | Some _ => []
  | None => [git_config_set key v]
  end.

Definition repo_after_load {Repo} (git : string -> Repo -> git_result * Repo)
    (key : string) (v : Z) (r : Repo) : Repo :=
  let r' := (git (git_config_get key) r).2 in
  match load_answer git key r with
  | Some _ => r'
  | None => (git (git_config_set key v) r').2
  end.

(** The names in [COMMAND_LIST]. *)
Definition command_names : list string :=
  ["checkout"; "switch"; "branch"; "save"; "exit"; "status"; "list"; "clean";
   "config"; "recover"; "rename"; "abort"].

(** The handler each command name stands for, with the arguments [main]
    passes: [rest] is what follows the command word on the command line. *)
Definition handler_for {Repo} (git : string -> Repo -> git_result * Repo)
    (strftime_local : Z -> option string)
    (rename_syscall :
       gmap string node -> string -> string -> errno + gmap string node)
    (name : string) (rest : list string) : option (M Repo unit) :=
  let argv2 := rest !! 0 in
  let argv3 := rest !! 1 in
  if String.eqb name "checkout" then Some (cmd_checkout git argv2 argv3)
  else if String.eqb name "switch" then Some (cmd_switch git argv2)
  else if String.eqb name "branch" then Some (cmd_branch git argv2)
  else if String.eqb name "save" then Some (cmd_save git argv2)
  else if String.eqb name "exit" then Some (cmd_exit git argv2)
  else if String.eqb name "status" then Some (cmd_status git)
  else if String.eqb name "list" then Some (cmd_list git strftime_local)
  else if String.eqb name "clean" then Some (cmd_clean argv2)
  else if String.eqb name "config" then Some (cmd_config git rest)
  else if String.eqb name "recover" then Some (cmd_recover git argv2)
  else if String.eqb name "rename" then
    Some (cmd_rename rename_syscall argv2 argv3)
  else if String.eqb name "abort" then Some (cmd_abort git argv2)
  else None.

(** * Properties *)

(** ** Strings and records *)

Lemma length_app (a b : string) :
  String.length (a +:+ b) = String.length a + String.length b.
Proof. induction a as [|c a IH]; simpl; [done|]. by rewrite IH. Qed.

Lemma app_assoc_s (a b c : string) : (a +:+ b) +:+ c = a +:+ (b +:+ c).
Proof.
  induction a as [|x a IH]; [done|].
  change (String x ((a +:+ b) +:+ c) = String x (a +:+ b +:+ c)). by rewrite IH.
Qed.

Lemma substring_all (m : nat) (s : string) :
  String.length s ≤ m → String.substring 0 m s = s.
Proof.
  revert m. induction s as [|c s IH]; intros [|m] H; simpl in *; try done; try lia.
  f_equal. apply IH. lia.
Qed.

Lemma snprintf_fits (size : nat) (s : string) :
  String.length s < size → snprintf size s = s.
Proof. intros H. apply substring_all. lia. Qed.

Lemma fgets_line_length room s : String.length (fgets_line room s) ≤ room.
Proof.
  revert s. induction room as [|room IH]; intros [|c s]; simpl; try lia.
  destruct (Ascii.eqb c nl_char); simpl; [lia|]. specialize (IH s). lia.
Qed.

Lemma chomp_length s : String.length (chomp s) ≤ String.length s.
Proof.
  induction s as [|c s IH]; simpl; [lia|].
  destruct s as [|c' s']; [destruct (Ascii.eqb c nl_char); simpl; lia|].
  simpl in *. lia.
Qed.

Lemma fgets_length size c l :
  fgets size c = Some l → String.length l ≤ size - 1.
Proof.
  unfold fgets. destruct c as [|a c]; [done|].
  intros [= <-]. apply fgets_line_length.
Qed.

Lemma first_line_length c l :
  first_line c = Some l → String.length l < DEFAULT_BUFFER_SIZE.
Proof.
  unfold first_line. destruct (fgets DEFAULT_BUFFER_SIZE c) as [x|] eqn:E; [|done].
  intros [= <-]. apply fgets_length in E.
  pose proof (chomp_length x). unfold DEFAULT_BUFFER_SIZE in *. lia.
Qed.

Lemma record_at_length fs p l :
  record_at fs p = Some l → String.length l < DEFAULT_BUFFER_SIZE.
Proof.
  unfold record_at. destruct (fs !! p) as [[c|]|]; try done.
  apply first_line_length.
Qed.

Section Properties.
Context {Repo : Type} (git : string -> Repo -> git_result * Repo).
Implicit Types w : world Repo.

Lemma bind_ret {A B} (m : M Repo A) (k : A → M Repo B) w a w' :
  m w = (Ret a, w') → bind m k w = k a w'.
Proof. unfold bind. by intros ->. Qed.

Lemma bind_exit {A B} (m : M Repo A) (k : A → M Repo B) w c w' :
  m w = (Exit c, w') → bind m k w = (Exit c, w').
Proof. unfold bind. by intros ->. Qed.

(** Names whose record paths fit [path_buffer]. *)
Lemma short_name_fits (s : string) :
  String.length s < DEFAULT_BUFFER_SIZE →
  String.length s + 22 < MAX_PATH_LENGTH.
Proof. unfold DEFAULT_BUFFER_SIZE, MAX_PATH_LENGTH. lia. Qed.

Lemma SESSION_DIR_ok w (s : ptr) :
  String.length (deref w s) + 22 < MAX_PATH_LENGTH →
  SESSION_DIR s w
  = (Ret PathBuf, set_path_buffer w (session_dir_path (deref w s))).
Proof.
  intros H. unfold SESSION_DIR, safe_path_join, session_dir_path.
  cbn [deref].
  assert (String.length (KAISHAKU_DIR +:+ "/" +:+ deref w s) < MAX_PATH_LENGTH)
    as Hl.
  { rewrite !length_app. unfold MAX_PATH_LENGTH in *. simpl. lia. }
  rewrite snprintf_fits by done.
  destruct (Nat.leb_spec MAX_PATH_LENGTH
              (String.length (KAISHAKU_DIR +:+ "/" +:+ deref w s)));
    [lia|done].
Qed.

(** The nested call of the record macros: the directory argument is the
    buffer itself, so the result is ["/"] followed by the record name. *)
Lemma session_file_ok w (s : ptr) (f : string) :
  String.length f ≤ 7 →
  String.length (deref w s) + 22 < MAX_PATH_LENGTH →
  (let* d := SESSION_DIR s in safe_path_join d (Str f)) w
  = (Ret PathBuf, set_path_buffer w (record_path f)).
Proof.
  intros Hf H. erewrite bind_ret by by apply SESSION_DIR_ok.
  unfold safe_path_join, record_path.
  cbn [deref path_buffer set_path_buffer].
  assert (String.length ("" +:+ "/" +:+ f) < MAX_PATH_LENGTH) as Hl.
  { rewrite !length_app. unfold MAX_PATH_LENGTH in *. simpl. lia. }
  rewrite snprintf_fits by done.
  destruct (Nat.leb_spec MAX_PATH_LENGTH (String.length ("" +:+ "/" +:+ f)));
    [lia|done].
Qed.

Lemma read_from_file_some w (p : ptr) l :
  record_at (fs w) (deref w p) = Some l →
  read_from_file p w = (Ret (Some ReadBuf), set_buffer w l).
Proof. unfold read_from_file. by intros ->. Qed.

Lemma read_from_file_none w (p : ptr) :
  record_at (fs w) (deref w p) = None →
  read_from_file p w = (Ret None, w).
Proof. unfold read_from_file. by intros ->. Qed.

Lemma record_at_is_Some fs p l : record_at fs p = Some l → is_Some (fs !! p).
Proof. unfold record_at. destruct (fs !! p); [eauto|done]. Qed.

Lemma file_exists_true w (p : ptr) :
  is_Some (fs w !! deref w p) → file_exists p w = (Ret true, w).
Proof. intros H. unfold file_exists. by rewrite bool_decide_eq_true_2. Qed.

Lemma execute_git_command_status w :
  let cmd := "git status --porcelain" in
  ∃ o e, execute_git_command git cmd (Some "") w
         = (Ret o, set_error_message (set_git w (git cmd (repo w)).2 cmd) e)
         ∧ o.1 && negb (String.eqb (default "" o.2) "")
           = reports_changes (git cmd (repo w)).1.
Proof.
  intros cmd. unfold execute_git_command.
  destruct (git cmd (repo w)) as [[|out status] r']; cbn [fst snd reports_changes].
  - eexists _, _. split; reflexivity.
  - unfold first_line. destruct (fgets DEFAULT_BUFFER_SIZE out) as [l|]; simpl.
    + destruct (status =? 0)%Z eqn:E.
      * exists (true, Some (chomp l)), (error_message w). split; [|reflexivity].
        by destruct w.
      * eexists _, _. split; reflexivity.
    + eexists _, _. split; reflexivity.
Qed.

Ltac step_by tac := erewrite bind_ret by tac; lazy beta iota.

Ltac active_prefix :=
  step_by ltac:(apply file_exists_true; eauto using record_at_is_Some);
  cbn [negb];
  step_by ltac:(by apply read_from_file_some);
  step_by ltac:(apply session_file_ok;
                [simpl; lia
                |simpl; eauto using short_name_fits, record_at_length]);
  step_by ltac:(by apply read_from_file_some).

Lemma getchar_eq w :
  getchar w = (Ret (first_input w),
               match stdin w with "" => w | String _ r => set_stdin w r end).
Proof. unfold getchar, first_input. by destruct (stdin w). Qed.

Lemma record_at_file fs p l : record_at fs p = Some l → ∃ c, fs !! p = Some (File c).
Proof. unfold record_at. destruct (fs !! p) as [[c|]|]; try done. eauto. Qed.

Lemma execute_git_command_None w cmd :
  execute_git_command git cmd None w =
  (Ret (git_ok (git cmd (repo w)).1, None), after_git git cmd w).
Proof.
  unfold execute_git_command, after_git, git_error.
  destruct (git cmd (repo w)) as [[|out status] r']; cbn [fst snd git_ok]; [done|].
  destruct status; done.
Qed.

Lemma after_git_log w cmd : git_log (after_git git cmd w) = git_log w ++ [cmd].
Proof. unfold after_git. by destruct (git_ok _). Qed.
Lemma after_git_fs w cmd : fs (after_git git cmd w) = fs w.
Proof. unfold after_git. by destruct (git_ok _). Qed.
Lemma after_git_buffer w cmd : buffer (after_git git cmd w) = buffer w.
Proof. unfold after_git. by destruct (git_ok _). Qed.
Lemma after_git_path_buffer w cmd :
  path_buffer (after_git git cmd w) = path_buffer w.
Proof. unfold after_git. by destruct (git_ok _). Qed.
Lemma after_git_output w cmd : output (after_git git cmd w) = output w.
Proof. unfold after_git. by destruct (git_ok _). Qed.
Lemma after_git_stdin w cmd : stdin (after_git git cmd w) = stdin w.
Proof. unfold after_git. by destruct (git_ok _). Qed.
Lemma after_git_config w cmd : config (after_git git cmd w) = config w.
Proof. unfold after_git. by destruct (git_ok _). Qed.
Lemma after_git_now w cmd : now (after_git git cmd w) = now w.
Proof. unfold after_git. by destruct (git_ok _). Qed.
Lemma after_git_repo w cmd :
  repo (after_git git cmd w) = (git cmd (repo w)).2.
Proof. unfold after_git. by destruct (git_ok _). Qed.

Create Rewrite HintDb world.
Hint Rewrite after_git_log after_git_fs after_git_buffer after_git_path_buffer
  after_git_output after_git_stdin after_git_config after_git_now
  after_git_repo : world.

Ltac proj :=
  repeat first
    [ progress cbn [fs path_buffer buffer time_str error_message config repo
                    git_log stdin output now set_fs set_path_buffer set_buffer
                    set_time_str set_error_message set_git set_stdin
                    add_output deref]
    | progress autorewrite with world ].

Lemma app_empty_r (s : string) : s +:+ "" = s.
Proof. induction s as [|c s IH]; [done|]. change (String c (s +:+ "") = String c s). by rewrite IH. Qed.


Lemma bind_assoc {A B C} (m : M Repo A) (k1 : A → M Repo B) (k2 : B → M Repo C) w :
  bind (bind m k1) k2 w = bind m (fun a => bind (k1 a) k2) w.
Proof. unfold bind. by destruct (m w) as [[a|c] w1]. Qed.

Ltac run1 :=
  first
  [ progress (lazy beta iota)
  | progress (cbn [when negb andb orb fst snd])
  | rewrite bind_assoc
  | erewrite bind_ret by
      (first [apply execute_git_command_None | apply getchar_eq | reflexivity])
  | erewrite bind_exit by reflexivity
  | match goal with
    | |- context [if negb (git_ok ?x) then _ else _] =>
        destruct (git_ok x) eqn:?
    | |- context [if ?b then _ else _] => destruct b eqn:?
    end ].

Lemma unlink_file w (p : ptr) c :
  fs w !! deref w p = Some (File c) →
  unlink p w = (Ret None, set_fs w (delete (deref w p) (fs w))).
Proof. unfold unlink, fs_unlink. by intros ->. Qed.

Lemma format_1 w a (p : ptr) : format w [Str a; p] = a +:+ deref w p.
Proof. unfold format. cbn [foldr deref]. by rewrite app_empty_r. Qed.






(** With an active session and a readable original-ref record,
    [cmd_exit] comes down to its three closing blocks, run after the
    status command. *)
Lemma cmd_exit_blocks w option s orig :
  active_pointer (fs w) = Some s →
  record_at (fs w) (record_path "session") = Some orig →
  ∃ e,
    cmd_exit git option w =
    (let mode := resolve_mode (config w) (requested_mode option) in
     let ch := reports_changes (git "git status --porcelain" (repo w)).1 in
     confirm_discard mode (config w) ch >>
     handle_changes git mode ReadBuf ch >>
     return_to_branch git ReadBuf ReadBuf)
      (set_error_message
         (set_git
            (set_buffer
               (set_path_buffer (set_buffer w s) (record_path "session"))
               orig)
            (git "git status --porcelain" (repo w)).2
            "git status --porcelain") e).
Proof.
  intros Ha Ho. unfold active_pointer in Ha. unfold cmd_exit.
  active_prefix.
  step_by ltac:(reflexivity).
  edestruct execute_git_command_status as (x & e & Hex & Hch).
  step_by ltac:(exact Hex).
  rewrite Hch. proj. by exists e.
Qed.


(** C10: when the confirmation prompt is reached and the first input
    character is neither y nor Y (or the input is at its end), the
    process prints the prompt and Aborted., exits with status 0, has run
    no git command but the status query, and the record store (active
    pointer and session records) is unchanged. *)
Theorem exit_declined_changes_nothing w option s orig :
  active_pointer (fs w) = Some s →
  record_at (fs w) (record_path "session") = Some orig →
  prompt_reached (config w) option
    (git "git status --porcelain" (repo w)).1 = true →
  is_yes (first_input w) = false →
  ∃ w', cmd_exit git option w = (Exit 0, w')
        ∧ fs w' = fs w
        ∧ git_log w' = git_log w ++ ["git status --porcelain"]
        ∧ output w' = output w ++
            [(Stdout, "Discard uncommitted changes and exit? (y/N): ");
             (Stdout, "Aborted." +:+ nl)].
Proof.
  intros Ha Ho Hp Hn.
  destruct (cmd_exit_blocks w option s orig Ha Ho) as [e ->]. cbv zeta.
  unfold prompt_reached in Hp. unfold confirm_discard. rewrite Hp.
  cbn [when]. rewrite !bind_assoc.
  step_by ltac:(reflexivity). rewrite !bind_assoc.
  step_by ltac:(apply getchar_eq).
  unfold first_input in *. proj. rewrite Hn. cbn [when negb].
  rewrite !bind_assoc. step_by ltac:(reflexivity).
  erewrite bind_exit by reflexivity.
  eexists. split; [reflexivity|].
  destruct (stdin w); proj; rewrite <- ?app_assoc; done.
Qed.

(** Facts about a world that the record-writing helpers preserve. *)
Lemma write_to_file_frame (p c : ptr) w :
  ∃ b w', write_to_file p c w = (Ret b, w')
          ∧ git_log w' = git_log w ∧ repo w' = repo w
          ∧ buffer w' = buffer w ∧ now w' = now w
          ∧ ∀ q, q ≠ deref w p → fs w' !! q = fs w !! q.
Proof.
  unfold write_to_file, fs_write.
  destruct (fs w !! deref w p) as [[x|]|]; [| |destruct (parent_check _ _)].
  all: try (step_by ltac:(reflexivity)); unfold ret.
  all: eexists _, _; split; [reflexivity|]; proj; split_and!; try done.
  all: intros q Hq; by rewrite lookup_insert_ne.
Qed.

Lemma update_timestamp_frame (session : ptr) w :
  String.length (deref w session) + 22 < MAX_PATH_LENGTH →
  ∃ w', update_timestamp session w = (Ret tt, w')
        ∧ git_log w' = git_log w ∧ repo w' = repo w
        ∧ buffer w' = buffer w
        ∧ ∀ q, q ≠ record_path "time" → fs w' !! q = fs w !! q.
Proof.
  intros Hl. unfold update_timestamp.
  step_by ltac:(reflexivity).
  step_by ltac:(apply session_file_ok; [simpl; lia|done]).
  edestruct (write_to_file_frame PathBuf) as (b & w' & Hw & Hf).
  step_by ltac:(exact Hw).
  unfold ret. eexists; split; [reflexivity|].
  revert Hf. proj. intros (? & ? & ? & ? & ?). split_and!; done.
Qed.

(** C1 (amended): with a session active and the original-ref record
    readable, after the temp branch was created and the original ref
    checked out, a failed merge makes save-back issue a checkout of the
    temp branch and then a forced deletion of it, report the error and
    exit with status 1, the record store untouched; a clean merge is
    followed by the forced deletion of the temp branch and the handler
    returns. *)
Theorem save_merge_outcome w branch s orig :
  active_pointer (fs w) = Some s →
  record_at (fs w) (record_path "session") = Some orig →
  let c1 := git_checkout_b branch in
  let c2 := git_checkout orig in
  let c3 := git_merge branch in
  let r1 := git c1 (repo w) in
  let r2 := git c2 r1.2 in
  let r3 := git c3 r2.2 in
  git_ok r1.1 = true → git_ok r2.1 = true →
  let r := cmd_save git (Some branch) w in
  if git_ok r3.1
  then r.1 = Ret tt
       ∧ git_log r.2 = git_log w ++ [c1; c2; c3; git_branch_D branch]
  else r.1 = Exit 1
       ∧ git_log r.2 = git_log w ++
           [c1; c2; c3; git_checkout branch; git_branch_D branch]
       ∧ output r.2 = output w ++
           [(Stderr, "Error: Failed to merge changes. Please resolve conflicts manually." +:+ nl)]
       ∧ fs r.2 = fs w.
Proof.
  intros Ha Ho c1 c2 c3 r1 r2 r3 H1 H2 r.
  subst r c1 c2 c3 r1 r2 r3. unfold cmd_save.
  unfold git_checkout_b, git_checkout, git_merge, git_branch_D in *.
  unfold active_pointer in Ha.
  active_prefix.
  step_by ltac:(reflexivity). step_by ltac:(apply execute_git_command_None).
  rewrite format_1. proj. rewrite H1. cbn [negb fst snd].
  step_by ltac:(reflexivity). step_by ltac:(apply execute_git_command_None).
  rewrite format_1. proj. rewrite H2. cbn [negb fst snd].
  step_by ltac:(reflexivity). step_by ltac:(apply execute_git_command_None).
  rewrite format_1. proj.
  destruct (git_ok (git (snprintf _ ("git merge " +:+ branch)) _).1) eqn:H3;
    cbn [negb fst snd].
  - step_by ltac:(reflexivity). step_by ltac:(apply execute_git_command_None).
    rewrite format_1. proj.
    set (W := after_git git (snprintf _ ("git branch -D " +:+ branch)) _).
    assert (git_log W = git_log w ++
              [snprintf DEFAULT_BUFFER_SIZE ("git checkout -b " +:+ branch);
               snprintf DEFAULT_BUFFER_SIZE ("git checkout " +:+ orig);
               snprintf DEFAULT_BUFFER_SIZE ("git merge " +:+ branch);
               snprintf DEFAULT_BUFFER_SIZE ("git branch -D " +:+ branch)]
            ∧ buffer W = orig) as [HlW HbW].
    { subst W. proj. by rewrite <- !app_assoc. }
    clearbody W.
    match goal with
    | |- context [bind (when ?b ?m) ?k W] =>
        assert (∃ W1, when b m W = (Ret tt, W1)
                      ∧ git_log W1 = git_log W ∧ buffer W1 = buffer W)
          as (W1 & HW1 & Hl1 & Hb1)
          by (destruct b; cbn [when]; eexists; (split; [reflexivity|done]))
    end.
    step_by ltac:(exact HW1).
    step_by ltac:(apply session_file_ok; [simpl; lia|]; cbn [deref];
                  rewrite Hb1, HbW;
                  eauto using short_name_fits, record_at_length).
    edestruct (write_to_file_frame PathBuf (Str "HEAD"))
      as (b & W2 & HW2 & Hl2 & _ & Hb2 & _).
    step_by ltac:(exact HW2).
    edestruct (update_timestamp_frame ReadBuf W2) as (W3 & HW3 & Hl3 & _).
    { cbn [deref]. rewrite Hb2. proj. rewrite Hb1, HbW.
      eauto using short_name_fits, record_at_length. }
    step_by ltac:(exact HW3).
    unfold fprintf. cbn [fst snd]. proj.
    split; [done|]. rewrite Hl3, Hl2. proj. by rewrite Hl1, HlW.
  - repeat (first [rewrite bind_assoc
                  | step_by ltac:(first [apply execute_git_command_None
                                        | reflexivity])]).
    rewrite !format_1. proj.
    unfold exit. cbn [fst snd]. proj.
    rewrite <- !app_assoc. done.
Qed.

Lemma ensure_directory_exists_dir w (d : ptr) :
  fs w !! deref w d = Some Dir → ensure_directory_exists d w = (Ret tt, w).
Proof. unfold ensure_directory_exists. by intros ->. Qed.

Lemma write_active_ok w (c : ptr) :
  fs w !! KAISHAKU_DIR = Some Dir →
  fs w !! ACTIVE_FILE ≠ Some Dir →
  write_to_file (Str ACTIVE_FILE) c w
  = (Ret true, set_fs w (<[ACTIVE_FILE := File (deref w c +:+ nl)]> (fs w))).
Proof.
  intros Hk Ha. unfold write_to_file, fs_write. cbn [deref].
  destruct (fs w !! ACTIVE_FILE) as [[x|]|]; [done|done|].
  assert (parent_check (fs w) ACTIVE_FILE = None) as ->; [|done].
  unfold parent_check.
  change (dirname ACTIVE_FILE) with (Some ".git/kaishaku"). cbv beta iota.
  change ".git/kaishaku" with KAISHAKU_DIR. by rewrite Hk.
Qed.

Lemma dirname_no_slash f : no_slash f = true → dirname f = None.
Proof.
  induction f as [|c f IH]; [done|]. simpl.
  destruct (Ascii.eqb c "/"); [done|]. simpl. intros H. by rewrite IH.
Qed.

(** A record path lies in the root directory, which needs no entry of
    the store: writing there fails only on a directory of that name. *)
Lemma write_record_ok w (p c : ptr) f :
  deref w p = record_path f →
  no_slash f = true →
  fs w !! record_path f ≠ Some Dir →
  write_to_file p c w
  = (Ret true, set_fs w (<[record_path f := File (deref w c +:+ nl)]> (fs w))).
Proof.
  intros Hp Hf Hd. unfold write_to_file, fs_write. rewrite Hp.
  assert (parent_check (fs w) (record_path f) = None) as Hpc.
  { unfold parent_check, record_path.
    change (dirname ("/" +:+ f)) with
      (match dirname f with
       | Some d => Some (String "/" d)
       | None => if Ascii.eqb "/" "/" then Some "" else None
       end).
    by rewrite dirname_no_slash. }
  rewrite Hpc.
  destruct (fs w !! record_path f) as [[x|]|]; done.
Qed.

Lemma execute_git_command_capture w cmd o out r' l :
  git cmd (repo w) = (Finished out 0, r') →
  first_line out = Some l →
  execute_git_command git cmd (Some o) w = (Ret (true, Some l), set_git w r' cmd).
Proof.
  intros Hg Hl. unfold execute_git_command. rewrite Hg.
  unfold first_line in Hl.
  destruct (fgets DEFAULT_BUFFER_SIZE out) as [x|]; [|done].
  by injection Hl as ->.
Qed.

Lemma format_3 w a (p : ptr) b : format w [Str a; p; Str b] = a +:+ deref w p +:+ b.
Proof. unfold format. cbn [foldr deref]. by rewrite app_empty_r. Qed.


Lemma file_exists_eq w (p : ptr) :
  file_exists p w = (Ret (bool_decide (is_Some (fs w !! deref w p))), w).
Proof. done. Qed.

Lemma is_active_session_false w (name : ptr) :
  active_pointer (fs w) ≠ Some (deref w name) →
  name ≠ ReadBuf →
  ∃ b : bool,
    is_active_session name w
    = (Ret false,
       if b then set_buffer w (default "" (active_pointer (fs w))) else w).
Proof.
  intros Hne Hn. unfold is_active_session, active_pointer in *.
  step_by ltac:(apply file_exists_eq). cbn [deref].
  destruct (bool_decide _); cbn [negb]; [|by exists false].
  unfold read_from_file at 1. unfold bind at 1. cbn [deref].
  destruct (record_at (fs w) ACTIVE_FILE) as [a|] eqn:E; [|by exists false].
  exists true. unfold strcmp_eq. cbn [deref default buffer set_buffer].
  replace (deref (set_buffer w a) name) with (deref w name) by by destruct name.
  destruct (String.eqb_spec a (deref w name)); [|done]. congruence.
Qed.


Lemma prefix_drop (a k : string) :
  String.prefix a k = true → k = a +:+ drop_string (String.length a) k.
Proof.
  revert k. induction a as [|c a IH]; intros k H; [done|].
  destruct k as [|c' k]; [done|]. simpl in H.
  destruct (ascii_dec c c') as [->|]; [|done].
  change (String c' k = String c' (a +:+ drop_string (String.length a) k)).
  f_equal. by apply IH.
Qed.

Lemma readdir_spec (fs : gmap string node) d n :
  n ∈ readdir fs d →
  n = "." ∨ n = ".."
  ∨ (no_slash n = true ∧ is_Some (fs !! (d +:+ "/" +:+ n))).
Proof.
  unfold readdir. rewrite !elem_of_cons.
  intros [->|[->|H]]; [by left|by right; left|right; right].
  apply list_elem_of_omap in H as ([k v] & Hin & Hf).
  apply elem_of_map_to_list in Hin. cbn [fst] in Hf.
  destruct (String.prefix (d +:+ "/") k) eqn:Hp; [|done].
  destruct (no_slash _) eqn:Hs; [|done].
  destruct (negb _); [|done]. cbn in Hf. injection Hf as <-.
  split; [done|]. apply prefix_drop in Hp. rewrite app_assoc_s in Hp.
  rewrite <- Hp. eauto.
Qed.

Lemma unlink_frame (p : ptr) w :
  ∃ e w', unlink p w = (Ret e, w')
          ∧ output w' = output w ∧ path_buffer w' = path_buffer w
          ∧ buffer w' = buffer w
          ∧ ∀ q, q ≠ deref w p → fs w' !! q = fs w !! q.
Proof.
  unfold unlink, fs_unlink.
  destruct (fs w !! deref w p) as [[x|]|];
    eexists _, _; (split; [reflexivity|]); proj; split_and!; try done.
  intros q Hq. by rewrite lookup_delete_ne.
Qed.

Lemma rmdir_frame (p : ptr) w :
  ∃ e w', rmdir p w = (Ret e, w')
          ∧ output w' = output w ∧ path_buffer w' = path_buffer w
          ∧ buffer w' = buffer w
          ∧ ∀ q, q ≠ deref w p → fs w' !! q = fs w !! q.
Proof.
  unfold rmdir, fs_rmdir.
  destruct (fs w !! deref w p) as [[x|]|]; [| destruct (has_child _ _) |];
    eexists _, _; (split; [reflexivity|]); proj; split_and!; try done.
  intros q Hq. by rewrite lookup_delete_ne.
Qed.

(** One turn of the sweep of [cmd_clean] on an entry that is not
    skipped: it is counted, and the store changes at most at the path the
    static buffer holds at the end. *)
Lemma clean_entry_counts w n cleaned :
  skip_entry n = false →
  String.length n + 22 < MAX_PATH_LENGTH →
  is_Some (fs w !! session_dir_path n) →
  active_pointer (fs w) = None →
  ∃ w', clean_entry n cleaned w = (Ret (cleaned + 1)%Z, w')
        ∧ output w' = output w
        ∧ ∀ q, q ≠ record_path "head" → fs w' !! q = fs w !! q.
Proof.
  intros Hs Hn Hd Ha. unfold clean_entry. rewrite Hs.
  step_by ltac:(by apply SESSION_DIR_ok).
  step_by ltac:(by apply file_exists_true). cbn [negb].
  match goal with
  | |- context [bind (is_active_session ?p) _ ?W0] =>
      destruct (is_active_session_false W0 p) as [b Hb]; [|done|]
  end.
  { proj. by rewrite Ha. }
  step_by ltac:(exact Hb). clear Hb.
  set (W := if b then _ else _).
  assert (fs W = fs w ∧ output W = output w) as [HfW HoW]
    by (subst W; by destruct b).
  clearbody W.
  step_by ltac:(by apply session_file_ok; [simpl; lia|]).
  step_by ltac:(by apply session_file_ok; [simpl; lia|]).
  match goal with
  | |- context [bind (unlink ?p) _ ?W0] =>
      destruct (unlink_frame p W0) as (e1 & W1 & HW1 & Ho1 & Hp1 & _ & Hf1)
  end.
  step_by ltac:(exact HW1).
  destruct (unlink_frame PathBuf W1) as (e2 & W2 & HW2 & Ho2 & Hp2 & _ & Hf2).
  step_by ltac:(exact HW2).
  destruct (rmdir_frame PathBuf W2) as (e3 & W3 & HW3 & Ho3 & Hp3 & _ & Hf3).
  step_by ltac:(exact HW3).
  eexists. split; [reflexivity|].
  revert Hf1 Hf2 Hf3. cbn [deref]. rewrite Hp2, Hp1, Ho3, Ho2, Ho1. proj.
  intros Hf1 Hf2 Hf3. split; [done|].
  intros q Hq. by rewrite Hf3, Hf2, Hf1, HfW.
Qed.

Lemma clean_entry_skips w n cleaned :
  skip_entry n = true → clean_entry n cleaned w = (Ret cleaned, w).
Proof. intros Hs. unfold clean_entry. by rewrite Hs. Qed.

Lemma clean_sweep_counts entries : ∀ w cleaned,
  active_pointer (fs w) = None →
  (∀ n, n ∈ entries → skip_entry n = false →
        String.length n + 22 < MAX_PATH_LENGTH ∧ no_slash n = true
        ∧ is_Some (fs w !! session_dir_path n)) →
  ∃ w', for_each clean_entry entries cleaned w
        = (Ret (cleaned + Z.of_nat (length (filter (λ n, skip_entry n = false)
                                              entries)))%Z, w')
        ∧ output w' = output w.
Proof.
  induction entries as [|n entries IH]; intros w cleaned Ha Hin.
  { eexists. split; [|reflexivity]. cbn. unfold ret. do 2 f_equal. lia. }
  cbn [for_each]. rewrite filter_cons.
  destruct (decide (skip_entry n = false)) as [Hs|Hs].
  - destruct (Hin n) as (Hl & Hns & Hd); [by left|done|].
    destruct (clean_entry_counts w n cleaned Hs Hl Hd Ha) as (w1 & Hw1 & Ho1 & Hf1).
    step_by ltac:(exact Hw1).
    destruct (IH w1 (cleaned + 1)%Z) as (w' & Hw' & Ho').
    { unfold active_pointer, record_at in *. by rewrite Hf1 by done. }
    { intros m Hm Hsm. destruct (Hin m) as (? & Hnm & ?); [by right|done|].
      split_and!; [done..|]. by rewrite Hf1 by done. }
    exists w'. split; [|congruence]. rewrite Hw'. do 2 f_equal.
    cbn [length]. lia.
  - apply not_false_is_true in Hs.
    step_by ltac:(by apply clean_entry_skips).
    destruct (IH w cleaned Ha) as (w' & Hw' & Ho').
    { intros m Hm. apply Hin. by right. }
    by exists w'.
Qed.

Lemma opendir_dir w d :
  fs w !! d = Some Dir → opendir d w = (Ret (inr (readdir (fs w) d)), w).
Proof. unfold opendir. by intros ->. Qed.

(** C3 (amended): purge refuses, with an error and exit status 1 and
    without touching the store, to clean the active session by name, and
    to sweep at all while a session is active.  When no session is
    active, the unnamed purge visits every entry of the session directory
    whose name does not start with a dot, well-formed or not, never fails
    on an entry, reports the number of entries visited and returns. *)
Theorem clean_guard_and_sweep w :
  fs w !! KAISHAKU_DIR = Some Dir →
  (∀ session a,
     active_pointer (fs w) = Some a →
     session = None ∨ session = Some a →
     let r := cmd_clean session w in
     r.1 = Exit 1 ∧ fs r.2 = fs w
     ∧ output r.2 = output w ++
         [(Stderr, "Error: Cannot clean active session '" +:+ a
                   +:+ "'. Exit the session first." +:+ nl)])
  ∧ (active_pointer (fs w) = None →
     (∀ n, n ∈ readdir (fs w) KAISHAKU_DIR →
           String.length n + 22 < MAX_PATH_LENGTH) →
     let r := cmd_clean None w in
     r.1 = Ret tt
     ∧ output r.2 = output w ++
         [(Stdout, COLOR_GREEN
                   +:+ string_of_Z
                         (Z.of_nat
                            (length (filter (λ n, skip_entry n = false)
                                       (readdir (fs w) KAISHAKU_DIR))))
                   +:+ " session(s) cleaned." +:+ COLOR_RESET +:+ nl)]).
Proof.
  intros Hk. split.
  - intros session a Ha Hs. cbv zeta. unfold cmd_clean.
    unfold active_pointer in Ha.
    step_by ltac:(apply file_exists_true; proj; by rewrite Hk). cbn [negb].
    rewrite bind_assoc.
    step_by ltac:(apply file_exists_true; eauto using record_at_is_Some).
    cbn [when]. rewrite !bind_assoc.
    step_by ltac:(by apply read_from_file_some). rewrite !bind_assoc.
    assert ((match session with
             | Some s => strcmp_eq (Str s) ReadBuf
             | None => ret true
             end) (set_buffer w a) = (Ret true, set_buffer w a)) as Hhit.
    { destruct Hs as [->| ->]; [done|].
      unfold strcmp_eq. proj. by rewrite String.eqb_refl. }
    step_by ltac:(exact Hhit). cbn [when]. rewrite !bind_assoc.
    step_by ltac:(reflexivity).
    erewrite bind_exit by reflexivity.
    cbn [fst snd]. proj. split_and!; [done..|].
    unfold format. cbn [foldr deref buffer set_buffer]. by rewrite app_empty_r.
  - intros Ha Hn. cbv zeta. unfold cmd_clean.
    step_by ltac:(apply file_exists_true; proj; by rewrite Hk). cbn [negb].
    assert ((let* ex := file_exists (Str ACTIVE_FILE) in
             when ex
               (let* active_session := read_from_file (Str ACTIVE_FILE) in
                match active_session with
                | Some a =>
                    let* hit := ret true in
                    when hit
                      (fprintf Stderr
                         [Str "Error: Cannot clean active session '"; a;
                          Str "'. Exit the session first."; Str nl]
                       >> exit EXIT_FAILURE)
                | None => ret tt
                end)) w = (Ret tt, w)) as Hguard.
    { step_by ltac:(apply file_exists_eq).
      destruct (bool_decide _); cbn [when]; [|done].
      step_by ltac:(by apply read_from_file_none). done. }
    step_by ltac:(exact Hguard).
    step_by ltac:(by apply opendir_dir).
    destruct (clean_sweep_counts (readdir (fs w) KAISHAKU_DIR) w 0%Z Ha)
      as (w' & Hw' & Ho').
    { intros n Hin Hs. split; [by apply Hn|].
      apply readdir_spec in Hin as [->|[->|[? ?]]]; done. }
    step_by ltac:(exact Hw').
    unfold fprintf. cbn [fst snd]. proj. split; [done|]. rewrite Ho'.
    unfold format. cbn [foldr deref]. by rewrite app_empty_r, Z.add_0_l.
Qed.





(** ** Frames: which paths a handler can change *)

Lemma touches_only_bind {A B} P (m : M Repo A) (k : A → M Repo B) :
  touches_only P m →
  (∀ w a w', m w = (Ret a, w') → ∀ p, ¬ P p → fs (k a w').2 !! p = fs w' !! p) →
  touches_only P (bind m k).
Proof.
  intros Hm Hk w p Hp. unfold bind. specialize (Hm w p Hp).
  destruct (m w) as [[a|c] w1] eqn:E; [|done].
  cbn [snd] in Hm. rewrite <- Hm. by eapply Hk.
Qed.

Lemma touches_only_seq {A B} P (m : M Repo A) (k : A → M Repo B) :
  touches_only P m → (∀ a, touches_only P (k a)) → touches_only P (bind m k).
Proof.
  intros Hm Hk. apply touches_only_bind; [done|]. intros w a w' _. apply Hk.
Qed.

Lemma touches_only_same {A} P (m : M Repo A) :
  (∀ w, fs (m w).2 = fs w) → touches_only P m.
Proof. intros H w p _. by rewrite H. Qed.

Lemma same_ret {A} (a : A) w : fs (ret (Repo:=Repo) a w).2 = fs w.
Proof. done. Qed.
Lemma same_exit {A} c w : fs (exit (Repo:=Repo) (A:=A) c w).2 = fs w.
Proof. done. Qed.
Lemma same_fprintf st parts w : fs (fprintf st parts w).2 = fs w.
Proof. done. Qed.
Lemma same_snprintf_local n parts w : fs (snprintf_local n parts w).2 = fs w.
Proof. done. Qed.
Lemma same_strcmp_eq (a b : ptr) w : fs (strcmp_eq a b w).2 = fs w.
Proof. done. Qed.
Lemma same_getchar w : fs (getchar w).2 = fs w.
Proof. unfold getchar. by destruct (stdin w). Qed.
Lemma same_file_exists (p : ptr) w : fs (file_exists p w).2 = fs w.
Proof. done. Qed.
Lemma same_read_from_file (p : ptr) w : fs (read_from_file p w).2 = fs w.
Proof. unfold read_from_file. by destruct (record_at _ _). Qed.
Lemma same_opendir d w : fs (opendir d w).2 = fs w.
Proof. unfold opendir. by destruct (fs w !! d) as [[?|]|]. Qed.
Lemma same_execute_git_command cmd o w :
  fs (execute_git_command git cmd o w).2 = fs w.
Proof.
  unfold execute_git_command.
  destruct (git cmd (repo w)) as [[|out status] r']; [done|].
  destruct o; [destruct (fgets _ _)|]; try done; by destruct (status =? 0)%Z.
Qed.
Lemma same_system_ran cmd w : fs (system_ran git cmd w).2 = fs w.
Proof.
  unfold system_ran. by destruct (git cmd (repo w)) as [[|out status] r'].
Qed.
Lemma same_safe_path_join (d f : ptr) w : fs (safe_path_join d f w).2 = fs w.
Proof. unfold safe_path_join. by destruct (_ <=? _)%nat. Qed.
Lemma same_config_read w :
  fs ((fun w : world Repo => (Ret (config w), w)) w).2 = fs w.
Proof. done. Qed.

Ltac frame_leaf :=
  lazymatch goal with
  | |- @touches_only _ _ _ (ret _) => apply touches_only_same, same_ret
  | |- @touches_only _ _ _ (exit _) => apply touches_only_same, same_exit
  | |- @touches_only _ _ _ (fprintf _ _) => apply touches_only_same, same_fprintf
  | |- @touches_only _ _ _ (snprintf_local _ _) =>
      apply touches_only_same, same_snprintf_local
  | |- @touches_only _ _ _ (strcmp_eq _ _) => apply touches_only_same, same_strcmp_eq
  | |- @touches_only _ _ _ getchar => apply touches_only_same, same_getchar
  | |- @touches_only _ _ _ (file_exists _) => apply touches_only_same, same_file_exists
  | |- @touches_only _ _ _ (read_from_file _) =>
      apply touches_only_same, same_read_from_file
  | |- @touches_only _ _ _ (opendir _) => apply touches_only_same, same_opendir
  | |- @touches_only _ _ _ (execute_git_command _ _ _) =>
      apply touches_only_same, same_execute_git_command
  | |- @touches_only _ _ _ (system_ran _ _) => apply touches_only_same, same_system_ran
  | |- @touches_only _ _ _ (safe_path_join _ _) =>
      apply touches_only_same, same_safe_path_join
  | |- @touches_only _ _ _ (fun w => (Ret (config w), w)) =>
      apply touches_only_same, same_config_read
  end.

Ltac frame_with tac :=
  repeat first
    [ frame_leaf
    | tac
    | lazymatch goal with
      | |- @touches_only _ _ _ (bind _ _) => apply touches_only_seq; [|intros ?]
      | |- @touches_only _ _ _ (match ?x with _ => _ end) => destruct x
      | |- @touches_only _ _ _ (when ?b _) => destruct b; cbn [when]
      end ].

Ltac frame := frame_with fail.

Lemma touches_only_record_path P (session : ptr) f :
  touches_only (Repo:=Repo) P
    (let* d := SESSION_DIR session in safe_path_join d (Str f)).
Proof. unfold SESSION_DIR. frame. Qed.

Lemma touches_only_for_each {A S} P (body : A → S → M Repo S) l :
  (∀ x s, touches_only P (body x s)) → ∀ s, touches_only P (for_each body l s).
Proof.
  intros Hb. induction l as [|x l IH]; intros s; cbn [for_each]; [frame|].
  apply touches_only_seq; [apply Hb|apply IH].
Qed.

Lemma touches_only_get_session_time P st (session : ptr) :
  touches_only (Repo:=Repo) P (get_session_time st session).
Proof.
  unfold get_session_time, SESSION_TIME_FILE.
  frame_with ltac:(apply touches_only_record_path).
  apply touches_only_same. intros w. by destruct (st _).
Qed.

Lemma touches_only_unlink P s : P s → touches_only P (unlink (Repo:=Repo) (Str s)).
Proof.
  intros HP w p Hp. unfold unlink, fs_unlink. cbn [deref].
  destruct (fs w !! s) as [[?|]|]; try done. cbn [snd set_fs fs].
  apply lookup_delete_ne. by intros ->.
Qed.

Lemma touches_only_verify_ref P r : touches_only P (verify_ref git r).
Proof. unfold verify_ref. frame. Qed.

Lemma touches_only_list_entry P st a n found :
  touches_only P (list_entry git st a n found).
Proof.
  unfold list_entry, SESSION_FILE, HEAD_FILE.
  frame_with ltac:(first [ apply touches_only_record_path
                         | apply touches_only_verify_ref
                         | apply touches_only_get_session_time ]).
Qed.

Lemma touches_only_nothing {A} (m : M Repo A) w :
  touches_only (λ _, False) m → fs (m w).2 = fs w.
Proof. intros H. apply map_eq. intros p. apply H. by intros []. Qed.

(** X1: [cmd_list] and [cmd_status] are read-only: whatever the store,
    whatever git answers, the record store is the same afterwards. *)
Theorem list_and_status_never_write st w :
  fs (cmd_list git st w).2 = fs w ∧ fs (cmd_status git w).2 = fs w.
Proof.
  split; apply touches_only_nothing.
  - unfold cmd_list, no_sessions.
    frame_with ltac:(first [ apply touches_only_for_each; intros ??
                           | apply touches_only_list_entry ]).
  - unfold cmd_status, SESSION_FILE, HEAD_FILE.
    frame_with ltac:(apply touches_only_record_path).
Qed.

(** X2: whatever its outcome, [cmd_exit] changes no path of the store
    other than the active-session file. *)
Theorem exit_touches_only_the_pointer option w p :
  p ≠ ACTIVE_FILE → fs (cmd_exit git option w).2 !! p = fs w !! p.
Proof.
  revert w p. change (touches_only (λ p, p = ACTIVE_FILE) (cmd_exit git option)).
  unfold cmd_exit, confirm_discard, handle_changes, return_to_branch,
    git_failed, SESSION_FILE.
  frame_with ltac:(first [ apply touches_only_record_path
                         | by apply touches_only_unlink ]).
Qed.

(** ** Refusals *)

Lemma file_exists_false w (p : ptr) :
  fs w !! deref w p = None → file_exists p w = (Ret false, w).
Proof.
  intros H. unfold file_exists. rewrite bool_decide_eq_false_2; [done|].
  rewrite H. by intros [? ?].
Qed.

Lemma unlink_missing w (p : ptr) :
  fs w !! deref w p = None → unlink p w = (Ret (Some ENOENT), w).
Proof. unfold unlink, fs_unlink. by intros ->. Qed.

Lemma unlink_dir w (p : ptr) :
  fs w !! deref w p = Some Dir → unlink p w = (Ret (Some EISDIR), w).
Proof. unfold unlink, fs_unlink. by intros ->. Qed.

Lemma no_effect_refl w : no_effect w w.
Proof. by split_and!. Qed.

Lemma no_effect_output w st text : no_effect w (add_output w st text).
Proof. by split_and!. Qed.

(** An error report followed by [exit]. *)
Lemma complain_exits {A} st parts code w :
  (fprintf st parts >> exit (A:=A) code) w
  = (Exit code, add_output w st (format w parts)).
Proof. done. Qed.

Lemma usage_exits {A} w :
  ∃ w', usage (A:=A) w = (Exit 0, w') ∧ no_effect w w'.
Proof.
  unfold usage. generalize usage_lines. intros l. revert w.
  induction l as [|x l IH]; intros w; cbn [foldr].
  - exists w. split; [done|apply no_effect_refl].
  - destruct (IH (add_output w Stdout (format w [Str x]))) as (w' & E & H).
    exists w'. split; [exact E|]. revert H. unfold no_effect. by proj.
Qed.

Lemma safe_path_join_cases w (d f : ptr) :
  let s := match d with PathBuf => "" | _ => deref w d end
           +:+ "/" +:+ deref w f in
  (MAX_PATH_LENGTH ≤ String.length s
   ∧ ∃ w', safe_path_join d f w = (Exit 1, w') ∧ no_effect w w')
  ∨ (String.length s < MAX_PATH_LENGTH
     ∧ safe_path_join d f w = (Ret PathBuf, set_path_buffer w s)).
Proof.
  intros s. unfold safe_path_join. fold s.
  destruct (Nat.leb_spec MAX_PATH_LENGTH (String.length s)) as [Hl|Hl].
  - left. split; [done|]. eexists. split; [reflexivity|]. by split_and!.
  - right. split; [done|]. by rewrite snprintf_fits.
Qed.

Lemma record_path_cases w (s : ptr) (f : string) :
  (∃ w', (let* d := SESSION_DIR s in safe_path_join d (Str f)) w = (Exit 1, w')
         ∧ no_effect w w')
  ∨ (let* d := SESSION_DIR s in safe_path_join d (Str f)) w
    = (Ret PathBuf, set_path_buffer w (record_path f)).
Proof.
  unfold SESSION_DIR.
  destruct (safe_path_join_cases w (Str KAISHAKU_DIR) s)
    as [(_ & w1 & E & H)|(_ & E)].
  { left. exists w1. by erewrite bind_exit by exact E. }
  erewrite bind_ret by exact E.
  destruct (safe_path_join_cases
              (set_path_buffer w (deref w (Str KAISHAKU_DIR) +:+ "/" +:+ deref w s))
              PathBuf (Str f)) as [(_ & w1 & E' & H)|(_ & E')].
  { left. exists w1. split; [exact E'|]. revert H. unfold no_effect. by proj. }
  right. rewrite E'. by proj.
Qed.

Lemma SESSION_DIR_cases w (s : ptr) :
  (∃ w', SESSION_DIR s w = (Exit 1, w') ∧ no_effect w w')
  ∨ SESSION_DIR s w
    = (Ret PathBuf, set_path_buffer w (session_dir_path (deref w s))).
Proof.
  unfold SESSION_DIR.
  destruct (safe_path_join_cases w (Str KAISHAKU_DIR) s)
    as [(_ & w1 & E & H)|(_ & E)]; [left; eauto|by right].
Qed.

Ltac stopped :=
  repeat (eexists; try (split; [reflexivity|]));
  unfold no_effect in *;
  cbn [fs path_buffer buffer git_log repo output set_fs set_path_buffer
       set_buffer set_time_str set_error_message set_git set_stdin
       add_output deref] in *;
  autorewrite with world in *; intuition congruence.

Ltac settle :=
  cbn [fst snd]; unfold no_effect in *;
  cbn [fs path_buffer buffer git_log repo output set_fs set_path_buffer
       set_buffer set_time_str set_error_message set_git set_stdin
       add_output deref] in *;
  repeat match goal with H : _ ∧ _ |- _ => destruct H end;
  split_and!; first [done | congruence | intros; congruence].

(** X3: without an active-session file, [cmd_save], [cmd_exit] and
    [cmd_branch] report the error and exit with status 1; no git command
    is issued and the record store is unchanged. *)
Theorem no_active_session_stops_save_exit_branch w name option :
  fs w !! ACTIVE_FILE = None →
  (∃ w', cmd_save git (Some name) w = (Exit 1, w') ∧ no_effect w w'
         ∧ on_stream Stderr (output w')
           = on_stream Stderr (output w)
             ++ ["Error: No active kaishaku session" +:+ nl])
  ∧ (∃ w', cmd_exit git option w = (Exit 1, w') ∧ no_effect w w'
           ∧ on_stream Stderr (output w')
             = on_stream Stderr (output w)
               ++ ["Error: No active kaishaku session." +:+ nl])
  ∧ (∃ w', cmd_branch git (Some name) w = (Exit 1, w') ∧ no_effect w w'
           ∧ on_stream Stderr (output w')
             = on_stream Stderr (output w)
               ++ ["Error: No active kaishaku session." +:+ nl]).
Proof.
  intros Ha. unfold cmd_save, cmd_exit, cmd_branch.
  split_and!.
  all: erewrite bind_ret by (by apply file_exists_false); cbn [negb].
  all: rewrite complain_exits; eexists; split; [reflexivity|].
  all: split; [apply no_effect_output|].
  all: unfold on_stream; proj; by rewrite omap_app.
Qed.

(** X4: [cmd_rename] never renames anything.  Both directory paths live
    in the one buffer of [safe_path_join], so the two existence tests look
    at the same path and one of them always stops the handler: it exits
    (status 0 for the usage text, 1 otherwise) before [rename] is called,
    with the store unchanged and no git command issued. *)
Theorem rename_always_stops rename_syscall old_name new_name w :
  ∃ code w', cmd_rename rename_syscall old_name new_name w = (Exit code, w')
             ∧ no_effect w w'.
Proof.
  unfold cmd_rename.
  destruct old_name as [o|], new_name as [n|];
    try (destruct (usage_exits (A:=unit) w) as (w' & E & H);
         exists 0%Z, w'; split; [exact E|exact H]).
  erewrite bind_ret by reflexivity.
  destruct (bool_decide _); cbn [negb];
    [|rewrite complain_exits; stopped].
  destruct (SESSION_DIR_cases w (Str o)) as [(w1 & E & H)|E].
  { erewrite bind_exit by exact E. eauto. }
  erewrite bind_ret by exact E.
  match goal with |- context [bind (SESSION_DIR ?s) _ ?W] =>
    destruct (SESSION_DIR_cases W s) as [(w1 & E' & H)|E'] end.
  { erewrite bind_exit by exact E'. do 2 eexists. split; [done|].
    revert H. unfold no_effect. by proj. }
  erewrite bind_ret by exact E'.
  erewrite bind_ret by reflexivity.
  destruct (bool_decide _) eqn:Hb; cbn [negb];
    [|rewrite complain_exits; stopped].
  erewrite bind_ret by reflexivity. rewrite Hb.
  rewrite complain_exits. stopped.
Qed.

Lemma is_active_session_quiet w (name : ptr) :
  ∃ b w', is_active_session name w = (Ret b, w')
          ∧ no_effect w w' ∧ path_buffer w' = path_buffer w
          ∧ output w' = output w.
Proof.
  unfold is_active_session.
  erewrite bind_ret by reflexivity.
  destruct (bool_decide _); cbn [negb]; [|by eexists _, w].
  unfold read_from_file, bind.
  destruct (record_at _ _); by eexists _, _.
Qed.

(** X5: when there is no head record at the path the program reads it
    from, no session can be resumed or recovered: [cmd_switch] and
    [cmd_recover] exit with status 1, issue no git command and leave the
    store as it was. *)
Theorem session_without_head_record_is_refused w s :
  fs w !! KAISHAKU_DIR = Some Dir →
  fs w !! record_path "head" = None →
  (∃ w', cmd_switch git (Some s) w = (Exit 1, w') ∧ no_effect w w')
  ∧ (∃ w', cmd_recover git (Some s) w = (Exit 1, w') ∧ no_effect w w').
Proof.
  intros Hk Hh. split.
  - unfold cmd_switch, HEAD_FILE.
    step_by ltac:(by apply ensure_directory_exists_dir).
    destruct (record_path_cases w (Str s) "head") as [(w1 & E & H)|E].
    { erewrite bind_exit by exact E. eauto. }
    step_by ltac:(exact E).
    step_by ltac:(apply read_from_file_none; unfold record_at; proj;
                  by rewrite Hh).
    rewrite complain_exits. stopped.
  - unfold cmd_recover, SESSION_FILE, HEAD_FILE.
    step_by ltac:(apply file_exists_true; proj; by rewrite Hk). cbn [negb].
    destruct (SESSION_DIR_cases w (Str s)) as [(w1 & E & H)|E].
    { erewrite bind_exit by exact E. eauto. }
    step_by ltac:(exact E).
    step_by ltac:(reflexivity).
    destruct (bool_decide _); cbn [negb]; [|rewrite complain_exits; stopped].
    match goal with |- context [bind (is_active_session ?n) _ ?W] =>
      destruct (is_active_session_quiet W n) as (b & w1 & E1 & H1 & Hp1 & _) end.
    step_by ltac:(exact E1).
    destruct b; [rewrite complain_exits; stopped|].
    destruct (record_path_cases w1 (Str s) "session") as [(w2 & E2 & H2)|E2].
    { erewrite bind_exit by exact E2. stopped. }
    step_by ltac:(exact E2).
    match goal with |- context [bind (bind (SESSION_DIR ?n) _) _ ?W] =>
      destruct (record_path_cases W n "head") as [(w3 & E3 & H3)|E3] end.
    { erewrite bind_exit by exact E3. stopped. }
    step_by ltac:(exact E3).
    step_by ltac:(apply file_exists_false; proj;
                  destruct H1 as (-> & _); proj; exact Hh).
    cbn [negb]. step_by ltac:(reflexivity).
    rewrite complain_exits. stopped.
Qed.

(** X6: [cmd_clean] with a session name never completes.  The record
    paths it removes are read from the one buffer of [safe_path_join],
    which by then holds the path of the head record: that record is
    removed at most once, the second [unlink] of the same path fails, and
    the handler exits with status 1.  Nothing else in the store changes,
    so the session's directory and the original-ref record stay. *)
Theorem named_clean_never_completes w s :
  is_Some (fs w !! KAISHAKU_DIR) →
  let r := cmd_clean (Some s) w in
  r.1 = Exit 1
  ∧ git_log r.2 = git_log w
  ∧ ∀ p, p ≠ record_path "head" → fs r.2 !! p = fs w !! p.
Proof.
  intros Hk. cbv zeta. unfold cmd_clean, SESSION_FILE, HEAD_FILE.
  step_by ltac:(by apply file_exists_true). cbn [negb].
  match goal with |- context [bind ?g ?k w] =>
    assert (∃ o W, g w = (o, W) ∧ (o = Ret tt ∨ o = Exit 1) ∧ no_effect w W)
      as (o & W & Eg & Ho & HW) end.
  { step_by ltac:(reflexivity).
    destruct (bool_decide _); cbn [when];
      [|exists (Ret tt), w; split; [reflexivity|];
        split; [by left|apply no_effect_refl]].
    unfold read_from_file, bind.
    destruct (record_at _ _);
      [|exists (Ret tt), w; split; [reflexivity|];
        split; [by left|apply no_effect_refl]].
    unfold strcmp_eq, when.
    destruct (String.eqb _ _); eexists _, _; (split; [reflexivity|]);
      split; auto; by split_and!. }
  destruct Ho as [-> | ->]; [|erewrite bind_exit by exact Eg; settle].
  step_by ltac:(exact Eg). clear Eg.
  destruct (SESSION_DIR_cases W (Str s)) as [(w1 & E & H)|E].
  { erewrite bind_exit by exact E. settle. }
  step_by ltac:(exact E). step_by ltac:(reflexivity).
  destruct (bool_decide _); cbn [negb]; [|rewrite complain_exits; settle].
  match goal with |- context [bind (bind (SESSION_DIR ?n) _) _ ?W0] =>
    destruct (record_path_cases W0 n "session") as [(w2 & E2 & H2)|E2] end.
  { erewrite bind_exit by exact E2. settle. }
  step_by ltac:(exact E2).
  match goal with |- context [bind (bind (SESSION_DIR ?n) _) _ ?W0] =>
    destruct (record_path_cases W0 n "head") as [(w3 & E3 & H3)|E3] end.
  { erewrite bind_exit by exact E3. settle. }
  step_by ltac:(exact E3). proj.
  destruct HW as (Hfs & Hlog & _).
  destruct (fs W !! record_path "head") as [[c|]|] eqn:Eh.
  - step_by ltac:(eapply unlink_file; proj; exact Eh).
    step_by ltac:(apply unlink_missing; proj; apply lookup_delete_eq).
    rewrite complain_exits. cbn [fst snd]; proj. split_and!; try done.
    intros p Hp. by rewrite lookup_delete_ne, Hfs.
  - step_by ltac:(apply unlink_dir; proj; exact Eh).
    step_by ltac:(reflexivity).
    rewrite complain_exits. settle.
  - step_by ltac:(apply unlink_missing; proj; exact Eh).
    step_by ltac:(reflexivity).
    rewrite complain_exits. settle.
Qed.

(** ** Where save-back and branch-off put the sentinel *)

(** X7: whatever git answers, [cmd_save] changes the store at most at the
    paths of the head and time records, so no file of the session's
    directory is touched; and when it returns, the head record holds the
    [HEAD] sentinel (unless a directory is in its place). *)
Theorem save_writes_the_sentinel w branch s orig :
  active_pointer (fs w) = Some s →
  record_at (fs w) (record_path "session") = Some orig →
  let r := cmd_save git (Some branch) w in
  (∀ p, p ≠ record_path "head" → p ≠ record_path "time" →
        fs r.2 !! p = fs w !! p)
  ∧ (∀ f, fs r.2 !! session_path s f = fs w !! session_path s f)
  ∧ (r.1 = Ret tt →
     fs w !! record_path "head" ≠ Some Dir →
     fs r.2 !! record_path "head" = Some (File ("HEAD" +:+ nl))).
Proof.
  intros Ha Ho. cbv zeta. unfold active_pointer in Ha.
  match goal with |- ?A ∧ _ ∧ ?B => assert (A ∧ B) as [Hframe Hhead] end.
  2:{ split_and!; [done| |done]. intros f. by apply Hframe. }
  unfold cmd_save.
  active_prefix.
  repeat run1.
  all: try (split; [intros p _ _|intros Hr _];
            unfold fprintf, exit, bind, ret in *; cbn [fst snd] in *; proj;
            done).
  match goal with
  | |- context [bind (when ?b ?m) ?k ?W0] =>
      assert (∃ W1, when b m W0 = (Ret tt, W1)
                    ∧ fs W1 = fs w ∧ buffer W1 = orig)
        as (W1 & HW1 & Hf1 & Hb1)
        by (destruct b; cbn [when]; eexists; (split; [reflexivity|]);
            proj; done)
  end.
  step_by ltac:(exact HW1). clear HW1.
  unfold HEAD_FILE.
  step_by ltac:(apply session_file_ok; [simpl; lia|]; cbn [deref];
                rewrite Hb1; eauto using short_name_fits, record_at_length).
  match goal with |- context [bind (write_to_file ?q ?c) _ ?W0] =>
    destruct (write_to_file_frame q c W0)
      as (b & W2 & HW2 & _ & _ & Hb2 & _ & Hf2);
    pose proof (write_record_ok W0 q c "head" eq_refl eq_refl) as Hw
  end.
  revert Hw. proj. rewrite Hf1. intros Hw.
  step_by ltac:(exact HW2).
  destruct (update_timestamp_frame ReadBuf W2) as (W3 & HW3 & _ & _ & _ & Hf3).
  { cbn [deref]. rewrite Hb2. proj. rewrite Hb1.
    eauto using short_name_fits, record_at_length. }
  step_by ltac:(exact HW3).
  unfold fprintf. cbn [fst snd]. proj. split.
  - intros p Hp1 Hp2. rewrite Hf3 by done. rewrite Hf2 by done.
    proj. by rewrite Hf1.
  - intros _ Hd. rewrite Hf3 by done.
    rewrite (Hw Hd) in HW2. injection HW2 as _ <-. proj.
    by rewrite lookup_insert_eq.
Qed.

(** X8: [cmd_branch], with a session active, issues exactly one git
    command, [git checkout -b <name>].  When it succeeds the head record
    is replaced by the [HEAD] sentinel and nothing else in the store
    changes (the session stays active); when it fails the handler exits
    with status 1 and the store is unchanged. *)
Theorem branch_off_writes_the_sentinel w name s :
  active_pointer (fs w) = Some s →
  fs w !! record_path "head" ≠ Some Dir →
  let cmd := git_checkout_b name in
  let r := cmd_branch git (Some name) w in
  git_log r.2 = git_log w ++ [cmd]
  ∧ if git_ok (git cmd (repo w)).1
    then r.1 = Ret tt
         ∧ fs r.2 = <[record_path "head" := File ("HEAD" +:+ nl)]> (fs w)
    else r.1 = Exit 1 ∧ fs r.2 = fs w.
Proof.
  intros Ha Hh. cbv zeta. unfold active_pointer in Ha.
  unfold cmd_branch, git_checkout_b, git_failed, HEAD_FILE.
  step_by ltac:(apply file_exists_true; eauto using record_at_is_Some).
  cbn [negb].
  step_by ltac:(reflexivity). step_by ltac:(apply execute_git_command_None).
  rewrite format_1. cbn [deref fst snd].
  destruct (git_ok _) eqn:Hg; cbn [negb].
  - step_by ltac:(apply read_from_file_some; proj; exact Ha).
    step_by ltac:(apply session_file_ok; [simpl; lia|]; cbn [deref]; proj;
                  eauto using short_name_fits, record_at_length).
    step_by ltac:(apply (write_record_ok _ _ _ "head"); proj; done).
    cbn [negb]. unfold fprintf. cbn [fst snd]. by proj.
  - rewrite complain_exits. cbn [fst snd]. by proj.
Qed.

(** ** What abort removes *)

Lemma touches_only_is_active_session P (name : ptr) :
  touches_only (Repo:=Repo) P (is_active_session name).
Proof. unfold is_active_session. frame. Qed.

Lemma touches_only_bind_val {A B} P (Q : A → Prop) (m : M Repo A)
    (k : A → M Repo B) :
  (∀ w a w', m w = (Ret a, w') → Q a) →
  touches_only P m → (∀ a, Q a → touches_only P (k a)) →
  touches_only P (bind m k).
Proof.
  intros HQ Hm Hk. apply touches_only_bind; [done|].
  intros w a w' E. apply Hk. by eapply HQ.
Qed.

Lemma SESSION_DIR_ret w (s : ptr) a w' :
  SESSION_DIR s w = (Ret a, w') → a = PathBuf.
Proof.
  destruct (SESSION_DIR_cases w s) as [(w1 & E & _)|E]; rewrite E; congruence.
Qed.

Ltac path_step :=
  match goal with
  | |- context [bind (bind (SESSION_DIR ?n) (fun d => safe_path_join d (Str ?f))) _ ?W0] =>
      let w1 := fresh "w" in
      let E := fresh "E" in
      let H := fresh "H" in
      destruct (record_path_cases W0 n f) as [(w1 & E & H)|E];
      [erewrite bind_exit by exact E|step_by ltac:(exact E)]
  end.

Ltac unlink_step :=
  match goal with
  | |- context [bind (unlink ?q) _ ?W0] =>
      let e := fresh "e" in
      let W1 := fresh "W" in
      let E := fresh "E" in
      let Hp := fresh "Hpb" in
      let Hf := fresh "Hfs" in
      destruct (unlink_frame q W0) as (e & W1 & E & _ & Hp & _ & Hf);
      step_by ltac:(exact E); clear E
  end.

Ltac rmdir_step :=
  match goal with
  | |- context [bind (rmdir ?q) _ ?W0] =>
      let e := fresh "e" in
      let W1 := fresh "W" in
      let E := fresh "E" in
      let Hp := fresh "Hpb" in
      let Hf := fresh "Hfs" in
      destruct (rmdir_frame q W0) as (e & W1 & E & _ & Hp & _ & Hf);
      step_by ltac:(exact E); clear E
  end.

(** X9: whatever its outcome, [cmd_abort] changes the store at most at
    the active-session file and at a path that ends in [/desc].  The
    four record paths are read from the one buffer of [safe_path_join]
    after the last of them was computed, so the original-ref, head and
    time records of the session, and with them its directory, are never
    removed. *)
Theorem abort_removes_only_pointer_and_description session w p :
  p ≠ ACTIVE_FILE → ends_with "/desc" p = false →
  fs (cmd_abort git session w).2 !! p = fs w !! p.
Proof.
  intros Hp1 Hp2. revert w p Hp1 Hp2.
  cut (touches_only (λ p, p = ACTIVE_FILE ∨ ends_with "/desc" p = true)
         (cmd_abort git session)).
  { intros H w p Hp1 Hp2. apply H. intros [?|?]; congruence. }
  unfold cmd_abort.
  frame_with ltac:(first
    [ apply touches_only_is_active_session
    | apply touches_only_unlink; by left
    | lazymatch goal with
      | |- @touches_only _ _ _ (bind (SESSION_DIR _) _) =>
          apply (touches_only_bind_val _ (λ a, a = PathBuf));
          [intros ???; apply SESSION_DIR_ret
          |unfold SESSION_DIR
          |intros ? ->]
      | |- @touches_only _ _ _ (bind (SESSION_FILE _) (fun _ => bind (read_from_file _) _)) =>
          unfold SESSION_FILE; apply touches_only_seq;
          [apply touches_only_record_path|intros ?]
      | |- @touches_only _ _ _ (bind (SESSION_FILE _) _) => idtac
      end ]).
  intros w p Hp.
  unfold SESSION_FILE, HEAD_FILE, SESSION_TIME_FILE, SESSION_DESC_FILE.
  assert (∀ w1 w2 : world Repo, no_effect w1 w2 → fs w2 = fs w1) as Hq
    by (by intros ?? (? & _)).
  path_step; [cbn [snd]; by erewrite Hq by eassumption|].
  path_step; [cbn [snd]; by erewrite Hq by eassumption|].
  path_step; [cbn [snd]; by erewrite Hq by eassumption|].
  path_step; [cbn [snd]; by erewrite Hq by eassumption|].
  clear E E0 E1 E2.
  match goal with |- context [set_path_buffer ?W0 (record_path "desc")] =>
    set (W0' := W0); assert (fs W0' = fs w) as Hw0 by (subst W0'; by proj);
    clearbody W0' end.
  unlink_step. unlink_step. unlink_step. unlink_step. rmdir_step.
  unfold fprintf. cbn [fst snd]. proj.
  assert (p ≠ record_path "desc") as Hne.
  { intros ->. apply Hp. by right. }
  revert Hfs Hfs0 Hfs1 Hfs2 Hfs3. cbn [deref].
  rewrite Hpb2, Hpb1, Hpb0, Hpb. proj.
  intros Hfs Hfs0 Hfs1 Hfs2 Hfs3.
  rewrite Hfs3, Hfs2, Hfs1, Hfs0, Hfs, Hw0 by exact Hne. done.
Qed.

(** ** The dispatcher *)

Lemma index_prefix (s1 s2 : string) : ∀ m,
  String.index 0 s1 s2 = Some m →
  String.prefix s1 (drop_string m s2) = true ∧ m ≤ String.length s2.
Proof.
  induction s2 as [|a s2 IH]; intros m.
  - simpl. destruct s1; [|done]. intros [= <-]. done.
  - cbn [String.index].
    destruct (String.prefix s1 (String a s2)) eqn:E.
    + intros [= <-]. split; [exact E|lia].
    + destruct (String.index 0 s1 s2) as [n0|]; [|done].
      intros [= <-]. destruct (IH n0 eq_refl) as [H1 H2].
      split; [exact H1|simpl; lia].
Qed.

Lemma prefix_cons a s b t :
  String.prefix (String a s) (String b t) = true →
  a = b ∧ String.prefix s t = true.
Proof. cbn [String.prefix]. by destruct (ascii_dec a b). Qed.

Lemma prefix_first_word cmd t :
  no_blank cmd = true → String.prefix (cmd +:+ " ") t = true →
  first_word t = cmd.
Proof.
  revert t. induction cmd as [|a cmd IH]; intros [|b t] Hn H; try done.
  - apply prefix_cons in H as [<- _]. done.
  - change (String a cmd +:+ " ") with (String a (cmd +:+ " ")) in H.
    apply prefix_cons in H as [<- H].
    cbn [no_blank] in Hn. apply andb_prop in Hn as [Ha Hn].
    cbn [first_word]. destruct (Ascii.eqb a " "); [done|].
    f_equal. by apply IH.
Qed.

Lemma prefix_run c t :
  no_blank c = true → String.prefix c t = true →
  String.length c ≤ String.length (first_word t).
Proof.
  revert t. induction c as [|a c IH]; intros [|b t] Hn H; try done;
    [simpl; lia|].
  apply prefix_cons in H as [<- H].
  cbn [no_blank] in Hn. apply andb_prop in Hn as [Ha Hn].
  cbn [first_word]. destruct (Ascii.eqb a " "); [done|].
  simpl. specialize (IH t Hn H). lia.
Qed.

Lemma substring_long k : ∀ a b,
  k ≤ String.length a → no_blank a = true →
  String.length (String.substring 0 k (a +:+ b)) = k
  ∧ no_blank (String.substring 0 k (a +:+ b)) = true.
Proof.
  induction k as [|k IH]; intros a b Hl Hn.
  - by destruct (a +:+ b).
  - destruct a as [|x a]; [simpl in Hl; lia|].
    change (String x a +:+ b) with (String x (a +:+ b)).
    cbn [String.substring String.length no_blank] in *.
    apply andb_prop in Hn as [Hx Hn].
    destruct (IH a b) as [H1 H2]; [lia|done|].
    rewrite H1, H2, Hx. done.
Qed.

Lemma words_at_are_names :
  forallb (λ n, match word_at n with
                | Some word => existsb (String.eqb word) command_names
                | None => true
                end)
    (seq 0 (S (String.length COMMAND_STRING))) = true.
Proof. vm_compute. reflexivity. Qed.

Lemma words_are_short :
  forallb (λ n, match drop_string n COMMAND_STRING with
                | String _ t => String.length (first_word t) <? 30
                | "" => true
                end)
    (seq 0 (S (String.length COMMAND_STRING))) = true.
Proof. vm_compute. reflexivity. Qed.

Lemma unknown_word_has_no_offset cmd :
  no_blank cmd = true → cmd ∉ command_names → get_command_offset cmd = (-1)%Z.
Proof.
  intros Hn Hc. unfold get_command_offset, command_offset_of.
  destruct (String.index 0 _ COMMAND_STRING) as [n|] eqn:E; [exfalso|done].
  apply index_prefix in E as [Hp Hl].
  assert (n ∈ seq 0 (S (String.length COMMAND_STRING))) as Hin
    by (apply elem_of_seq; lia).
  unfold snprintf in Hp.
  change (" " +:+ cmd +:+ " ") with (String " " (cmd +:+ " ")) in Hp.
  change (32 - 1) with 31 in Hp. cbn [String.substring] in Hp.
  destruct (le_lt_dec 30 (String.length cmd)) as [Hlen|Hlen].
  - destruct (substring_long 30 cmd " " Hlen Hn) as [H1 H2].
    pose proof words_are_short as Hs.
    rewrite forallb_forall in Hs. apply list_elem_of_In, Hs in Hin.
    destruct (drop_string n COMMAND_STRING) as [|b t]; [done|].
    apply prefix_cons in Hp as [_ Hp].
    apply prefix_run in Hp; [|done]. apply Nat.ltb_lt in Hin. lia.
  - rewrite substring_all in Hp by (rewrite length_app; simpl; lia).
    pose proof words_at_are_names as Hs.
    rewrite forallb_forall in Hs. apply list_elem_of_In, Hs in Hin.
    unfold word_at in Hin.
    destruct (drop_string n COMMAND_STRING) as [|b t]; [done|].
    apply prefix_cons in Hp as [<- Hp].
    pose proof (prefix_first_word cmd t Hn Hp) as Hw.
    rewrite Hw, Hp in Hin. cbn [Ascii.eqb andb] in Hin.
    change (Ascii.eqb " " " ") with true in Hin. cbn [andb] in Hin.
    apply existsb_exists in Hin as (x & Hx & Heq).
    apply String.eqb_eq in Heq as ->. by apply list_elem_of_In in Hx.
Qed.

Lemma known_word_has_offset cmd :
  cmd ∈ command_names →
  get_command_offset cmd ≠ (-1)%Z ∧ String.eqb cmd "help" = false.
Proof.
  unfold command_names. rewrite !elem_of_cons, elem_of_nil.
  intros H. repeat destruct H as [->|H]; try done; by vm_compute.
Qed.

(** X10: for a word without blanks, [get_command_offset] finds an offset
    exactly when the word is one of the twelve command names. *)
Theorem command_offset_exists_exactly_for_names cmd :
  no_blank cmd = true →
  (get_command_offset cmd ≠ (-1)%Z ↔ cmd ∈ command_names).
Proof.
  intros Hn. split.
  - intros H. destruct (decide (cmd ∈ command_names)) as [|Hc]; [done|].
    by apply unknown_word_has_no_offset in Hc.
  - intros H. by apply known_word_has_offset in H as [? _].
Qed.

(** X11: a first argument without blanks that is neither [help] nor a
    command name makes [main] print [Unknown command] on standard error
    and return 1; the configuration is not loaded, no git command is
    issued and the store is not touched. *)
Theorem main_rejects_unknown_words st rn prog cmd rest w :
  no_blank cmd = true → cmd ∉ command_names → cmd ≠ "help" →
  main git st rn (prog :: cmd :: rest) w
  = (Ret 1%Z, add_output w Stderr ("Unknown command: " +:+ cmd +:+ nl)).
Proof.
  intros Hn Hc Hh. unfold main.
  apply String.eqb_neq in Hh. rewrite Hh.
  rewrite (unknown_word_has_no_offset cmd Hn Hc).
  change (-1 =? -1)%Z with true. cbv iota.
  unfold bind, fprintf, ret, format. cbn [foldr deref].
  by rewrite app_empty_r.
Qed.

(** X12: every command name runs its own handler: [main] loads the
    configuration, calls the handler with the arguments that follow the
    command word, and returns 0 when the handler returns. *)
Theorem main_runs_the_named_handler st rn prog name rest h w :
  handler_for git st rn name rest = Some h →
  main git st rn (prog :: name :: rest) w
  = (load_config git >> h >> ret 0%Z) w.
Proof.
  unfold handler_for.
  repeat match goal with
         | |- context [String.eqb name ?c] =>
             destruct (String.eqb_spec name c) as [->|_];
             [intros [= <-]; reflexivity|]
         end.
  done.
Qed.

(** X13: outside a git repository, where neither [.git] nor the session
    directory exists, every command stops in [load_config]: the session
    directory cannot be created, the process exits with status 1, and no
    git command has been issued. *)
Theorem main_outside_a_repository st rn prog cmd rest w :
  cmd ∈ command_names →
  fs w !! ".git" = None → fs w !! KAISHAKU_DIR = None →
  let r := run_main git st rn (prog :: cmd :: rest) w in
  r.1 = 1%Z ∧ no_effect w r.2
  ∧ output r.2 = output w ++
      [(Stderr, "Error: Failed to create directory .git/kaishaku: "
                +:+ "No such file or directory" +:+ nl)].
Proof.
  intros Hc Hg Hk. cbv zeta. unfold run_main, main.
  apply known_word_has_offset in Hc as [Ho ->].
  apply Z.eqb_neq in Ho. rewrite Ho.
  set (w0 := set_config (fresh_process w) default_config).
  assert (load_config git w0
          = (Exit 1, add_output w0 Stderr
                       ("Error: Failed to create directory .git/kaishaku: "
                        +:+ "No such file or directory" +:+ nl))) as E.
  { unfold load_config. erewrite bind_exit; [reflexivity|].
    erewrite bind_ret by (by apply file_exists_false).
    cbn [negb when]. unfold ensure_directory_exists. cbn [deref].
    change (fs w0) with (fs w). rewrite Hk.
    unfold fs_mkdir, parent_check.
    change (dirname KAISHAKU_DIR) with (Some ".git"). cbv beta iota.
    rewrite Hk, Hg. reflexivity. }
  erewrite bind_exit by exact E.
  cbn [fst snd]. by split_and!.
Qed.

(** ** Configuration *)

Lemma config_get_known key cfg :
  is_Some (config_get key cfg) ↔ key ∈ config_keys.
Proof.
  unfold config_get, config_keys. rewrite !elem_of_cons, elem_of_nil.
  destruct (String.eqb_spec key "confirm.exit") as [->|?];
    [split; [auto|by eexists]|].
  destruct (String.eqb_spec key "auto.stash") as [->|?];
    [split; [auto|by eexists]|].
  destruct (String.eqb_spec key "auto.save") as [->|?];
    [split; [auto|by eexists]|].
  split; [by intros [? ?]|]. intros [?|[?|[?|[]]]]; done.
Qed.

Lemma config_set_get key v cfg cfg' :
  config_set key v cfg = Some cfg' →
  config_get key cfg' = Some v
  ∧ ∀ k, k ≠ key → config_get k cfg' = config_get k cfg.
Proof.
  unfold config_set, config_get.
  destruct (String.eqb_spec key "confirm.exit") as [->|?].
  { intros [= <-]. split; [done|]. intros k Hk.
    apply String.eqb_neq in Hk. by rewrite Hk. }
  destruct (String.eqb_spec key "auto.stash") as [->|?].
  { intros [= <-]. split; [done|]. intros k Hk.
    apply String.eqb_neq in Hk. rewrite Hk. by destruct (String.eqb k _). }
  destruct (String.eqb_spec key "auto.save") as [->|?]; [|done].
  intros [= <-]. split; [done|]. intros k Hk.
  apply String.eqb_neq in Hk. rewrite Hk.
  by destruct (String.eqb k _), (String.eqb k _).
Qed.

Lemma config_set_known key v cfg :
  is_Some (config_get key cfg) → is_Some (config_set key v cfg).
Proof.
  unfold config_get, config_set.
  by repeat destruct (String.eqb key _).
Qed.

Lemma format_2 w a b : format w [Str a; Str b] = a +:+ b.
Proof. unfold format. cbn [foldr deref]. by rewrite app_empty_r. Qed.

Lemma format_4s w a b c d :
  format w [Str a; Str b; Str c; Str d] = a +:+ b +:+ c +:+ d.
Proof. unfold format. cbn [foldr deref]. by rewrite app_empty_r. Qed.

Lemma atoi_range s : (- 2 ^ 31 ≤ atoi s < 2 ^ 31)%Z.
Proof.
  unfold atoi, int_of_long.
  pose proof (Z.mod_pos_bound (atol s + 2 ^ 31) (2 ^ 32) ltac:(lia)). lia.
Qed.

(** X14: [cmd_config set] on one of the three keys stores the [int] that
    [atoi] reads from the value (0 for a text that is not a number, the
    low 32 bits of a number that does not fit) in that field only, issues
    the one git command that saves it, and returns normally whether or
    not git succeeds; the store is not touched. *)
Theorem config_set_stores_and_saves w key value more old :
  config_get key (config w) = Some old →
  let n := atoi value in
  let r := cmd_config git ("set" :: key :: value :: more) w in
  (- 2 ^ 31 ≤ n < 2 ^ 31)%Z
  ∧ r.1 = Ret tt
  ∧ config_get key (config r.2) = Some n
  ∧ (∀ k, k ≠ key → config_get k (config r.2) = config_get k (config w))
  ∧ git_log r.2 = git_log w ++ [git_config_set key n]
  ∧ fs r.2 = fs w.
Proof.
  intros Hk. cbv zeta. split; [apply atoi_range|]. unfold cmd_config.
  change (String.eqb "set" "get") with false.
  change (String.eqb "set" "set") with true. cbv iota.
  step_by ltac:(reflexivity).
  destruct (config_set_known key (atoi value) (config w)) as [cfg' Hs];
    [by eauto|].
  rewrite Hs. apply config_set_get in Hs as [Hg Ho].
  step_by ltac:(reflexivity). step_by ltac:(reflexivity).
  step_by ltac:(reflexivity). step_by ltac:(apply execute_git_command_None).
  rewrite format_4s. cbn [fst snd].
  unfold git_config_set.
  destruct (git_ok _); cbn [negb when]; unfold ret, fprintf; cbn [fst snd];
    proj; cbn [config set_config]; by split_and!.
Qed.

(** X15: [cmd_config get] and [cmd_config set] on a key that is not one
    of the three exit with status 1 after naming the key on standard
    error; the configuration is unchanged, no git command is issued and
    the store is not touched. *)
Theorem config_rejects_unknown_keys w key value more :
  key ∉ config_keys →
  let complaint := "Error: Unknown config key '" +:+ key +:+ "'." +:+ nl in
  cmd_config git ("get" :: key :: more) w
  = (Exit 1, add_output w Stderr complaint)
  ∧ cmd_config git ("set" :: key :: value :: more) w
    = (Exit 1, add_output w Stderr complaint).
Proof.
  intros Hk. cbv zeta. unfold cmd_config.
  change (String.eqb "set" "get") with false.
  change (String.eqb "set" "set") with true.
  change (String.eqb "get" "get") with true. cbv iota.
  assert (config_get key (config w) = None) as Hg.
  { destruct (config_get key (config w)) eqn:E; [|done].
    exfalso. apply Hk, (config_get_known key (config w)). by eauto. }
  assert (config_set key (atoi value) (config w) = None) as Hs.
  { revert Hg. unfold config_get, config_set.
    by repeat destruct (String.eqb key _). }
  split; step_by ltac:(reflexivity); rewrite ?Hg, ?Hs;
    unfold unknown_key; rewrite complain_exits; unfold format;
    cbn [foldr deref]; by rewrite app_empty_r.
Qed.

Lemma execute_git_command_captured w cmd o :
  let res := git cmd (repo w) in
  match captured res.1 with
  | Some l =>
      execute_git_command git cmd (Some o) w
      = (Ret (true, Some l), set_git w res.2 cmd)
  | None =>
      ∃ o' e, execute_git_command git cmd (Some o) w
              = (Ret (false, o'), set_error_message (set_git w res.2 cmd) e)
  end.
Proof.
  cbv zeta. unfold execute_git_command, captured, first_line.
  destruct (git cmd (repo w)) as [[|out status] r']; cbn [fst snd].
  { by eexists _, _. }
  destruct (fgets DEFAULT_BUFFER_SIZE out) as [l|];
    destruct (status =? 0)%Z; cbn [fmap option_fmap option_map];
    try done; by eexists _, _.
Qed.

Lemma load_key_spec key w :
  key ∈ config_keys →
  let v := default 0%Z (config_get key (config w)) in
  ∃ w', load_key git key w = (Ret tt, w') ∧ fs w' = fs w
        ∧ config_get key (config w') = Some (loaded git key v (repo w))
        ∧ (∀ k, k ≠ key → config_get k (config w') = config_get k (config w))
        ∧ git_log w' = git_log w ++ load_commands git key v (repo w)
        ∧ repo w' = repo_after_load git key v (repo w).
Proof.
  intros Hk v. subst v.
  unfold load_key, loaded, load_commands, repo_after_load, load_answer.
  step_by ltac:(reflexivity). rewrite format_2.
  fold (git_config_get key).
  pose proof (execute_git_command_captured w (git_config_get key) "") as Hc.
  cbv zeta in Hc.
  destruct (captured (git (git_config_get key) (repo w)).1) as [l|].
  - step_by ltac:(exact Hc). step_by ltac:(reflexivity). cbn [fst snd default].
    apply (config_get_known key (config w)) in Hk. proj. cbn [config].
    unfold id.
    destruct (config_set_known key (atoi l) (config w)) as [cfg' Hs];
      [exact Hk|].
    rewrite Hs. apply config_set_get in Hs as [Hg Ho].
    eexists. split; [reflexivity|]. by split_and!.
  - destruct Hc as (o' & e & Hc).
    step_by ltac:(exact Hc). step_by ltac:(reflexivity). cbn [fst snd].
    step_by ltac:(reflexivity). step_by ltac:(apply execute_git_command_None).
    rewrite format_4s. proj. cbn [config]. fold (git_config_set key).
    unfold ret. eexists. split; [reflexivity|]. proj.
    apply (config_get_known key (config w)) in Hk. destruct Hk as [v Hv].
    rewrite Hv. cbn [default]. rewrite <- app_assoc. by split_and!.
Qed.

(** X16: [load_config] always returns and does not touch the store,
    whatever git does.  It asks git for each of the three keys in turn,
    each query in the repository state the commands before it left.  A
    key git answers takes the number [atoi] reads from the answer; a key
    git does not answer keeps the value it had, and that value is written
    back with [git config --local]. *)
Theorem load_config_reads_or_writes_back w :
  is_Some (fs w !! KAISHAKU_DIR) →
  let c := config w in
  let r1 := repo w in
  let r2 := repo_after_load git "confirm.exit" (confirm_exit c) r1 in
  let r3 := repo_after_load git "auto.stash" (auto_stash c) r2 in
  ∃ w', load_config git w = (Ret tt, w')
        ∧ config w'
          = {| confirm_exit := loaded git "confirm.exit" (confirm_exit c) r1;
               auto_stash := loaded git "auto.stash" (auto_stash c) r2;
               auto_save := loaded git "auto.save" (auto_save c) r3 |}
        ∧ git_log w'
          = git_log w
            ++ load_commands git "confirm.exit" (confirm_exit c) r1
            ++ load_commands git "auto.stash" (auto_stash c) r2
            ++ load_commands git "auto.save" (auto_save c) r3
        ∧ repo w' = repo_after_load git "auto.save" (auto_save c) r3
        ∧ fs w' = fs w.
Proof.
  intros Hk. cbv zeta. unfold load_config.
  rewrite bind_assoc.
  step_by ltac:(by apply file_exists_true). cbn [negb when].
  step_by ltac:(reflexivity).
  assert ("confirm.exit" ∈ config_keys ∧ "auto.stash" ∈ config_keys
          ∧ "auto.save" ∈ config_keys) as (K1 & K2 & K3)
    by (unfold config_keys; rewrite !elem_of_cons; auto 10).
  destruct (load_key_spec "confirm.exit" w K1)
    as (w1 & E1 & F1 & G1 & O1 & L1 & R1).
  step_by ltac:(exact E1).
  destruct (load_key_spec "auto.stash" w1 K2)
    as (w2 & E2 & F2 & G2 & O2 & L2 & R2).
  step_by ltac:(exact E2).
  destruct (load_key_spec "auto.save" w2 K3)
    as (w3 & E3 & F3 & G3 & O3 & L3 & R3).
  exists w3. split; [exact E3|].
  pose proof (O1 "auto.stash" ltac:(done)) as A1.
  pose proof (O1 "auto.save" ltac:(done)) as A2.
  pose proof (O2 "confirm.exit" ltac:(done)) as A3.
  pose proof (O2 "auto.save" ltac:(done)) as A4.
  pose proof (O3 "confirm.exit" ltac:(done)) as A5.
  pose proof (O3 "auto.stash" ltac:(done)) as A6.
  cbn [config_get String.eqb Ascii.eqb Bool.eqb default] in *.
  injection G1 as G1. injection G2 as G2. injection G3 as G3.
  injection A1 as A1. injection A2 as A2. injection A3 as A3.
  injection A4 as A4. injection A5 as A5. injection A6 as A6.
  rewrite A1 in *. rewrite A2, A4 in *. rewrite R1 in *. rewrite R2 in *.
  split_and!.
  - destruct (config w3) as [x y z]. cbn in *. congruence.
  - rewrite L3, L2, L1. by rewrite <- !app_assoc.
  - exact R3.
  - congruence.
Qed.

(** ** Records written and read back *)

Lemma chomp_fgets_line c : ∀ room,
  no_newline c = true → String.length c ≤ room →
  chomp (fgets_line room (c +:+ nl)) = c.
Proof.
  induction c as [|a c IH]; intros room Hn Hl.
  - by destruct room.
  - destruct room as [|room]; [simpl in Hl; lia|].
    change (String a c +:+ nl) with (String a (c +:+ nl)).
    cbn [no_newline] in Hn. apply andb_prop in Hn as [Ha Hn].
    cbn [fgets_line]. apply negb_true_iff in Ha. rewrite Ha.
    specialize (IH room Hn ltac:(simpl in Hl; lia)).
    cbn [chomp]. rewrite Ha.
    destruct (fgets_line room (c +:+ nl)) as [|x r]; [by rewrite <- IH|].
    by rewrite IH.
Qed.

Lemma first_line_written c :
  no_newline c = true → String.length c < DEFAULT_BUFFER_SIZE →
  first_line (c +:+ nl) = Some c.
Proof.
  intros Hn Hl. unfold first_line, fgets.
  destruct (c +:+ nl) as [|x r] eqn:E.
  { apply (f_equal String.length) in E. rewrite length_app in E.
    simpl in E. lia. }
  rewrite <- E. cbn [fmap option_fmap option_map]. f_equal.
  apply chomp_fgets_line; [done|]. unfold DEFAULT_BUFFER_SIZE in *. lia.
Qed.

Lemma no_newline_chomp_fgets_line room : ∀ s,
  no_newline (chomp (fgets_line room s)) = true.
Proof.
  induction room as [|room IH]; intros [|a s]; try done.
  cbn [fgets_line]. destruct (Ascii.eqb a nl_char) eqn:Ha; [done|].
  specialize (IH s). cbn [chomp].
  destruct (fgets_line room s) as [|x r].
  - rewrite Ha. cbn [no_newline]. by rewrite Ha.
  - cbn [no_newline]. by rewrite Ha, IH.
Qed.

Lemma fgets_no_newline size c x :
  fgets size c = Some x → no_newline (chomp x) = true.
Proof.
  unfold fgets. destruct c as [|a c]; [done|].
  intros [= <-]. apply no_newline_chomp_fgets_line.
Qed.

Lemma first_line_no_newline c l : first_line c = Some l → no_newline l = true.
Proof.
  unfold first_line.
  destruct (fgets DEFAULT_BUFFER_SIZE c) as [x|] eqn:E; [|done].
  intros [= <-]. by eapply fgets_no_newline.
Qed.

(** X17: a record written by [write_to_file] reads back unchanged through
    [read_from_file], provided the text has no newline and is shorter
    than the reader's 512-byte buffer. *)
Theorem written_record_reads_back w (p c : ptr) w1 :
  write_to_file p c w = (Ret true, w1) →
  no_newline (deref w c) = true →
  String.length (deref w c) < DEFAULT_BUFFER_SIZE →
  read_from_file p w1 = (Ret (Some ReadBuf), set_buffer w1 (deref w c)).
Proof.
  unfold write_to_file, fs_write. intros Hw Hn Hl.
  assert (w1 = set_fs w (<[deref w p := File (deref w c +:+ nl)]> (fs w)))
    as ->.
  { destruct (fs w !! deref w p) as [[x|]|];
      [|done|destruct (parent_check _ _); [done|]]; congruence. }
  apply read_from_file_some. unfold record_at.
  assert (deref (set_fs w (<[deref w p := File (deref w c +:+ nl)]> (fs w))) p
          = deref w p) as -> by (by destruct p).
  proj. rewrite lookup_insert_eq. by apply first_line_written.
Qed.

(** X18: whatever a record holds, the text [read_from_file] hands back is
    the static read buffer, shorter than 512 characters and free of
    newlines; the store is not changed by reading. *)
Theorem read_line_is_short_and_newline_free w (p : ptr) q w' :
  read_from_file p w = (Ret (Some q), w') →
  q = ReadBuf ∧ String.length (deref w' q) < DEFAULT_BUFFER_SIZE
  ∧ no_newline (deref w' q) = true ∧ fs w' = fs w.
Proof.
  unfold read_from_file.
  destruct (record_at (fs w) (deref w p)) as [l|] eqn:E; [|done].
  intros [= <- <-]. cbn [deref buffer set_buffer fs].
  split_and!; [done|by eapply record_at_length| |done].
  unfold record_at in E. destruct (fs w !! deref w p) as [[c|]|]; try done.
  by eapply first_line_no_newline.
Qed.

(** ** The time record *)

Lemma atol_digits_acc d : ∀ acc,
  atol_digits (Z.pos acc) (NilEmpty.string_of_uint d)
  = Z.pos (Pos.of_uint_acc d acc).
Proof.
  induction d; intros acc; cbn [NilEmpty.string_of_uint Pos.of_uint_acc];
    [done|..];
    cbn [atol_digits]; rewrite <- IHd; f_equal; simpl; lia.
Qed.

Lemma atol_digits_0 d :
  atol_digits 0 (NilEmpty.string_of_uint d) = Z.of_N (Pos.of_uint d).
Proof.
  induction d; cbn [NilEmpty.string_of_uint Pos.of_uint];
    [done|exact IHd|..];
    cbn [atol_digits]; simpl; apply atol_digits_acc.
Qed.

Lemma atol_digits_to_uint p :
  atol_digits 0 (NilEmpty.string_of_uint (Pos.to_uint p)) = Z.pos p.
Proof.
  rewrite atol_digits_0.
  change (Pos.of_uint (Pos.to_uint p)) with (N.of_uint (N.to_uint (N.pos p))).
  by rewrite DecimalN.Unsigned.of_to.
Qed.

Lemma decimal_value_unsigned d :
  d ≠ Decimal.Nil →
  decimal_value (NilEmpty.string_of_uint d)
  = atol_digits 0 (NilEmpty.string_of_uint d).
Proof. by destruct d. Qed.

Lemma to_uint_not_nil p : Pos.to_uint p ≠ Decimal.Nil.
Proof.
  intros H. pose proof (DecimalPos.Unsigned.of_to p) as Hp.
  rewrite H in Hp. done.
Qed.

Lemma string_of_Z_pos p :
  string_of_Z (Z.pos p) = NilEmpty.string_of_uint (Pos.to_uint p)
  ∧ string_of_Z (Z.neg p) = String "-" (NilEmpty.string_of_uint (Pos.to_uint p)).
Proof.
  unfold string_of_Z, NilZero.string_of_int, NilZero.string_of_uint.
  cbn [Z.to_int]. pose proof (to_uint_not_nil p).
  by destruct (Pos.to_uint p).
Qed.

Lemma decimal_value_string_of_Z z : decimal_value (string_of_Z z) = z.
Proof.
  destruct z as [|p|p]; [done|..]; destruct (string_of_Z_pos p) as [Hp Hn];
    rewrite ?Hp, ?Hn.
  - rewrite decimal_value_unsigned by apply to_uint_not_nil.
    apply atol_digits_to_uint.
  - cbn [decimal_value]. change (Ascii.is_space "-") with false.
    change (Ascii.eqb "-" "-") with true. cbv iota.
    by rewrite atol_digits_to_uint.
Qed.

(** [%ld] followed by [atol] is the identity on the values of [long]. *)
Lemma atol_string_of_Z z :
  (LONG_MIN ≤ z ≤ LONG_MAX)%Z → atol (string_of_Z z) = z.
Proof. intros H. unfold atol. rewrite decimal_value_string_of_Z. lia. Qed.

Lemma no_newline_digits d : no_newline (NilEmpty.string_of_uint d) = true.
Proof. induction d; done. Qed.

Lemma no_newline_string_of_Z z : no_newline (string_of_Z z) = true.
Proof.
  destruct z as [|p|p]; [done|..]; destruct (string_of_Z_pos p) as [Hp Hn];
    rewrite ?Hp, ?Hn; [|cbn [no_newline]]; by rewrite no_newline_digits.
Qed.

Lemma dirname_app a f :
  no_slash f = true → dirname (a +:+ "/" +:+ f) = Some a.
Proof.
  intros Hf. induction a as [|c a IH].
  - change ("" +:+ "/" +:+ f) with (String "/" f). cbn [dirname].
    by rewrite (dirname_no_slash f Hf).
  - change (String c a +:+ "/" +:+ f) with (String c (a +:+ "/" +:+ f)).
    cbn [dirname]. by rewrite IH.
Qed.

(** X19: the time record round trip.  After [update_timestamp],
    [get_session_time] formats exactly the clock value that was written:
    the decimal text of [%ld] is read back by [atol] as the same number.
    The record is the one time record the program keeps, so the names of
    the two sessions need not agree. *)
Theorem timestamp_reads_back st name other w :
  String.length name + 22 < MAX_PATH_LENGTH →
  String.length other + 22 < MAX_PATH_LENGTH →
  fs w !! record_path "time" ≠ Some Dir →
  (LONG_MIN ≤ now w ≤ LONG_MAX)%Z →
  String.length (string_of_Z (now w)) < DEFAULT_BUFFER_SIZE →
  ∃ r w', (update_timestamp (Str name) >> get_session_time st (Str other)) w
          = (Ret r, w')
          ∧ deref w' r = match st (now w) with
                         | Some t => snprintf DEFAULT_BUFFER_SIZE t
                         | None => "invalid"
                         end.
Proof.
  intros Hl Hl' Hn Hr Hc.
  unfold update_timestamp, get_session_time, SESSION_TIME_FILE.
  rewrite !bind_assoc. step_by ltac:(reflexivity).
  rewrite snprintf_fits by done. rewrite bind_assoc.
  step_by ltac:(apply session_file_ok; [simpl; lia|done]).
  rewrite bind_assoc.
  step_by ltac:(apply (write_record_ok _ _ _ "time"); proj; done).
  step_by ltac:(reflexivity).
  step_by ltac:(apply session_file_ok; [simpl; lia|done]).
  step_by ltac:(apply read_from_file_some; unfold record_at; proj;
                rewrite lookup_insert_eq; apply first_line_written;
                [apply no_newline_string_of_Z|done]).
  proj. rewrite atol_string_of_Z by done.
  destruct (st (now w)); eexists _, _; (split; [reflexivity|]); by proj.
Qed.

(** ** Runtime helpers *)

(** X20: [ensure_directory_exists] returns only when the path is a
    directory afterwards; otherwise it exits with status 1 and the store
    is unchanged.  No other path is ever touched. *)
Theorem ensure_directory_exists_post w (d : ptr) :
  let r := ensure_directory_exists d w in
  (∀ p, p ≠ deref w d → fs r.2 !! p = fs w !! p)
  ∧ match r.1 with
    | Ret _ => fs r.2 !! deref w d = Some Dir
    | Exit code => code = 1%Z ∧ fs r.2 = fs w
    end.
Proof.
  cbv zeta. unfold ensure_directory_exists, fs_mkdir.
  destruct (fs w !! deref w d) as [[c|]|] eqn:E; [by rewrite complain_exits|done|].
  destruct (parent_check (fs w) (deref w d)) as [[]|];
    rewrite ?complain_exits; cbn [fst snd]; proj; try done.
  split; [|apply lookup_insert_eq].
  intros p Hp. by apply lookup_insert_ne.
Qed.

(** X21: [cmd_status] keeps the session name, the original ref and the
    head ref in the one buffer of [read_from_file], so its first three
    lines all show what was read last: the head record if there is one,
    else the original-ref record if there is one, else the session name.
    The [Original branch] and [Session HEAD] lines say [(unknown)] when
    their record could not be read. *)
Theorem status_lines_show_the_last_record_read w s :
  active_pointer (fs w) = Some s →
  let o := record_at (fs w) (record_path "session") in
  let h := record_at (fs w) (record_path "head") in
  let shown := default (default s o) h in
  let label (indent name : string) :=
    indent +:+ COLOR_CYAN +:+ name +:+ COLOR_RESET +:+ " " +:+ COLOR_WHITE in
  ∃ rest,
    output (cmd_status git w).2
    = output w
      ++ [(Stdout, label "" "Active session:" +:+ shown +:+ nl);
          (Stdout, label "  " "Original branch:"
                   +:+ match o with Some _ => shown | None => "(unknown)" end
                   +:+ nl);
          (Stdout, label "  " "Session HEAD:"
                   +:+ match h with Some _ => shown | None => "(unknown)" end
                   +:+ nl)]
      ++ rest.
Proof.
  intros Ha. cbv zeta. unfold active_pointer in Ha.
  unfold cmd_status, SESSION_FILE, HEAD_FILE.
  step_by ltac:(apply file_exists_true; eauto using record_at_is_Some).
  cbn [negb].
  step_by ltac:(by apply read_from_file_some).
  step_by ltac:(apply session_file_ok;
                [simpl; lia
                |simpl; eauto using short_name_fits, record_at_length]).
  assert (∀ W : world Repo, ∃ rest,
    output
      ((fprintf Stdout
          [Str nl; Str COLOR_CYAN; Str "Current HEAD:"; Str COLOR_RESET;
           Str nl] >>
        let* ran := system_ran git "git log --oneline -1" in
        when ran
          (fprintf Stdout
             [Str nl; Str COLOR_CYAN; Str "Uncommitted changes:";
              Str COLOR_RESET; Str nl] >>
           let* ran0 := system_ran git "git status --short" in
           when ran0
             (let* cfg := λ w0 : world Repo, (Ret (config w0), w0) in
              fprintf Stdout
                [Str nl; Str COLOR_CYAN; Str "Configuration:";
                 Str COLOR_RESET; Str nl] >>
              fprintf Stdout
                [Str "  "; Str COLOR_CYAN; Str "confirm_exit:";
                 Str COLOR_RESET; Str " "; Str COLOR_WHITE;
                 Str (yes_no (confirm_exit cfg)); Str nl] >>
              fprintf Stdout
                [Str "  "; Str COLOR_CYAN; Str "auto_stash:";
                 Str COLOR_RESET; Str " "; Str COLOR_WHITE;
                 Str (yes_no (auto_stash cfg)); Str nl] >>
              fprintf Stdout
                [Str "  "; Str COLOR_CYAN; Str "auto_save:";
                 Str COLOR_RESET; Str " "; Str COLOR_WHITE;
                 Str (yes_no (auto_save cfg)); Str nl]))) W).2
    = output W ++ rest) as Htail.
  { intros W. step_by ltac:(reflexivity).
    unfold system_ran at 1. unfold bind at 1. proj.
    destruct (git "git log --oneline -1" (repo W)) as [[|o1 s1] r1];
      cbn [when ret fst snd]; proj; [by eexists|].
    step_by ltac:(reflexivity).
    unfold system_ran at 1. unfold bind at 1. proj.
    destruct (git "git status --short" r1) as [[|o2 s2] r2];
      cbn [when ret fst snd]; proj; rewrite <- ?app_assoc; [by eexists|].
    unfold bind, fprintf. cbn [fst snd]. proj.
    rewrite <- !app_assoc. by eexists. }
  destruct (record_at (fs w) (record_path "session")) as [orig|] eqn:Eo.
  - step_by ltac:(apply read_from_file_some; proj; exact Eo).
    step_by ltac:(apply session_file_ok; [simpl; lia|]; cbn [deref]; proj;
                  eauto using short_name_fits, record_at_length).
    proj.
    destruct (record_at (fs w) (record_path "head")) as [h|] eqn:Eh.
    + step_by ltac:(apply read_from_file_some; proj; exact Eh).
      do 3 step_by ltac:(reflexivity).
      match goal with |- ∃ rest, output (_ ?W).2 = _ =>
        destruct (Htail W) as [rest Hr] end.
      exists rest. rewrite Hr. proj. cbn [or_text default].
      unfold format. cbn [foldr]. proj.
      rewrite <- !app_assoc, !app_empty_r. cbn [app]. by rewrite !app_assoc_s.
    + step_by ltac:(apply read_from_file_none; proj; exact Eh).
      do 3 step_by ltac:(reflexivity).
      match goal with |- ∃ rest, output (_ ?W).2 = _ =>
        destruct (Htail W) as [rest Hr] end.
      exists rest. rewrite Hr. proj. cbn [or_text default].
      unfold format. cbn [foldr]. proj.
      rewrite <- !app_assoc, !app_empty_r. cbn [app]. by rewrite !app_assoc_s.
  - step_by ltac:(apply read_from_file_none; proj; exact Eo).
    step_by ltac:(apply session_file_ok; [simpl; lia|]; cbn [deref]; proj;
                  eauto using short_name_fits, record_at_length).
    proj.
    destruct (record_at (fs w) (record_path "head")) as [h|] eqn:Eh.
    + step_by ltac:(apply read_from_file_some; proj; exact Eh).
      do 3 step_by ltac:(reflexivity).
      match goal with |- ∃ rest, output (_ ?W).2 = _ =>
        destruct (Htail W) as [rest Hr] end.
      exists rest. rewrite Hr. proj. cbn [or_text default].
      unfold format. cbn [foldr]. proj.
      rewrite <- !app_assoc, !app_empty_r. cbn [app]. by rewrite !app_assoc_s.
    + step_by ltac:(apply read_from_file_none; proj; exact Eh).
      do 3 step_by ltac:(reflexivity).
      match goal with |- ∃ rest, output (_ ?W).2 = _ =>
        destruct (Htail W) as [rest Hr] end.
      exists rest. rewrite Hr. proj. cbn [or_text default].
      unfold format. cbn [foldr]. proj.
      rewrite <- !app_assoc, !app_empty_r. cbn [app]. by rewrite !app_assoc_s.
Qed.

(** ** Opening a session on a fresh name *)

Lemma parent_check_session_dir fs name :
  no_slash name = true → fs !! KAISHAKU_DIR = Some Dir →
  parent_check fs (session_dir_path name) = None.
Proof.
  intros Hn Hk. unfold parent_check, session_dir_path.
  rewrite dirname_app by done. change KAISHAKU_DIR with ".git/kaishaku" at 1.
  cbv iota. change ".git/kaishaku" with KAISHAKU_DIR. by rewrite Hk.
Qed.

Lemma ensure_directory_exists_creates w (d : ptr) :
  fs w !! deref w d = None → parent_check (fs w) (deref w d) = None →
  ensure_directory_exists d w
  = (Ret tt, set_fs w (<[deref w d := Dir]> (fs w))).
Proof.
  intros Hd Hp. unfold ensure_directory_exists, fs_mkdir. by rewrite Hd, Hp.
Qed.

Ltac open_start Hd Hs Hg1 Hb :=
  unfold cmd_checkout, SESSION_FILE, HEAD_FILE;
  step_by ltac:(by apply ensure_directory_exists_dir);
  step_by ltac:(by apply SESSION_DIR_ok);
  step_by ltac:(apply ensure_directory_exists_creates; proj;
                [exact Hd|by apply parent_check_session_dir]);
  step_by ltac:(eapply execute_git_command_capture; [exact Hg1|exact Hb]);
  cbn [negb fst snd default];
  step_by ltac:(by apply session_file_ok; [simpl; lia|]);
  step_by ltac:(apply (write_record_ok _ _ _ "session"); proj;
                [done|done|by rewrite lookup_insert_ne]);
  cbn [negb]; proj; unfold id.

(** X22: an open that fails at [git rev-parse HEAD] is not rolled back.
    On a fresh name, once the current branch was read, the session
    directory exists and the original-ref record holds the current
    branch; when the second query then fails the handler exits with
    status 1 and leaves exactly these two changes behind: an empty session
    directory and an overwritten original-ref record, and no active
    pointer written. *)
Theorem interrupted_open_is_not_rolled_back w name branch out1 r1 :
  no_slash name = true →
  String.length name + 22 < MAX_PATH_LENGTH →
  fs w !! KAISHAKU_DIR = Some Dir →
  fs w !! session_dir_path name = None →
  fs w !! record_path "session" ≠ Some Dir →
  git "git rev-parse --abbrev-ref HEAD" (repo w) = (Finished out1 0, r1) →
  first_line out1 = Some branch →
  captured (git "git rev-parse HEAD" r1).1 = None →
  let r := cmd_checkout git (Some name) None w in
  r.1 = Exit 1
  ∧ fs r.2 = <[record_path "session" := File (branch +:+ nl)]>
               (<[session_dir_path name := Dir]> (fs w)).
Proof.
  intros Hn Hl Hk Hd Hs Hg1 Hb Hc. cbv zeta.
  open_start Hd Hs Hg1 Hb.
  rewrite bind_assoc.
  match goal with |- context [bind (execute_git_command _ ?c (Some ?o)) _ ?W] =>
    pose proof (execute_git_command_captured W c o) as He end.
  cbv zeta in He. revert He. proj. rewrite Hc. intros (o' & e & He).
  step_by ltac:(exact He). cbn [negb fst snd].
  unfold git_failed. rewrite bind_assoc. step_by ltac:(reflexivity).
  erewrite bind_exit by reflexivity. cbn [fst snd]. by proj.
Qed.

(** X23: opening a session on a fresh name creates the session
    directory, which stays empty, and writes, in this order, the
    original-ref record, the head record, the active pointer and the time
    record; the three records go to the record paths of the program,
    which do not depend on the name.  Then the detached checkout of the
    commit is issued.  Nothing else in the store changes.  The handler
    returns exactly when that checkout succeeds; when it fails the
    session stays created and active. *)
Theorem open_on_a_fresh_name w name commit_arg branch commit out1 r1 r2 :
  no_slash name = true → name ≠ ".active" →
  String.length name + 22 < MAX_PATH_LENGTH →
  fs w !! KAISHAKU_DIR = Some Dir →
  fs w !! session_dir_path name = None →
  fs w !! record_path "session" ≠ Some Dir →
  fs w !! record_path "head" ≠ Some Dir →
  fs w !! record_path "time" ≠ Some Dir →
  fs w !! ACTIVE_FILE ≠ Some Dir →
  git "git rev-parse --abbrev-ref HEAD" (repo w) = (Finished out1 0, r1) →
  first_line out1 = Some branch →
  match commit_arg with
  | Some c => commit = c ∧ r2 = r1
  | None => ∃ out2, git "git rev-parse HEAD" r1 = (Finished out2 0, r2)
                    ∧ first_line out2 = Some commit
  end →
  let detach := git_checkout_detach (DEFAULT_BUFFER_SIZE + 27) commit in
  let r := cmd_checkout git (Some name) commit_arg w in
  fs r.2
  = <[record_path "time" :=
        File (snprintf DEFAULT_BUFFER_SIZE (string_of_Z (now w)) +:+ nl)]>
      (<[ACTIVE_FILE := File (name +:+ nl)]>
         (<[record_path "head" := File (commit +:+ nl)]>
            (<[record_path "session" := File (branch +:+ nl)]>
               (<[session_dir_path name := Dir]> (fs w)))))
  ∧ last (git_log r.2) = Some detach
  ∧ r.1 = if git_ok (git detach r2).1 then Ret tt else Exit 1.
Proof.
  intros Hn Hna Hl Hk Hd Hs Hh Ht Ha Hg1 Hb Hc. cbv zeta.
  assert (session_dir_path name ≠ KAISHAKU_DIR) as Hdk.
  { unfold session_dir_path. intros E. apply (f_equal String.length) in E.
    rewrite !length_app in E. simpl in E. lia. }
  assert (session_dir_path name ≠ ACTIVE_FILE) as Hda.
  { unfold session_dir_path, ACTIVE_FILE. intros E.
    by apply (inj (String.app KAISHAKU_DIR)), (inj (String.app "/")) in E. }
  open_start Hd Hs Hg1 Hb.
  match goal with |- context [bind ?m _ ?W0] =>
    assert (∃ W, m W0 = (Ret commit, W) ∧ fs W = fs W0 ∧ repo W = r2
                 ∧ now W = now w) as (W & HW & HfW & HrW & HnW) end.
  { destruct commit_arg as [c|].
    - destruct Hc as [-> ->]. eexists. split; [reflexivity|done].
    - destruct Hc as (out2 & Hg2 & Hc).
      step_by ltac:(eapply execute_git_command_capture; [exact Hg2|exact Hc]).
      eexists. split; [reflexivity|done]. }
  step_by ltac:(exact HW). clear HW. revert HfW. proj. intros HfW.
  step_by ltac:(by apply session_file_ok; [simpl; lia|]).
  step_by ltac:(apply (write_record_ok _ _ _ "head"); proj;
                [done|done|rewrite HfW; by rewrite !lookup_insert_ne]).
  cbn [negb]. proj.
  step_by ltac:(apply write_active_ok; proj; rewrite HfW;
                by rewrite !lookup_insert_ne).
  cbn [negb]. proj.
  unfold update_timestamp, SESSION_TIME_FILE.
  rewrite bind_assoc. step_by ltac:(reflexivity). proj.
  rewrite bind_assoc.
  step_by ltac:(by apply session_file_ok; [simpl; lia|]).
  rewrite bind_assoc.
  step_by ltac:(apply (write_record_ok _ _ _ "time"); proj;
                [done|done|rewrite HfW; by rewrite !lookup_insert_ne]).
  step_by ltac:(reflexivity).
  step_by ltac:(reflexivity). step_by ltac:(apply execute_git_command_None).
  rewrite format_3. proj. rewrite HrW, HnW, HfW.
  unfold git_checkout_detach.
  destruct (git_ok _); cbn [negb fst snd]; unfold git_failed;
    rewrite ?complain_exits; unfold fprintf; cbn [fst snd]; proj;
    rewrite last_snoc; done.
Qed.

(** ** What purge removes *)

Lemma clean_entry_tail (P : string → Prop) (name : ptr) w (k : M Repo Z) :
  P (record_path "head") →
  (∀ W, fs (k W).2 = fs W) →
  ∀ p, ¬ P p →
    fs ((let* session_file := SESSION_FILE name in
         let* head_file := HEAD_FILE name in
         unlink session_file >> unlink head_file >> rmdir PathBuf >> k) w).2
      !! p = fs w !! p.
Proof.
  intros HP Hk p Hp. unfold SESSION_FILE, HEAD_FILE.
  assert (∀ w1 w2 : world Repo, no_effect w1 w2 → fs w2 = fs w1) as Hq
    by (by intros ?? (? & _)).
  path_step; [cbn [snd]; by erewrite Hq by eassumption|].
  path_step; [cbn [snd]; by erewrite Hq by eassumption|].
  clear E E0.
  match goal with |- context [set_path_buffer ?W0 (record_path "head")] =>
    set (W0' := W0); assert (fs W0' = fs w) as Hw0 by (subst W0'; by proj);
    clearbody W0' end.
  unlink_step. unlink_step. rmdir_step.
  rewrite Hk.
  assert (p ≠ record_path "head") as Hne by (intros ->; apply Hp, HP).
  revert Hfs Hfs0 Hfs1. cbn [deref]. rewrite Hpb0, Hpb. proj.
  intros Hfs Hfs0 Hfs1.
  rewrite Hfs1, Hfs0, Hfs, Hw0 by exact Hne. done.
Qed.

(** X24: whatever its argument and outcome, [cmd_clean] changes the
    store at most at paths that end in [/head].  In both forms the
    directory path and the two record paths are read from the one buffer
    of [safe_path_join] after the head path was computed, so a purge
    removes head records only: no session directory and no original-ref
    record is ever removed by it. *)
Theorem clean_removes_only_head_records session w p :
  ends_with "/head" p = false →
  fs (cmd_clean session w).2 !! p = fs w !! p.
Proof.
  intros Hp. revert w p Hp.
  cut (touches_only (Repo:=Repo) (λ p, ends_with "/head" p = true)
         (cmd_clean session)).
  { intros H w p Hp. apply H. congruence. }
  unfold cmd_clean, no_sessions.
  frame_with ltac:(first
    [ apply touches_only_is_active_session
    | apply touches_only_for_each; intros ??; unfold clean_entry
    | lazymatch goal with
      | |- @touches_only _ _ _ (bind (SESSION_DIR _) _) =>
          apply (touches_only_bind_val _ (λ a, a = PathBuf));
          [intros ???; apply SESSION_DIR_ret
          |unfold SESSION_DIR
          |intros ? ->]
      | |- @touches_only _ _ _ (bind (SESSION_FILE _) _) => idtac
      end ]).
  - intros w p Hp. unfold SESSION_FILE, HEAD_FILE.
    assert (∀ w1 w2 : world Repo, no_effect w1 w2 → fs w2 = fs w1) as Hq
      by (by intros ?? (? & _)).
    path_step; [cbn [snd]; by erewrite Hq by eassumption|].
    path_step; [cbn [snd]; by erewrite Hq by eassumption|].
    clear E E0.
    match goal with |- context [set_path_buffer ?W0 (record_path "head")] =>
      set (W0' := W0); assert (fs W0' = fs w) as Hw0 by (subst W0'; by proj);
      clearbody W0' end.
    assert (p ≠ record_path "head") as Hne.
    { intros ->. by apply Hp. }
    unlink_step. revert Hfs. cbn [deref]. proj. intros Hfs.
    destruct e as [e|].
    { step_by ltac:(reflexivity). rewrite complain_exits. cbn [snd]. proj.
      by rewrite Hfs, Hw0. }
    unlink_step. revert Hfs0. cbn [deref]. rewrite Hpb. proj. intros Hfs0.
    destruct e as [e|].
    { rewrite complain_exits. cbn [snd]. proj. by rewrite Hfs0, Hfs, Hw0. }
    rmdir_step. revert Hfs1. cbn [deref]. rewrite Hpb0, Hpb. proj. intros Hfs1.
    destruct e; [rewrite complain_exits|unfold fprintf]; cbn [snd]; proj;
      by rewrite Hfs1, Hfs0, Hfs, Hw0.
  - intros w p Hp.
    by apply (clean_entry_tail (λ p, ends_with "/head" p = true)).
Qed.

(** ** Record paths *)


(** ** Recover and the original ref *)

(** X26: [cmd_recover] never looks at the original-ref record.  The paths
    of the two records are one buffer, which holds the path of the head
    record when the records are tested and read, so for an inactive
    session, the head record holding [h], with or without an original-ref
    record, the first git command verifies [h] as if it were the original
    branch, and when that fails the next one is [git checkout -b h]: a
    branch named after the head ref. *)
Theorem recover_takes_the_head_ref_for_the_branch w s h :
  String.length s + 22 < MAX_PATH_LENGTH →
  fs w !! KAISHAKU_DIR = Some Dir →
  is_Some (fs w !! session_dir_path s) →
  record_at (fs w) (record_path "head") = Some h →
  active_pointer (fs w) ≠ Some s →
  let verify :=
    snprintf DEFAULT_BUFFER_SIZE ("git rev-parse --verify " +:+ h) in
  let r := cmd_recover git (Some s) w in
  ∃ rest,
    git_log r.2
    = git_log w ++ verify :: (if git_ok (git verify (repo w)).1 then rest
                              else git_checkout_b h :: rest).
Proof.
  intros Hl Hk Hd Hh Hna. cbv zeta. unfold cmd_recover, SESSION_FILE, HEAD_FILE.
  destruct (record_at_file _ _ _ Hh) as [ch Hch].
  step_by ltac:(apply file_exists_true; proj; by rewrite Hk). cbn [negb].
  step_by ltac:(by apply SESSION_DIR_ok).
  step_by ltac:(apply file_exists_true; proj; exact Hd). cbn [negb].
  match goal with
  | |- context [bind (is_active_session ?p) _ ?W0] =>
      destruct (is_active_session_false W0 p) as [b Hb]; [done|done|]
  end.
  step_by ltac:(exact Hb). clear Hb.
  set (W := if b then _ else _).
  assert (fs W = fs w ∧ git_log W = git_log w ∧ repo W = repo w)
    as (HfW & HlW & HrW) by (subst W; by destruct b).
  clearbody W.
  step_by ltac:(by apply session_file_ok; [simpl; lia|]).
  step_by ltac:(by apply session_file_ok; [simpl; lia|]).
  step_by ltac:(apply file_exists_true; proj; by rewrite HfW, Hch).
  cbn [negb]. rewrite bind_assoc.
  step_by ltac:(apply file_exists_true; proj; by rewrite HfW, Hch).
  step_by ltac:(reflexivity). cbn [negb].
  step_by ltac:(apply read_from_file_some; proj; by rewrite HfW).
  step_by ltac:(apply read_from_file_some; proj; by rewrite HfW).
  cbn [or_text].
  step_by ltac:(reflexivity). step_by ltac:(apply execute_git_command_None).
  rewrite format_1. proj. rewrite HrW. cbn [fst snd].
  assert (∀ (W0 : world Repo) pre,
    git_log W0 = git_log w ++ pre →
    ∃ rest,
      git_log
        ((let* ok := write_to_file (Str ACTIVE_FILE) (Str s) in
          if negb ok then
            fprintf Stderr [Str COLOR_RED; Str "Error: Failed to activate session.";
                            Str COLOR_RESET; Str nl] >> exit EXIT_FAILURE
          else
          let* git_cmd := snprintf_local DEFAULT_BUFFER_SIZE
                            [Str "git checkout "; ReadBuf; Str " --detach"] in
          let* r := execute_git_command git git_cmd None in
          if negb r.1 then
            fprintf Stderr [Str COLOR_RED; Str "Error: Failed to checkout commit: ";
                            ErrMsg; Str COLOR_RESET; Str nl] >> exit EXIT_FAILURE
          else
          fprintf Stdout [Str COLOR_GREEN; Str "Recovered session '"; Str s;
                          Str "'"; Str COLOR_RESET; Str nl]) W0).2
      = git_log w ++ pre ++ rest) as Htail.
  { intros W0 pre HW0.
    destruct (write_to_file_frame (Str ACTIVE_FILE) (Str s) W0)
      as (ok & W1 & E1 & Hl1 & _).
    step_by ltac:(exact E1).
    destruct ok; cbn [negb];
      [|rewrite complain_exits; cbn [snd]; proj; exists [];
        by rewrite Hl1, HW0, app_nil_r].
    step_by ltac:(reflexivity). step_by ltac:(apply execute_git_command_None).
    cbn [fst snd].
    destruct (git_ok _); cbn [negb]; rewrite ?complain_exits;
      unfold fprintf; cbn [snd]; proj; rewrite Hl1, HW0, <- app_assoc;
      by eexists. }
  destruct (git_ok _); cbn [negb].
  - step_by ltac:(reflexivity).
    match goal with |- context [bind (write_to_file _ _) _ ?W0] =>
      destruct (Htail W0 [snprintf DEFAULT_BUFFER_SIZE
                            ("git rev-parse --verify " +:+ h)])
        as [rest Hr]; [proj; by rewrite HlW|] end.
    exists rest. exact Hr.
  - rewrite bind_assoc. step_by ltac:(reflexivity).
    rewrite bind_assoc. step_by ltac:(reflexivity).
    rewrite bind_assoc. step_by ltac:(apply execute_git_command_None).
    rewrite format_1. proj. cbn [fst snd].
    destruct (git_ok _); cbn [negb when].
    + step_by ltac:(reflexivity).
      match goal with |- context [bind (write_to_file _ _) _ ?W0] =>
        destruct (Htail W0 [snprintf DEFAULT_BUFFER_SIZE
                              ("git rev-parse --verify " +:+ h);
                            git_checkout_b h])
          as [rest Hr];
          [proj; unfold git_checkout_b; by rewrite HlW, <- app_assoc|] end.
      exists rest. exact Hr.
    + rewrite ?bind_assoc. step_by ltac:(reflexivity).
      erewrite bind_exit by reflexivity.
      cbn [snd]. proj. exists []. unfold git_checkout_b.
      by rewrite HlW, <- app_assoc.
Qed.

End Properties.

(** ** The claims at concrete inputs *)

(** C1, counterexample: [exp1] is active, the merge of [tmp] fails; the
    handler then issues the forced deletion of [tmp]. *)
Lemma save_conflict_deletes_temp_branch :
  let w := world_of fs_exp1_kept_active "" in
  let r := cmd_save git_conflict (Some "tmp") w in
  active_pointer (fs w) = Some "exp1"
  ∧ record_at (fs w) (record_path "session") = Some "main"
  ∧ git_ok (git_conflict "git merge tmp" tt).1 = false
  ∧ r.1 = Exit 1
  ∧ git_log r.2 = ["git checkout -b tmp"; "git checkout main"; "git merge tmp";
                   "git checkout tmp"; "git branch -D tmp"]
  ∧ ¬ temp_branch_kept (git_log r.2) "tmp".
Proof.
  split_and!; [vm_compute; reflexivity..|].
  intros H. apply H. vm_compute. apply list_elem_of_In. simpl. tauto.
Qed.

(** C1, the amended statement at that input. *)
Lemma save_merge_outcome_witness :
  let w := world_of fs_exp1_kept_active "" in
  let r := cmd_save git_conflict (Some "tmp") w in
  r.1 = Exit 1
  ∧ git_log r.2 = [] ++ ["git checkout -b tmp"; "git checkout main"; "git merge tmp";
                   "git checkout tmp"; "git branch -D tmp"]
  ∧ output r.2 = [] ++
      [(Stderr, "Error: Failed to merge changes. Please resolve conflicts manually." +:+ nl)]
  ∧ fs r.2 = fs_exp1_kept_active.
Proof.
  apply (save_merge_outcome git_conflict (world_of fs_exp1_kept_active "")
           "tmp" "exp1" "main"); vm_compute; reflexivity.
Defined.



(** C3, counterexample: with [exp1] active and [old] inactive, the unnamed
    purge exits with status 1 and removes nothing, [old] included. *)
Lemma sweep_refused_while_a_session_is_active :
  let w := world_of fs_two_sessions "" in
  let r := cmd_clean None w in
  active_pointer (fs w) = Some "exp1"
  ∧ r.1 = Exit 1
  ∧ fs r.2 = fs w
  ∧ fs r.2 !! session_dir_path "old" = Some Dir.
Proof. split_and!; vm_compute; reflexivity. Qed.

(** C3, the amended statement with no session active. *)
Lemma clean_guard_and_sweep_witness :
  let w := world_of fs_exp1 "" in
  let r := cmd_clean None w in
  r.1 = Ret tt
  ∧ output r.2 = [(Stdout, COLOR_GREEN +:+ "1" +:+ " session(s) cleaned."
                           +:+ COLOR_RESET +:+ nl)].
Proof.
  destruct (clean_guard_and_sweep (world_of fs_exp1 "")) as [_ H].
  { vm_compute; reflexivity. }
  apply H.
  - vm_compute; reflexivity.
  - intros n Hn. vm_compute in Hn.
    repeat (apply elem_of_cons in Hn as [->|Hn]; [vm_compute; lia|]).
    by apply elem_of_nil in Hn.
Defined.






(** C10 at a concrete input: the answer to the prompt is [n]. *)
Lemma exit_declined_changes_nothing_witness :
  ∃ w', cmd_exit git_fine None (world_of fs_exp1_kept_active "n") = (Exit 0, w')
        ∧ fs w' = fs_exp1_kept_active
        ∧ git_log w' = [] ++ ["git status --porcelain"]
        ∧ output w' = [] ++
            [(Stdout, "Discard uncommitted changes and exit? (y/N): ");
             (Stdout, "Aborted." +:+ nl)].
Proof.
  apply (exit_declined_changes_nothing git_fine
           (world_of fs_exp1_kept_active "n")
           None "exp1" "main"); vm_compute; reflexivity.
Defined.

(** C5, the code at the failing input: open [a], exit, abort [a], resume
    [a].  Every invocation ends with status 0, the abort reports success,
    and yet the active pointer ends up naming the aborted session: abort
    removed nothing, because its five path pointers are all the static
    buffer of [safe_path_join], which holds the path of the description
    record by then. *)
Lemma aborted_session_is_resumed_again :
  let r := invoke_all git_fine strftime_fixed
             [Checkout (Some "a") None; ExitSession (Some "--force");
              Abort (Some "a"); Switch (Some "a")]
             (world_of fs_empty "") in
  r.1 = [0; 0; 0; 0]%Z
  ∧ output r.2 !! 3 = Some (Stdout, COLOR_GREEN +:+ "Aborted session 'a'"
                                   +:+ COLOR_RESET +:+ nl)
  ∧ active_pointer (fs r.2) = Some "a".
Proof. split_and!; vm_compute; reflexivity. Qed.

(** C8, the code at the failing input: [exp1] has a head record but no
    original-ref record, neither in its directory nor at the path the
    program reads, yet the listing prints it as a regular entry and
    nothing goes to the error stream: [session_file] and [head_file] are
    the same pointer, so both existence tests look at the head record.
    For the same reason both [rev-parse --verify] checks are made on the
    head ref. *)
Lemma list_shows_session_without_original_ref :
  let w := world_of fs_exp1_head_only "" in
  let r := cmd_list git_fine strftime_fixed w in
  fs w !! session_path "exp1" "session" = None
  ∧ fs w !! record_path "session" = None
  ∧ record_at (fs w) (session_path "exp1" "head") = Some "abc123"
  ∧ record_at (fs w) (record_path "head") = Some "abc123"
  ∧ r.1 = Ret tt
  ∧ on_stream Stderr (output r.2) = []
  ∧ output r.2 !! 1 = Some (Stdout, "  " +:+ "  " +:+ COLOR_YELLOW +:+ "exp1" +:+ nl)
  ∧ git_log r.2 = ["git rev-parse --verify abc123";
                   "git rev-parse --verify abc123"].
Proof. split_and!; vm_compute; reflexivity. Qed.

(** C9, the code at the failing input: abort without argument while [exp1]
    is active returns to [main] and clears the pointer, but the session
    directory and the records stay; the only change to the store is the
    pointer file.  The unnamed form also reports a different session name
    than the named form, the name being read through the buffer that the
    original-ref read overwrote. *)
Lemma abort_leaves_session_directory :
  let w := world_of fs_exp1_kept_active "" in
  let r := cmd_abort git_fine None w in
  let r' := cmd_abort git_fine (Some "exp1") w in
  active_pointer (fs w) = Some "exp1"
  ∧ r.1 = Ret tt
  ∧ git_log r.2 = ["git checkout main"]
  ∧ active_pointer (fs r.2) = None
  ∧ fs r.2 !! session_dir_path "exp1" = Some Dir
  ∧ fs r.2 = delete ACTIVE_FILE (fs w)
  ∧ output r.2 = [(Stdout, COLOR_GREEN +:+ "Aborted session 'main'"
                           +:+ COLOR_RESET +:+ nl)]
  ∧ r'.1 = Ret tt
  ∧ fs r'.2 !! session_dir_path "exp1" = Some Dir
  ∧ output r'.2 = [(Stdout, COLOR_GREEN +:+ "Aborted session 'exp1'"
                            +:+ COLOR_RESET +:+ nl)].
Proof. split_and!; vm_compute; reflexivity. Qed.

(** ** The further properties at concrete inputs *)

(** X2 at a concrete input: the head record of [exp1] across an exit
    answered with yes. *)
Lemma exit_touches_only_the_pointer_witness :
  fs (cmd_exit git_fine None (world_of fs_exp1_active "y")).2
    !! session_path "exp1" "head"
  = fs (world_of fs_exp1_active "y") !! session_path "exp1" "head".
Proof.
  apply (exit_touches_only_the_pointer git_fine None
           (world_of fs_exp1_active "y") (session_path "exp1" "head")).
  vm_compute. discriminate.
Defined.

(** X3 at a concrete input: [exp1] exists but is not active. *)
Lemma no_active_session_stops_save_exit_branch_witness :
  let w := world_of fs_exp1 "" in
  (∃ w', cmd_save git_fine (Some "tmp") w = (Exit 1, w') ∧ no_effect w w'
         ∧ on_stream Stderr (output w')
           = on_stream Stderr (output w)
             ++ ["Error: No active kaishaku session" +:+ nl])
  ∧ (∃ w', cmd_exit git_fine None w = (Exit 1, w') ∧ no_effect w w'
           ∧ on_stream Stderr (output w')
             = on_stream Stderr (output w)
               ++ ["Error: No active kaishaku session." +:+ nl])
  ∧ (∃ w', cmd_branch git_fine (Some "tmp") w = (Exit 1, w') ∧ no_effect w w'
           ∧ on_stream Stderr (output w')
             = on_stream Stderr (output w)
               ++ ["Error: No active kaishaku session." +:+ nl]).
Proof.
  apply (no_active_session_stops_save_exit_branch git_fine
           (world_of fs_exp1 "") "tmp" None).
  vm_compute. reflexivity.
Defined.

(** X5 at a concrete input: [exp1] has a head record in its directory,
    but there is none at the path the program reads. *)
Lemma session_without_head_record_is_refused_witness :
  let w := world_of fs_exp1 "" in
  (∃ w', cmd_switch git_fine (Some "exp1") w = (Exit 1, w') ∧ no_effect w w')
  ∧ (∃ w', cmd_recover git_fine (Some "exp1") w = (Exit 1, w')
           ∧ no_effect w w').
Proof.
  apply (session_without_head_record_is_refused git_fine
           (world_of fs_exp1 "") "exp1");
    vm_compute; reflexivity.
Defined.

(** X6 at a concrete input: the inactive session [exp1]. *)
Lemma named_clean_never_completes_witness :
  let w := world_of fs_exp1_kept "" in
  let r := cmd_clean (Some "exp1") w in
  r.1 = Exit 1
  ∧ git_log r.2 = git_log w
  ∧ ∀ p, p ≠ record_path "head" → fs r.2 !! p = fs w !! p.
Proof.
  apply (named_clean_never_completes (world_of fs_exp1_kept "") "exp1").
  vm_compute. eexists. reflexivity.
Defined.

(** X7 at a concrete input: [exp1], opened from [main], is saved back. *)
Lemma save_writes_the_sentinel_witness :
  let w := world_of fs_exp1_kept_active "" in
  let r := cmd_save git_fine (Some "tmp") w in
  (∀ p, p ≠ record_path "head" → p ≠ record_path "time" →
        fs r.2 !! p = fs w !! p)
  ∧ (∀ f, fs r.2 !! session_path "exp1" f = fs w !! session_path "exp1" f)
  ∧ (r.1 = Ret tt →
     fs w !! record_path "head" ≠ Some Dir →
     fs r.2 !! record_path "head" = Some (File ("HEAD" +:+ nl))).
Proof.
  apply (save_writes_the_sentinel git_fine
           (world_of fs_exp1_kept_active "") "tmp" "exp1" "main");
    vm_compute; reflexivity.
Defined.

(** X8 at a concrete input: branch [feature] from the active session [exp1]. *)
Lemma branch_off_writes_the_sentinel_witness :
  let w := world_of fs_exp1_kept_active "" in
  let cmd := git_checkout_b "feature" in
  let r := cmd_branch git_fine (Some "feature") w in
  git_log r.2 = git_log w ++ [cmd]
  ∧ if git_ok (git_fine cmd (repo w)).1
    then r.1 = Ret tt
         ∧ fs r.2 = <[record_path "head" := File ("HEAD" +:+ nl)]> (fs w)
    else r.1 = Exit 1 ∧ fs r.2 = fs w.
Proof.
  apply (branch_off_writes_the_sentinel git_fine
           (world_of fs_exp1_kept_active "") "feature" "exp1").
  - vm_compute; reflexivity.
  - vm_compute. discriminate.
Defined.

(** X9 at a concrete input: the original-ref record of [exp1] across its
    abort. *)
Lemma abort_removes_only_pointer_and_description_witness :
  fs (cmd_abort git_fine (Some "exp1") (world_of fs_exp1 "")).2
    !! session_path "exp1" "session"
  = fs (world_of fs_exp1 "") !! session_path "exp1" "session".
Proof.
  apply (abort_removes_only_pointer_and_description git_fine (Some "exp1")
           (world_of fs_exp1 "") (session_path "exp1" "session")).
  - vm_compute. discriminate.
  - vm_compute. reflexivity.
Defined.

(** X10 at a concrete input: the word [save]. *)
Lemma command_offset_exists_exactly_for_names_witness :
  get_command_offset "save" ≠ (-1)%Z ↔ "save" ∈ command_names.
Proof.
  apply (command_offset_exists_exactly_for_names "save").
  vm_compute. reflexivity.
Defined.

(** X11 at a concrete input: the word [stash]. *)
Lemma main_rejects_unknown_words_witness :
  main git_fine strftime_fixed (λ _ _ _, inl ENOENT)
    ["kaishaku"; "stash"; "exp1"] (world_of fs_exp1 "")
  = (Ret 1%Z, add_output (world_of fs_exp1 "") Stderr
                ("Unknown command: " +:+ "stash" +:+ nl)).
Proof.
  apply (main_rejects_unknown_words git_fine strftime_fixed
           (λ _ _ _, inl ENOENT) "kaishaku" "stash" ["exp1"]
           (world_of fs_exp1 "")).
  - vm_compute. reflexivity.
  - apply (bool_decide_eq_false_1 ("stash" ∈ command_names)).
    vm_compute. reflexivity.
  - vm_compute. discriminate.
Defined.

(** X12 at a concrete input: the command line [kaishaku save tmp]. *)
Lemma main_runs_the_named_handler_witness :
  main git_fine strftime_fixed (λ _ _ _, inl ENOENT)
    ["kaishaku"; "save"; "tmp"] (world_of fs_exp1_active "")
  = (load_config git_fine >> cmd_save git_fine (Some "tmp") >> ret 0%Z)
      (world_of fs_exp1_active "").
Proof.
  apply (main_runs_the_named_handler git_fine strftime_fixed
           (λ _ _ _, inl ENOENT) "kaishaku" "save" ["tmp"]
           (cmd_save git_fine (Some "tmp")) (world_of fs_exp1_active "")).
  reflexivity.
Defined.

(** X13 at a concrete input: [kaishaku list] in an empty directory. *)
Lemma main_outside_a_repository_witness :
  let w := world_of ∅ "" in
  let r := run_main git_fine strftime_fixed (λ _ _ _, inl ENOENT)
             ["kaishaku"; "list"] w in
  r.1 = 1%Z ∧ no_effect w r.2
  ∧ output r.2 = output w ++
      [(Stderr, "Error: Failed to create directory .git/kaishaku: "
                +:+ "No such file or directory" +:+ nl)].
Proof.
  apply (main_outside_a_repository git_fine strftime_fixed
           (λ _ _ _, inl ENOENT) "kaishaku" "list" [] (world_of ∅ "")).
  - apply (bool_decide_eq_true_1 ("list" ∈ command_names)).
    vm_compute. reflexivity.
  - vm_compute. reflexivity.
  - vm_compute. reflexivity.
Defined.

(** X14 at a concrete input: [config set auto.stash 4294967297]; the
    value stored and saved is 1. *)
Lemma config_set_stores_and_saves_witness :
  let w := world_of fs_exp1 "" in
  let n := 1%Z in
  let r := cmd_config git_fine ["set"; "auto.stash"; "4294967297"] w in
  (- 2 ^ 31 ≤ n < 2 ^ 31)%Z
  ∧ r.1 = Ret tt
  ∧ config_get "auto.stash" (config r.2) = Some n
  ∧ (∀ k, k ≠ "auto.stash" →
          config_get k (config r.2) = config_get k (config w))
  ∧ git_log r.2 = git_log w ++ [git_config_set "auto.stash" n]
  ∧ fs r.2 = fs w.
Proof.
  apply (config_set_stores_and_saves git_fine (world_of fs_exp1 "")
           "auto.stash" "4294967297" [] 0%Z).
  vm_compute. reflexivity.
Defined.

(** X15 at a concrete input: the key [colour]. *)
Lemma config_rejects_unknown_keys_witness :
  let w := world_of fs_exp1 "" in
  let complaint := "Error: Unknown config key '" +:+ "colour" +:+ "'." +:+ nl in
  cmd_config git_fine ["get"; "colour"] w
  = (Exit 1, add_output w Stderr complaint)
  ∧ cmd_config git_fine ["set"; "colour"; "1"] w
    = (Exit 1, add_output w Stderr complaint).
Proof.
  apply (config_rejects_unknown_keys git_fine (world_of fs_exp1 "")
           "colour" "1" []).
  apply (bool_decide_eq_false_1 ("colour" ∈ config_keys)).
  vm_compute. reflexivity.
Defined.

(** X16 at a concrete input: git knows [auto.stash] only. *)
Lemma load_config_reads_or_writes_back_witness :
  let git := scripted [] [("git config --get kaishaku.auto.stash", "1" +:+ nl)] in
  let w := world_of fs_exp1 "" in
  ∃ w', load_config git w = (Ret tt, w')
        ∧ config w' = {| confirm_exit := 1; auto_stash := 1; auto_save := 0 |}
        ∧ git_log w' = ["git config --get kaishaku.confirm.exit";
                        "git config --local kaishaku.confirm.exit 1";
                        "git config --get kaishaku.auto.stash";
                        "git config --get kaishaku.auto.save";
                        "git config --local kaishaku.auto.save 0"]
        ∧ fs w' = fs w.
Proof.
  destruct (load_config_reads_or_writes_back
              (scripted [] [("git config --get kaishaku.auto.stash", "1" +:+ nl)])
              (world_of fs_exp1 "")) as (w' & E & C & L & _ & F).
  { vm_compute. eexists. reflexivity. }
  exists w'. split_and!; [exact E| | |exact F].
  - rewrite C. vm_compute. reflexivity.
  - rewrite L. vm_compute. reflexivity.
Defined.

(** X17 at a concrete input: the sentinel written to the head record of
    [exp1]. *)
Lemma written_record_reads_back_witness :
  let w := world_of fs_exp1 "" in
  let p := Str (session_path "exp1" "head") in
  let w1 := (write_to_file p (Str "HEAD") w).2 in
  read_from_file p w1 = (Ret (Some ReadBuf), set_buffer w1 "HEAD").
Proof.
  apply (written_record_reads_back (world_of fs_exp1 "")
           (Str (session_path "exp1" "head")) (Str "HEAD")).
  - vm_compute. reflexivity.
  - vm_compute. reflexivity.
  - vm_compute. lia.
Defined.

(** X18 at a concrete input: the head record of [exp1]. *)
Lemma read_line_is_short_and_newline_free_witness :
  let w := world_of fs_exp1 "" in
  let w' := (read_from_file (Str (session_path "exp1" "head")) w).2 in
  ReadBuf = ReadBuf ∧ String.length (deref w' ReadBuf) < DEFAULT_BUFFER_SIZE
  ∧ no_newline (deref w' ReadBuf) = true ∧ fs w' = fs w.
Proof.
  apply (read_line_is_short_and_newline_free (world_of fs_exp1 "")
           (Str (session_path "exp1" "head")) ReadBuf).
  vm_compute. reflexivity.
Defined.

(** X19 at a concrete input: the time written for [exp1] is the one
    shown for [old]. *)
Lemma timestamp_reads_back_witness :
  let w := world_of fs_two_sessions "" in
  ∃ r w', (update_timestamp (Str "exp1")
           >> get_session_time strftime_fixed (Str "old")) w
          = (Ret r, w')
          ∧ deref w' r = match strftime_fixed (now w) with
                         | Some t => snprintf DEFAULT_BUFFER_SIZE t
                         | None => "invalid"
                         end.
Proof.
  apply (timestamp_reads_back strftime_fixed "exp1" "old"
           (world_of fs_two_sessions "")).
  - vm_compute. lia.
  - vm_compute. lia.
  - vm_compute. discriminate.
  - vm_compute. split; discriminate.
  - vm_compute. lia.
Defined.

(** X21 at a concrete input: [exp1], opened from [main] at [abc123], is
    active; all three lines show [abc123]. *)
Lemma status_lines_show_the_last_record_read_witness :
  let w := world_of fs_exp1_kept_active "" in
  let label (indent name : string) :=
    indent +:+ COLOR_CYAN +:+ name +:+ COLOR_RESET +:+ " " +:+ COLOR_WHITE in
  ∃ rest,
    output (cmd_status git_fine w).2
    = output w
      ++ [(Stdout, label "" "Active session:" +:+ "abc123" +:+ nl);
          (Stdout, label "  " "Original branch:" +:+ "abc123" +:+ nl);
          (Stdout, label "  " "Session HEAD:" +:+ "abc123" +:+ nl)]
      ++ rest.
Proof.
  apply (status_lines_show_the_last_record_read git_fine
           (world_of fs_exp1_kept_active "") "exp1").
  vm_compute; reflexivity.
Defined.

(** X22 at a concrete input: opening [exp2] when [git rev-parse HEAD] fails. *)
Lemma interrupted_open_is_not_rolled_back_witness :
  let git := scripted ["git rev-parse HEAD"] answers_main in
  let w := world_of fs_exp1 "" in
  let r := cmd_checkout git (Some "exp2") None w in
  r.1 = Exit 1
  ∧ fs r.2 = <[record_path "session" := File ("main" +:+ nl)]>
               (<[session_dir_path "exp2" := Dir]> (fs w)).
Proof.
  apply (interrupted_open_is_not_rolled_back
           (scripted ["git rev-parse HEAD"] answers_main)
           (world_of fs_exp1 "") "exp2" "main" ("main" +:+ nl) tt).
  - vm_compute. reflexivity.
  - vm_compute. lia.
  - vm_compute. reflexivity.
  - vm_compute. reflexivity.
  - vm_compute. discriminate.
  - vm_compute. reflexivity.
  - vm_compute. reflexivity.
  - vm_compute. reflexivity.
Defined.

(** X23 at a concrete input: opening [exp2] on [main] at [abc123]. *)
Lemma open_on_a_fresh_name_witness :
  let w := world_of fs_exp1 "" in
  let detach := git_checkout_detach (DEFAULT_BUFFER_SIZE + 27) "abc123" in
  let r := cmd_checkout git_fine (Some "exp2") None w in
  fs r.2
  = <[record_path "time" :=
        File (snprintf DEFAULT_BUFFER_SIZE (string_of_Z (now w)) +:+ nl)]>
      (<[ACTIVE_FILE := File ("exp2" +:+ nl)]>
         (<[record_path "head" := File ("abc123" +:+ nl)]>
            (<[record_path "session" := File ("main" +:+ nl)]>
               (<[session_dir_path "exp2" := Dir]> (fs w)))))
  ∧ last (git_log r.2) = Some detach
  ∧ r.1 = if git_ok (git_fine detach tt).1 then Ret tt else Exit 1.
Proof.
  apply (open_on_a_fresh_name git_fine (world_of fs_exp1 "") "exp2" None
           "main" "abc123" ("main" +:+ nl) tt tt).
  - vm_compute. reflexivity.
  - vm_compute. discriminate.
  - vm_compute. lia.
  - vm_compute. reflexivity.
  - vm_compute. reflexivity.
  - vm_compute. discriminate.
  - vm_compute. discriminate.
  - vm_compute. discriminate.
  - vm_compute. discriminate.
  - vm_compute. reflexivity.
  - vm_compute. reflexivity.
  - exists ("abc123" +:+ nl). split; vm_compute; reflexivity.
Defined.

(** X24 at a concrete input: the original-ref record of [exp1] across a
    sweep. *)
Lemma clean_removes_only_head_records_witness :
  fs (cmd_clean None (world_of fs_exp1 "")).2 !! session_path "exp1" "session"
  = fs (world_of fs_exp1 "") !! session_path "exp1" "session".
Proof.
  apply (clean_removes_only_head_records None (world_of fs_exp1 "")
           (session_path "exp1" "session")).
  vm_compute. reflexivity.
Defined.

(** X26 at a concrete input: [exp1] without original-ref record, its head
    [abc123] unknown to git. *)
Lemma recover_takes_the_head_ref_for_the_branch_witness :
  let git := scripted ["git rev-parse --verify abc123"] answers_main in
  let w := world_of fs_exp1_head_only "" in
  let verify :=
    snprintf DEFAULT_BUFFER_SIZE ("git rev-parse --verify " +:+ "abc123") in
  let r := cmd_recover git (Some "exp1") w in
  ∃ rest,
    git_log r.2
    = git_log w ++ verify :: (if git_ok (git verify (repo w)).1 then rest
                              else git_checkout_b "abc123" :: rest).
Proof.
  apply (recover_takes_the_head_ref_for_the_branch
           (scripted ["git rev-parse --verify abc123"] answers_main)
           (world_of fs_exp1_head_only "") "exp1" "abc123").
  - vm_compute. lia.
  - vm_compute. reflexivity.
  - vm_compute. eexists. reflexivity.
  - vm_compute. reflexivity.
  - vm_compute. discriminate.
Defined.
